(** * wg-edu-server: token authentication, role gates and transactional
    student records

    A shallow embedding of the Go sources of the server (packages [models],
    [middleware], [handlers] and [routes]) together with the parts of the
    libraries they call: [time], [github.com/golang-jwt/jwt/v5],
    [github.com/gin-gonic/gin] and the PostgreSQL tables of the schema files.

    Conventions.
    - A Go [string] is a byte string: Rocq's [string].  A Go [int] is a [Z].
    - A Go function returning [(T, error)] returns a [Result T].
    - [time.Now()] is an input: every function that reads the clock takes
      one [time.Time] argument per reading, in program order.
    - The database is a record of tables (lists of rows, in storage order)
      and of the [SERIAL] sequences; a statement is a function on it.  The
      model covers the relational part of the schema: primary keys, [UNIQUE]
      constraints, foreign keys with [ON DELETE CASCADE], transactions, and
      the 32-bit range of the [INTEGER] key columns.  Connection failures,
      the widths of the text columns, SQL NULLs (every column holds a Go
      value) and what a [TIMESTAMP] column makes of a time (it holds
      microseconds and no zone; the model writes and reads back the time it
      is given) are outside the model. *)

From Stdlib Require Import ZArith Lia Bool Ascii.
From Stdlib Require Import Sorting.Sorted.
From stdpp Require Import base tactics option list sorting strings countable gmap.

Local Open Scope Z_scope.

(** ** Errors and results *)

(** The values of Go's [error] interface that the program can produce. *)
Inductive error : Type :=
| sql_ErrNoRows
| pq_UniqueViolation (constraint : string)
| pq_ForeignKeyViolation (constraint : string)
| pq_NumericValueOutOfRange
| jwt_ErrTokenMalformed
| jwt_ErrTokenSignatureInvalid
| jwt_ErrTokenExpired
| jwt_ErrTokenNotValidYet
| json_UnmarshalError
| validator_ValidationErrors
| fmt_Errorf (msg : string).

Inductive Result (A : Type) : Type :=
| Ok (a : A)
| Err (e : error).
Arguments Ok {A} a.
Arguments Err {A} e.

(** ** Package [time] *)
Module time.

(** Nanoseconds since the Unix epoch. *)
Definition Time : Type := Z.
Definition Duration : Type := Z.

Definition Nanosecond : Duration := 1.
Definition Second : Duration := 1000000000 * Nanosecond.
Definition Minute : Duration := 60 * Second.
Definition Hour : Duration := 60 * Minute.

Definition Add (t : Time) (d : Duration) : Time := t + d.
Definition Before (t u : Time) : bool := t <? u.

(** Seconds from January 1, year 1 (Go's zero time) to the Unix epoch. *)
Definition unixToInternal : Z := 62135596800.

(** [t.Truncate(d)]: round [t] down to a multiple of [d] since the zero
    time; [t] itself when [d <= 0]. *)
Definition Truncate (t : Time) (d : Duration) : Time :=
  if d <=? 0 then t else t - (t + unixToInternal * Second) mod d.

End time.

(** ** Package [jwt] (golang-jwt v5), as far as the server uses it *)
Module jwt.

Definition NumericDate : Type := time.Time.

Definition TimePrecision : time.Duration := time.Second.

(** [TimePrecision] is the precision of the dates of the library, one
    second unless the program changes it (this one does not), and
    [NewNumericDate(t)] is [t.Truncate(TimePrecision)]. *)
Definition NewNumericDate (t : time.Time) : NumericDate :=
  time.Truncate t TimePrecision.

(** The registered claims the server sets or the validator reads. *)
Record RegisteredClaims : Type := mkRegisteredClaims {
  ExpiresAt : option NumericDate;
  NotBefore : option NumericDate;
  IssuedAt : option NumericDate
}.

(** [handlers.Claims] and [middleware.JWTClaims]: the same fields under the
    same JSON keys. *)
Record Claims : Type := mkClaims {
  UserID : Z;
  Role : string;
  Registered : RegisteredClaims
}.

Record Token : Type := mkToken {
  Token_Claims : Claims;
  Valid : bool
}.

(** What [Parser.ParseWithClaims] returns: a non-nil error, with the token
    when one was decoded, or a token and a nil error. *)
Inductive ParseResult : Type :=
| ParseError (token : option Token) (err : error)
| Parsed (token : Token).

(** The primitives below the library: the HMAC of [crypto/hmac] with
    SHA-256, the other registered signing methods, and the compact
    serialization (base64url over JSON). *)
Class Primitives : Type := {
  (** key, message *)
  hmacSHA256 : string -> string -> string;
  (** [Verify] of a signing method other than HS256:
      alg, signing string, signature, key *)
  otherVerify : string -> string -> string -> string -> bool;
  (** [Token.SigningString]: header segment, ".", claims segment *)
  SigningString : string -> Claims -> string;
  (** base64url of the signature *)
  EncodeSegment : string -> string;
  (** [Parser.ParseUnverified]: alg, claims, signing string, signature *)
  ParseUnverified : string -> option (string * Claims * string * string)
}.

(** Decoding inverts encoding. *)
Class Lawful (P : Primitives) : Prop := {
  ParseUnverified_SignedString :
    forall alg claims sig,
      ParseUnverified (SigningString alg claims +:+ "." +:+ EncodeSegment sig)
      = Some (alg, claims, SigningString alg claims, sig)
}.

Section with_primitives.
Context {P : Primitives}.

(** [SigningMethodHMAC.Sign] and [Verify] for HS256. *)
Definition HS256_Sign (signingString key : string) : string :=
  hmacSHA256 key signingString.

Definition HS256_Verify (signingString sig key : string) : bool :=
  bool_decide (sig = hmacSHA256 key signingString).

Definition Verify (alg signingString sig key : string) : bool :=
  if bool_decide (alg = "HS256") then HS256_Verify signingString sig key
  else otherVerify alg signingString sig key.

(** [NewWithClaims(SigningMethodHS256, claims).SignedString(key)]. *)
Definition SignedString (claims : Claims) (key : string) : Result string :=
  let sstr := SigningString "HS256" claims in
  let sig := HS256_Sign sstr key in
  Ok (sstr +:+ "." +:+ EncodeSegment sig).

(** [Validator.Validate] with the default options: [exp] and [nbf] are
    checked when present, [iat] is not checked, leeway is zero. *)
Definition verifyExpiresAt (c : Claims) (cmp : time.Time) : bool :=
  match ExpiresAt (Registered c) with
  | None => true
  | Some exp => time.Before cmp exp
  end.

Definition verifyNotBefore (c : Claims) (cmp : time.Time) : bool :=
  match NotBefore (Registered c) with
  | None => true
  | Some nbf => negb (time.Before cmp nbf)
  end.

Definition Validate (c : Claims) (now : time.Time) : option error :=
  if negb (verifyExpiresAt c now) then Some jwt_ErrTokenExpired
  else if negb (verifyNotBefore c now) then Some jwt_ErrTokenNotValidYet
  else None.

(** [ParseWithClaims(tokenString, claims, keyFunc)] where [keyFunc] returns
    [key]; [now] is the validator's clock reading. *)
Definition ParseWithClaims (tokenString key : string) (now : time.Time)
  : ParseResult :=
  match ParseUnverified tokenString with
  | None => ParseError None jwt_ErrTokenMalformed
  | Some (alg, claims, signingString, sig) =>
      if Verify alg signingString sig key then
        match Validate claims now with
        | Some e => ParseError (Some (mkToken claims false)) e
        | None => Parsed (mkToken claims true)
        end
      else ParseError (Some (mkToken claims false)) jwt_ErrTokenSignatureInvalid
  end.

End with_primitives.

End jwt.

(** ** Package [models]: the tables and the repository *)
Module models.

(** [User]: a row of table [users]. *)
Record User : Type := mkUser {
  User_ID : Z;
  User_Username : string;
  User_Password : string;
  User_Role : string;
  User_DateCreated : time.Time
}.

(** A row of table [students] (schema_students.sql). *)
Record StudentRow : Type := mkStudentRow {
  Row_ID : Z;
  Row_UserID : Z;
  Row_FirstName : string;
  Row_LastName : string;
  Row_Email : string;
  Row_Grade : string;
  Row_CreatedAt : time.Time;
  Row_UpdatedAt : time.Time
}.

(** [Student]: a row of [students] with the owner's username. *)
Record Student : Type := mkStudent {
  Student_ID : Z;
  Student_UserID : Z;
  Student_FirstName : string;
  Student_LastName : string;
  Student_Email : string;
  Student_Grade : string;
  Student_CreatedAt : time.Time;
  Student_UpdatedAt : time.Time;
  Student_Username : string
}.

Record StudentRequest : Type := mkStudentRequest {
  Req_FirstName : string;
  Req_LastName : string;
  Req_Email : string;
  Req_Grade : string;
  Req_Username : string;
  Req_Password : string
}.

(** [Subject]: a row of table [subjects]. *)
Record Subject : Type := mkSubject {
  Subject_ID : Z;
  Subject_Grade : string;
  Subject_Name : string;
  Subject_Description : string;
  Subject_CreatedAt : time.Time
}.

(** [TeacherSubject]: a row of table [teacher_subjects]. *)
Record TeacherSubject : Type := mkTeacherSubject {
  TS_ID : Z;
  TS_TeacherID : Z;
  TS_SubjectID : Z;
  TS_CreatedAt : time.Time
}.

(** The database behind [*DB]: the four tables and the sequences of their
    [SERIAL] keys. *)
Record DB : Type := mkDB {
  users : list User;
  students : list StudentRow;
  subjects : list Subject;
  teacher_subjects : list TeacherSubject;
  users_id_seq : Z;
  students_id_seq : Z;
  teacher_subjects_id_seq : Z
}.

Definition set_users (f : list User -> list User) (db : DB) : DB :=
  mkDB (f (users db)) (students db) (subjects db) (teacher_subjects db)
       (users_id_seq db) (students_id_seq db) (teacher_subjects_id_seq db).

Definition set_students (f : list StudentRow -> list StudentRow) (db : DB) : DB :=
  mkDB (users db) (f (students db)) (subjects db) (teacher_subjects db)
       (users_id_seq db) (students_id_seq db) (teacher_subjects_id_seq db).

Definition set_teacher_subjects
  (f : list TeacherSubject -> list TeacherSubject) (db : DB) : DB :=
  mkDB (users db) (students db) (subjects db) (f (teacher_subjects db))
       (users_id_seq db) (students_id_seq db) (teacher_subjects_id_seq db).

(** The rows of the four tables, without the sequences. *)
Definition tables (db : DB)
  : list User * list StudentRow * list Subject * list TeacherSubject :=
  (users db, students db, subjects db, teacher_subjects db).

(** *** Statements *)

(** [nextval]: a sequence value is consumed even when the statement that
    asked for it fails or its transaction rolls back. *)
Definition nextval_users (db : DB) : Z * DB :=
  (users_id_seq db,
   mkDB (users db) (students db) (subjects db) (teacher_subjects db)
        (users_id_seq db + 1) (students_id_seq db) (teacher_subjects_id_seq db)).

Definition nextval_students (db : DB) : Z * DB :=
  (students_id_seq db,
   mkDB (users db) (students db) (subjects db) (teacher_subjects db)
        (users_id_seq db) (students_id_seq db + 1) (teacher_subjects_id_seq db)).

Definition nextval_teacher_subjects (db : DB) : Z * DB :=
  (teacher_subjects_id_seq db,
   mkDB (users db) (students db) (subjects db) (teacher_subjects db)
        (users_id_seq db) (students_id_seq db) (teacher_subjects_id_seq db + 1)).

(** Modelled from the spec: the schema of table [users], whose file is not
    among the sources: [users(id, username unique, password, role,
    date_created)] with [id] its serial primary key.

    [INSERT INTO users (username, password, role, date_created)
     VALUES (...) RETURNING id]. *)
Definition insert_user (username password role : string)
  (date_created : time.Time) (db : DB) : Result Z * DB :=
  let '(id, db) := nextval_users db in
  if existsb (fun u => User_ID u =? id) (users db) then
    (Err (pq_UniqueViolation "users_pkey"), db)
  else if existsb (fun u => bool_decide (User_Username u = username)) (users db) then
    (Err (pq_UniqueViolation "users_username_key"), db)
  else
    (Ok id,
     set_users (fun us => us ++ [mkUser id username password role date_created]) db).

(** [INSERT INTO students (user_id, first_name, last_name, email, grade,
     created_at, updated_at) VALUES (...) RETURNING ...]: primary key,
    [email UNIQUE], then [user_id REFERENCES users(id)].  The row holds the
    two times as they are given; the rounding of a [TIMESTAMP] column is
    outside the model, here and in the other statements. *)
Definition insert_student (user_id : Z)
  (first_name last_name email grade : string)
  (created_at updated_at : time.Time) (db : DB) : Result StudentRow * DB :=
  let '(id, db) := nextval_students db in
  if existsb (fun r => Row_ID r =? id) (students db) then
    (Err (pq_UniqueViolation "students_pkey"), db)
  else if existsb (fun r => bool_decide (Row_Email r = email)) (students db) then
    (Err (pq_UniqueViolation "students_email_key"), db)
  else if negb (existsb (fun u => User_ID u =? user_id) (users db)) then
    (Err (pq_ForeignKeyViolation "students_user_id_fkey"), db)
  else
    let row := mkStudentRow id user_id first_name last_name email grade
                            created_at updated_at in
    (Ok row, set_students (fun rs => rs ++ [row]) db).

(** The key columns are [INTEGER] ([SERIAL] is an [INTEGER] fed by a
    sequence; for [users.id] this is README.md's "Serial primary key"): they
    hold 32-bit values.  A Go [int] has 64 bits, and a statement that
    compares a parameter outside the 32-bit range with a key column fails,
    "value out of range for type integer" (SQLSTATE 22003), whatever the
    table holds.  No row holds such a key, so the failure takes the place
    of the statement matching no row: a query of one row by key that finds
    none returns [no_row key].  The statements below that update or delete
    by one key are run with a key that was just read from a row. *)
Definition is_integer (n : Z) : bool :=
  (-2147483648 <=? n) && (n <=? 2147483647).

Definition no_row (key : Z) : error :=
  if is_integer key then sql_ErrNoRows else pq_NumericValueOutOfRange.

(** [SELECT user_id FROM students WHERE id = $1]. *)
Definition select_student_user_id (id : Z) (db : DB) : Result Z :=
  match find (fun r => Row_ID r =? id) (students db) with
  | Some r => Ok (Row_UserID r)
  | None => Err (no_row id)
  end.

(** [SELECT username FROM users WHERE id = $1]. *)
Definition select_username (id : Z) (db : DB) : Result string :=
  match find (fun u => User_ID u =? id) (users db) with
  | Some u => Ok (User_Username u)
  | None => Err (no_row id)
  end.

(** [UPDATE users SET password = $1 WHERE id = $2]. *)
Definition with_password (password : string) (u : User) : User :=
  mkUser (User_ID u) (User_Username u) password (User_Role u)
         (User_DateCreated u).

Definition update_user_password (password : string) (id : Z) (db : DB)
  : Result unit * DB :=
  (Ok tt,
   set_users
     (map (fun u => if User_ID u =? id then with_password password u else u))
     db).

(** [UPDATE students SET first_name = $1, last_name = $2, email = $3,
     grade = $4, updated_at = $5 WHERE id = $6 RETURNING ...]: the new
    email must not be that of another row.  [updated_at] is written, and
    returned, as it is given. *)
Definition with_profile (first_name last_name email grade : string)
  (updated_at : time.Time) (r : StudentRow) : StudentRow :=
  mkStudentRow (Row_ID r) (Row_UserID r) first_name last_name email grade
               (Row_CreatedAt r) updated_at.

Definition update_student (first_name last_name email grade : string)
  (updated_at : time.Time) (id : Z) (db : DB) : Result StudentRow * DB :=
  match find (fun r => Row_ID r =? id) (students db) with
  | None => (Err (no_row id), db)
  | Some r =>
      if existsb (fun r' => negb (Row_ID r' =? id)
                            && bool_decide (Row_Email r' = email))
                 (students db)
      then (Err (pq_UniqueViolation "students_email_key"), db)
      else
        (Ok (with_profile first_name last_name email grade updated_at r),
         set_students
           (map (fun r' =>
                   if Row_ID r' =? id
                   then with_profile first_name last_name email grade
                                     updated_at r'
                   else r'))
           db)
  end.

(** [DELETE FROM students WHERE id = $1]. *)
Definition delete_student (id : Z) (db : DB) : Result unit * DB :=
  (Ok tt, set_students (filter (fun r => Row_ID r <> id)) db).

(** [DELETE FROM users WHERE id = $1], with the cascades of the schema:
    [students.user_id] and [teacher_subjects.teacher_id]. *)
Definition delete_user (id : Z) (db : DB) : Result unit * DB :=
  (Ok tt,
   set_teacher_subjects (filter (fun ts => TS_TeacherID ts <> id))
     (set_students (filter (fun r => Row_UserID r <> id))
        (set_users (filter (fun u => User_ID u <> id)) db))).

(** [INSERT INTO teacher_subjects (teacher_id, subject_id) VALUES ($1, $2)
     ON CONFLICT (teacher_id, subject_id) DO NOTHING]; [created_at] is the
    database's [NOW()]. *)
Definition insert_teacher_subject (teacher_id subject_id : Z)
  (db_now : time.Time) (db : DB) : Result unit * DB :=
  let '(id, db) := nextval_teacher_subjects db in
  if existsb (fun ts => (TS_TeacherID ts =? teacher_id)
                        && (TS_SubjectID ts =? subject_id))
             (teacher_subjects db)
  then (Ok tt, db)
  else if existsb (fun ts => TS_ID ts =? id) (teacher_subjects db) then
    (Err (pq_UniqueViolation "teacher_subjects_pkey"), db)
  else if negb (existsb (fun u => User_ID u =? teacher_id) (users db)) then
    (Err (pq_ForeignKeyViolation "teacher_subjects_teacher_id_fkey"), db)
  else if negb (existsb (fun s => Subject_ID s =? subject_id) (subjects db)) then
    (Err (pq_ForeignKeyViolation "teacher_subjects_subject_id_fkey"), db)
  else
    (Ok tt,
     set_teacher_subjects
       (fun l => l ++ [mkTeacherSubject id teacher_id subject_id db_now]) db).

(** *** Transactions *)

(** [*sql.Tx]: the database as it was at [Begin] and as the statements of
    the transaction have left it. *)
Record Tx : Type := mkTx {
  tx_begin : DB;
  tx_now : DB
}.

Definition Begin (db : DB) : Tx := mkTx db db.

Definition Commit (tx : Tx) : DB := tx_now tx.

(** [Rollback] restores the tables; the sequences keep what was consumed. *)
Definition Rollback (tx : Tx) : DB :=
  mkDB (users (tx_begin tx)) (students (tx_begin tx))
       (subjects (tx_begin tx)) (teacher_subjects (tx_begin tx))
       (users_id_seq (tx_now tx)) (students_id_seq (tx_now tx))
       (teacher_subjects_id_seq (tx_now tx)).

(** [tx.QueryRow(...).Scan(...)] and [tx.Exec(...)] for a statement that
    writes, and for one that only reads. *)
Definition tx_exec {A} (stmt : DB -> Result A * DB) (tx : Tx)
  : Result A * Tx :=
  let '(r, db) := stmt (tx_now tx) in (r, mkTx (tx_begin tx) db).

Definition tx_query {A} (q : DB -> Result A) (tx : Tx) : Result A :=
  q (tx_now tx).

(** *** Users *)

(** [SELECT ... FROM users WHERE username = $1], first row. *)
Definition GetUserByUsername (username : string) (db : DB) : Result User :=
  match find (fun u => bool_decide (User_Username u = username)) (users db) with
  | Some user => Ok user
  | None => Err sql_ErrNoRows
  end.

Definition CheckPassword (user : User) (password : string) : bool :=
  bool_decide (User_Password user = password).

(** *** Students *)

(** [CreateStudent]: [now_user] is the clock reading for [date_created],
    [now] the one for [created_at] and [updated_at].  Every [return] with a
    non-nil [err] runs the deferred [tx.Rollback()]. *)
Definition CreateStudent (req : StudentRequest) (now_user now : time.Time)
  (db : DB) : Result Student * DB :=
  let tx := Begin db in
  match tx_exec (insert_user (Req_Username req) (Req_Password req) "student"
                             now_user) tx with
  | (Err err, tx) => (Err err, Rollback tx)
  | (Ok userID, tx) =>
      match tx_exec (insert_student userID (Req_FirstName req)
                       (Req_LastName req) (Req_Email req) (Req_Grade req)
                       now now) tx with
      | (Err err, tx) => (Err err, Rollback tx)
      | (Ok row, tx) =>
          let student :=
            mkStudent (Row_ID row) (Row_UserID row) (Row_FirstName row)
                      (Row_LastName row) (Row_Email row) (Row_Grade row)
                      (Row_CreatedAt row) (Row_UpdatedAt row)
                      (Req_Username req) in
          (Ok student, Commit tx)
      end
  end.

(** [UpdateStudent]. *)
Definition UpdateStudent (id : Z) (req : StudentRequest) (now : time.Time)
  (db : DB) : Result Student * DB :=
  let tx := Begin db in
  match tx_query (select_student_user_id id) tx with
  | Err err => (Err err, Rollback tx)
  | Ok userID =>
      let r_tx :=
        if bool_decide (Req_Password req <> "") then
          tx_exec (update_user_password (Req_Password req) userID) tx
        else (Ok tt, tx) in
      match r_tx with
      | (Err err, tx) => (Err err, Rollback tx)
      | (Ok _, tx) =>
          match tx_exec (update_student (Req_FirstName req) (Req_LastName req)
                           (Req_Email req) (Req_Grade req) now id) tx with
          | (Err err, tx) => (Err err, Rollback tx)
          | (Ok row, tx) =>
              match tx_query (select_username userID) tx with
              | Err err => (Err err, Rollback tx)
              | Ok username =>
                  let student :=
                    mkStudent (Row_ID row) (Row_UserID row)
                              (Row_FirstName row) (Row_LastName row)
                              (Row_Email row) (Row_Grade row)
                              (Row_CreatedAt row) (Row_UpdatedAt row)
                              username in
                  (Ok student, Commit tx)
              end
          end
      end
  end.

(** [DeleteStudent]. *)
Definition DeleteStudent (id : Z) (db : DB) : Result unit * DB :=
  let tx := Begin db in
  match tx_query (select_student_user_id id) tx with
  | Err err => (Err err, Rollback tx)
  | Ok userID =>
      match tx_exec (delete_student id) tx with
      | (Err err, tx) => (Err err, Rollback tx)
      | (Ok _, tx) =>
          match tx_exec (delete_user userID) tx with
          | (Err err, tx) => (Err err, Rollback tx)
          | (Ok _, tx) => (Ok tt, Commit tx)
          end
      end
  end.

(** *** Subjects and teachers *)

(** The collation of the database: the order of [ORDER BY] on text. *)
Class Collation : Type := {
  collate_le : relation string;
  collate_le_dec :: RelDecision collate_le
}.

Definition by_name `{Collation} : relation Subject :=
  fun a b => collate_le (Subject_Name a) (Subject_Name b).

#[export] Instance by_name_dec `{Collation} : RelDecision by_name.
Proof. intros a b. unfold by_name. apply _. Defined.

(** [SELECT ... FROM subjects WHERE grade = $1 ORDER BY name]. *)
Definition GetSubjectsByGrade `{Collation} (grade : string) (db : DB)
  : Result (list Subject) :=
  Ok (merge_sort by_name
        (filter (fun s => Subject_Grade s = grade) (subjects db))).

(** [AssignSubjectToTeacher]: three statements, no transaction.  Each of
    the two [SELECT EXISTS(...)] returns false, and the function
    [sql.ErrNoRows], or fails on a key outside [INTEGER], and the function
    returns that error. *)
Definition AssignSubjectToTeacher (teacherID subjectID : Z)
  (db_now : time.Time) (db : DB) : Result unit * DB :=
  let teacherExists :=
    existsb (fun u => (User_ID u =? teacherID)
                      && bool_decide (User_Role u = "teacher")) (users db) in
  if negb teacherExists then (Err (no_row teacherID), db)
  else
    let subjectExists :=
      existsb (fun s => Subject_ID s =? subjectID) (subjects db) in
    if negb subjectExists then (Err (no_row subjectID), db)
    else insert_teacher_subject teacherID subjectID db_now db.

(** [RemoveSubjectFromTeacher]: [DELETE FROM teacher_subjects WHERE
    teacher_id = $1 AND subject_id = $2].  It deletes the rows of the pair,
    none when there is none; where there is none, a key outside [INTEGER]
    makes the statement fail. *)
Definition RemoveSubjectFromTeacher (teacherID subjectID : Z) (db : DB)
  : Result unit * DB :=
  if existsb (fun ts => (TS_TeacherID ts =? teacherID)
                        && (TS_SubjectID ts =? subjectID))
             (teacher_subjects db)
     || (is_integer teacherID && is_integer subjectID)
  then
    (Ok tt,
     set_teacher_subjects
       (filter (fun ts => ~ (TS_TeacherID ts = teacherID
                             /\ TS_SubjectID ts = subjectID))) db)
  else (Err pq_NumericValueOutOfRange, db).

(** *** Queries *)

(** [ORDER BY k], and [ORDER BY k1, k2]: by [k1], and by [k2] among the
    rows whose [k1] the collation does not tell apart. *)
Definition order_by `{Collation} {A} (k : A -> string) : relation A :=
  fun a b => collate_le (k a) (k b).

Definition order_by2 `{Collation} {A} (k1 k2 : A -> string) : relation A :=
  fun a b => collate_le (k1 a) (k1 b)
             /\ (collate_le (k1 b) (k1 a) -> collate_le (k2 a) (k2 b)).

#[export] Instance order_by_dec `{Collation} {A} (k : A -> string)
  : RelDecision (order_by k).
Proof. intros a b. unfold order_by. apply _. Defined.

#[export] Instance order_by2_dec `{Collation} {A} (k1 k2 : A -> string)
  : RelDecision (order_by2 k1 k2).
Proof. intros a b. unfold order_by2. apply _. Defined.

(** [CreateUser]: [INSERT INTO users ... RETURNING id, username, password,
    role, date_created], outside any transaction; [now] is the clock reading
    for [date_created]. *)
Definition CreateUser (username password role : string) (now : time.Time)
  (db : DB) : Result User * DB :=
  match insert_user username password role now db with
  | (Err err, db) => (Err err, db)
  | (Ok id, db) => (Ok (mkUser id username password role now), db)
  end.

(** A row of [students] with the username of a row of [users]. *)
Definition student_of (r : StudentRow) (username : string) : Student :=
  mkStudent (Row_ID r) (Row_UserID r) (Row_FirstName r) (Row_LastName r)
            (Row_Email r) (Row_Grade r) (Row_CreatedAt r) (Row_UpdatedAt r)
            username.

(** [FROM students s JOIN users u ON s.user_id = u.id]. *)
Definition students_join_users (db : DB) : list Student :=
  r ← students db;
  u ← users db;
  if bool_decide (Row_UserID r = User_ID u)
  then [student_of r (User_Username u)] else [].

(** [GetAllStudents]: the join, [ORDER BY s.last_name, s.first_name]. *)
Definition GetAllStudents `{Collation} (db : DB) : Result (list Student) :=
  Ok (merge_sort (order_by2 Student_LastName Student_FirstName)
        (students_join_users db)).

(** [GetStudentByID]: the first row of the join [WHERE s.id = $1]. *)
Definition GetStudentByID (id : Z) (db : DB) : Result Student :=
  match filter (fun s => Student_ID s = id) (students_join_users db) with
  | student :: _ => Ok student
  | [] => Err (no_row id)
  end.

(** [GetAllSubjects]: [SELECT ... FROM subjects ORDER BY grade, name]. *)
Definition GetAllSubjects `{Collation} (db : DB) : Result (list Subject) :=
  Ok (merge_sort (order_by2 Subject_Grade Subject_Name) (subjects db)).

(** [GetSubjectByID]: [SELECT ... FROM subjects WHERE id = $1]. *)
Definition GetSubjectByID (id : Z) (db : DB) : Result Subject :=
  match find (fun s => Subject_ID s =? id) (subjects db) with
  | Some subject => Ok subject
  | None => Err (no_row id)
  end.

(** [Teacher]: a user of role teacher with the subjects assigned. *)
Record Teacher : Type := mkTeacher {
  Teacher_ID : Z;
  Teacher_Username : string;
  Teacher_FirstName : string;
  Teacher_LastName : string;
  Teacher_Email : string;
  Teacher_Subjects : list Subject
}.

(** [GetTeacherSubjects]: [FROM subjects s JOIN teacher_subjects ts ON
    s.id = ts.subject_id WHERE ts.teacher_id = $1 ORDER BY s.grade,
    s.name].  Its callers pass the key of a row of [users] that they have
    just read. *)
Definition GetTeacherSubjects `{Collation} (teacherID : Z) (db : DB)
  : Result (list Subject) :=
  Ok (merge_sort (order_by2 Subject_Grade Subject_Name)
        (s ← subjects db;
         ts ← teacher_subjects db;
         if bool_decide (Subject_ID s = TS_SubjectID ts
                         /\ TS_TeacherID ts = teacherID)
         then [s] else [])).

(** A [Teacher] as the two functions below fill it: [Scan] writes [ID] and
    [Username], the subjects are assigned, and the other fields keep the
    zero value of [&Teacher{}]. *)
Definition teacher_of (u : User) (subjects : list Subject) : Teacher :=
  mkTeacher (User_ID u) (User_Username u) "" "" "" subjects.

(** The loop of [GetAllTeachers] over the rows of its query. *)
Fixpoint scan_teachers `{Collation} (rows : list User)
  (teachers : list Teacher) (db : DB) : Result (list Teacher) :=
  match rows with
  | [] => Ok teachers
  | u :: rows =>
      match GetTeacherSubjects (User_ID u) db with
      | Err err => Err err
      | Ok subjects =>
          scan_teachers rows (teachers ++ [teacher_of u subjects]) db
      end
  end.

(** [GetAllTeachers]: [SELECT id, username FROM users WHERE role =
    'teacher' ORDER BY username], and the subjects of each. *)
Definition GetAllTeachers `{Collation} (db : DB) : Result (list Teacher) :=
  scan_teachers
    (merge_sort (order_by User_Username)
       (filter (fun u => User_Role u = "teacher") (users db)))
    [] db.

(** [GetTeacherByID]: [SELECT id, username FROM users WHERE id = $1 AND
    role = 'teacher'], and the subjects. *)
Definition GetTeacherByID `{Collation} (id : Z) (db : DB) : Result Teacher :=
  match find (fun u => (User_ID u =? id)
                       && bool_decide (User_Role u = "teacher")) (users db) with
  | None => Err (no_row id)
  | Some u =>
      match GetTeacherSubjects (User_ID u) db with
      | Err err => Err err
      | Ok subjects => Ok (teacher_of u subjects)
      end
  end.

(** *** Constraints of the schema *)

(** The rows that assign the subject to the teacher. *)
Definition assignments (teacherID subjectID : Z) (db : DB)
  : list TeacherSubject :=
  filter (fun ts => TS_TeacherID ts = teacherID /\ TS_SubjectID ts = subjectID)
         (teacher_subjects db).

(** [teacher_subjects]: [UNIQUE(teacher_id, subject_id)], and every serial
    key was drawn from the sequence. *)
Definition teacher_subjects_constraints (db : DB) : Prop :=
  NoDup ((fun ts => (TS_TeacherID ts, TS_SubjectID ts)) <$> teacher_subjects db)
  /\ Forall (fun ts => TS_ID ts < teacher_subjects_id_seq db)
            (teacher_subjects db).

(** Modelled from the spec: [users.username] is [UNIQUE] (the schema file of
    [users] is not among the sources). *)
Definition users_constraints (db : DB) : Prop :=
  NoDup (User_Username <$> users db).


(** [users.id] is a key, and [students.user_id REFERENCES users(id)]. *)
Definition students_constraints (db : DB) : Prop :=
  NoDup (User_ID <$> users db)
  /\ NoDup (Row_ID <$> students db)
  /\ Forall (fun r => exists u, u ∈ users db /\ User_ID u = Row_UserID r)
            (students db).

End models.

(** ** Package [net/http]: status codes *)
Module http.

Definition StatusOK : Z := 200.
Definition StatusCreated : Z := 201.
Definition StatusBadRequest : Z := 400.
Definition StatusUnauthorized : Z := 401.
Definition StatusForbidden : Z := 403.
Definition StatusNotFound : Z := 404.
Definition StatusInternalServerError : Z := 500.

End http.

(** ** Package [strconv] *)
Module strconv.

Definition digit (a : Ascii.ascii) : option Z :=
  let n := Z.of_N (Ascii.N_of_ascii a) in
  if (48 <=? n) && (n <=? 57) then Some (n - 48) else None.

Fixpoint digits (acc : Z) (s : string) : option Z :=
  match s with
  | EmptyString => Some acc
  | String a s' =>
      match digit a with
      | Some d => digits (10 * acc + d) s'
      | None => None
      end
  end.

Definition unsigned (s : string) : option Z :=
  match s with
  | EmptyString => None
  | _ => digits 0 s
  end.

(** [Atoi]: an optional sign, then decimal digits; a syntax error or a value
    outside the 64-bit [int] is an error. *)
Definition Atoi (s : string) : option Z :=
  let r :=
    match s with
    | String "-"%char s' => Z.opp <$> unsigned s'
    | String "+"%char s' => unsigned s'
    | _ => unsigned s
    end in
  match r with
  | Some n =>
      if (- 2 ^ 63 <=? n) && (n <? 2 ^ 63) then Some n else None
  | None => None
  end.

End strconv.

(** ** Package [gin]: the request context and the handler chain *)
Module gin.

(** Values written by [c.JSON]. *)
#[local] Unset Elimination Schemes.
Inductive JSONValue : Type :=
| JNull
| JString (s : string)
| JNumber (n : Z)
| JTime (t : time.Time)
| JArray (items : list JSONValue)
| JObject (fields : list (string * JSONValue)).
#[local] Set Elimination Schemes.

(** [gin.H]. *)
Definition H (fields : list (string * JSONValue)) : JSONValue := JObject fields.

(** The JSON of a slice: [encoding/json] writes a nil slice as [null].  The
    slices that the program writes start as a [var] declaration or a
    missing map entry and grow by [append]: they are nil exactly when they
    are empty. *)
Definition JSlice (items : list JSONValue) : JSONValue :=
  match items with
  | [] => JNull
  | _ :: _ => JArray items
  end.

(** The values of type [any] that the program stores with [c.Set]. *)
Inductive any : Type :=
| any_int (n : Z)
| any_string (s : string).

Record Response : Type := mkResponse {
  Status : Z;
  Body : option JSONValue
}.

Record Context : Type := mkContext {
  Request_Method : string;
  Request_Header : gmap string string;
  Params : gmap string string;
  Keys : gmap string any;
  Writer_Header : gmap string string;
  Writer : option Response;
  IsAborted : bool
}.

(** [c.GetHeader(key)]: the empty string when the header is absent. *)
Definition GetHeader (c : Context) (key : string) : string :=
  default "" (Request_Header c !! key).

(** [c.Param(key)]: the empty string when there is no such parameter. *)
Definition Param (c : Context) (key : string) : string :=
  default "" (Params c !! key).

Definition Set_ (key : string) (value : any) (c : Context) : Context :=
  mkContext (Request_Method c) (Request_Header c) (Params c)
            (<[key := value]> (Keys c)) (Writer_Header c) (Writer c)
            (IsAborted c).

Definition Get (c : Context) (key : string) : option any := Keys c !! key.

Definition Header_Set (key value : string) (c : Context) : Context :=
  mkContext (Request_Method c) (Request_Header c) (Params c) (Keys c)
            (<[key := value]> (Writer_Header c)) (Writer c) (IsAborted c).

(** [c.JSON(code, obj)]. *)
Definition JSON (code : Z) (obj : JSONValue) (c : Context) : Context :=
  mkContext (Request_Method c) (Request_Header c) (Params c) (Keys c)
            (Writer_Header c) (Some (mkResponse code (Some obj)))
            (IsAborted c).

(** [c.Abort()]: no handler after the current one runs. *)
Definition Abort (c : Context) : Context :=
  mkContext (Request_Method c) (Request_Header c) (Params c) (Keys c)
            (Writer_Header c) (Writer c) true.

(** [c.AbortWithStatus(code)]. *)
Definition AbortWithStatus (code : Z) (c : Context) : Context :=
  mkContext (Request_Method c) (Request_Header c) (Params c) (Keys c)
            (Writer_Header c) (Some (mkResponse code None)) true.

(** The status the client receives; 200 when no handler wrote one. *)
Definition status (c : Context) : Z :=
  match Writer c with
  | Some r => Status r
  | None => http.StatusOK
  end.

(** A handler works on the server's state [S] and on the context.  Its last
    argument is [c.Next()], the rest of the chain: an aborting handler
    returns without calling it. *)
Definition HandlerFunc (S : Type) : Type :=
  S -> Context -> (S -> Context -> S * Context) -> S * Context.

Fixpoint run {S : Type} (handlers : list (HandlerFunc S)) (s : S)
  (c : Context) : S * Context :=
  match handlers with
  | [] => (s, c)
  | h :: rest => h s c (run rest)
  end.

End gin.

(** ** Package [middleware] *)
Module middleware.

Fixpoint drop_bytes (n : nat) (s : string) : string :=
  match n, s with
  | O, _ => s
  | S n', String _ s' => drop_bytes n' s'
  | S _, EmptyString => EmptyString
  end.

(** [extractToken]: [authHeader[7:]] behind the prefix test. *)
Definition extractToken (authHeader : string) : string :=
  if (7 <? Z.of_nat (String.length authHeader))
     && String.prefix "Bearer " authHeader
  then drop_bytes 7 authHeader
  else "".

Section with_primitives.
Context {P : jwt.Primitives} {S : Type}.

(** [JWTAuth(jwtSecret)]; [now] is the clock reading of the token
    validation. *)
Definition JWTAuth (jwtSecret : string) (now : time.Time)
  : gin.HandlerFunc S :=
  fun s c next =>
    let authHeader := gin.GetHeader c "Authorization" in
    if bool_decide (authHeader = "") then
      (s, gin.Abort
            (gin.JSON http.StatusUnauthorized
               (gin.H [("error", gin.JString "Authorization header required")])
               c))
    else
      let tokenString := extractToken authHeader in
      if bool_decide (tokenString = "") then
        (s, gin.Abort
              (gin.JSON http.StatusUnauthorized
                 (gin.H [("error", gin.JString "Invalid token format")]) c))
      else
        match jwt.ParseWithClaims tokenString jwtSecret now with
        | jwt.ParseError _ _ =>
            (s, gin.Abort
                  (gin.JSON http.StatusUnauthorized
                     (gin.H [("error", gin.JString "Invalid token")]) c))
        | jwt.Parsed token =>
            if jwt.Valid token then
              let claims := jwt.Token_Claims token in
              let c := gin.Set_ "user_id" (gin.any_int (jwt.UserID claims)) c in
              let c := gin.Set_ "role" (gin.any_string (jwt.Role claims)) c in
              next s c
            else
              (s, gin.Abort
                    (gin.JSON http.StatusUnauthorized
                       (gin.H [("error", gin.JString "Invalid token claims")])
                       c))
        end.

End with_primitives.

Section role_filters.
Context {S : Type}.

Definition AdminOnly : gin.HandlerFunc S :=
  fun s c next =>
    match gin.Get c "role" with
    | None =>
        (s, gin.Abort
              (gin.JSON http.StatusUnauthorized
                 (gin.H [("error", gin.JString "Authentication required")]) c))
    | Some role =>
        let forbidden :=
          match role with
          | gin.any_string roleStr => bool_decide (roleStr <> "admin")
          | _ => true
          end in
        if forbidden then
          (s, gin.Abort
                (gin.JSON http.StatusForbidden
                   (gin.H [("error", gin.JString "Admin access required")]) c))
        else next s c
    end.

Definition TeacherOrAdmin : gin.HandlerFunc S :=
  fun s c next =>
    match gin.Get c "role" with
    | None =>
        (s, gin.Abort
              (gin.JSON http.StatusUnauthorized
                 (gin.H [("error", gin.JString "Authentication required")]) c))
    | Some role =>
        let forbidden :=
          match role with
          | gin.any_string roleStr =>
              bool_decide (roleStr <> "teacher")
              && bool_decide (roleStr <> "admin")
          | _ => true
          end in
        if forbidden then
          (s, gin.Abort
                (gin.JSON http.StatusForbidden
                   (gin.H [("error",
                            gin.JString "Teacher or admin access required")])
                   c))
        else next s c
    end.

End role_filters.

End middleware.

(** ** Package [handlers] *)
Module handlers.

(** [Handler]: its [DB] field points to the database, the state
    [models.DB] that the handlers below work on. *)
Record Handler : Type := mkHandler {
  JWTSecret : string
}.

Record LoginRequest : Type := mkLoginRequest {
  Username : string;
  Password : string
}.

(** [c.ShouldBindJSON(&req)] for a [LoginRequest].  [decoded] is what
    [encoding/json] made of the request body: [None] when it cannot be
    decoded, and a field that the body leaves out is empty.  Both fields
    are tagged [binding:"required"]: an empty one fails the validation. *)
Definition ShouldBindJSON_LoginRequest (decoded : option LoginRequest)
  : Result LoginRequest :=
  match decoded with
  | None => Err json_UnmarshalError
  | Some req =>
      if bool_decide (Username req = "") || bool_decide (Password req = "")
      then Err validator_ValidationErrors
      else Ok req
  end.

(** The JSON of a [models.User]: the password is tagged [json:"-"]. *)
Definition User_JSON (u : models.User) : gin.JSONValue :=
  gin.JObject [("id", gin.JNumber (models.User_ID u));
               ("username", gin.JString (models.User_Username u));
               ("role", gin.JString (models.User_Role u));
               ("date_created", gin.JTime (models.User_DateCreated u))].

(** [LoginResponse{Token: token, User: *user}]. *)
Definition LoginResponse (token : string) (user : models.User) : gin.JSONValue :=
  gin.JObject [("token", gin.JString token); ("user", User_JSON user)].

Definition Subject_JSON (s : models.Subject) : gin.JSONValue :=
  gin.JObject [("id", gin.JNumber (models.Subject_ID s));
               ("grade", gin.JString (models.Subject_Grade s));
               ("name", gin.JString (models.Subject_Name s));
               ("description", gin.JString (models.Subject_Description s));
               ("created_at", gin.JTime (models.Subject_CreatedAt s))].

(** [ErrorResponse{Error: msg}] and [gin.H{"error": msg}] have the same
    JSON. *)
Definition ErrorResponse (msg : string) : gin.JSONValue :=
  gin.H [("error", gin.JString msg)].

Section with_primitives.
Context {P : jwt.Primitives}.

(** [createToken]: the claims literal reads the clock twice, first for
    [ExpiresAt] ([now_exp]), then for [IssuedAt] ([now_iat]). *)
Definition newClaims (user : models.User) (now_exp now_iat : time.Time)
  : jwt.Claims :=
  jwt.mkClaims (models.User_ID user) (models.User_Role user)
    (jwt.mkRegisteredClaims
       (Some (jwt.NewNumericDate (time.Add now_exp (24 * time.Hour))))
       None
       (Some (jwt.NewNumericDate now_iat))).

Definition createToken (user : models.User) (secret : string)
  (now_exp now_iat : time.Time) : Result string :=
  let claims := newClaims user now_exp now_iat in
  match jwt.SignedString claims secret with
  | Err err => Err err
  | Ok tokenString => Ok tokenString
  end.

(** [extractToken]: [authHeader[7:]] behind the prefix test. *)
Definition extractToken (c : gin.Context) : string :=
  let authHeader := gin.GetHeader c "Authorization" in
  if (7 <? Z.of_nat (String.length authHeader))
     && bool_decide (String.substring 0 7 authHeader = "Bearer ")
  then middleware.drop_bytes 7 authHeader
  else "".

(** [validateToken]; [Ok None] stands for the pair of a nil [*Claims] and a
    nil error. *)
Definition validateToken (tokenString secret : string) (now : time.Time)
  : Result (option jwt.Claims) :=
  match jwt.ParseWithClaims tokenString secret now with
  | jwt.ParseError _ err => Err err
  | jwt.Parsed token =>
      if negb (jwt.Valid token) then Ok None
      else Ok (Some (jwt.Token_Claims token))
  end.

(** [validateAdminToken]; [None] is the panic of reading [claims.Role]
    through a nil pointer. *)
Definition validateAdminToken (h : Handler) (now : time.Time)
  (c : gin.Context) : option (Result jwt.Claims) :=
  let tokenString := extractToken c in
  if bool_decide (tokenString = "") then
    Some (Err (fmt_Errorf "no token provided"))
  else
    match validateToken tokenString (JWTSecret h) now with
    | Err err => Some (Err err)
    | Ok None => None
    | Ok (Some claims) =>
        if bool_decide (jwt.Role claims <> "admin") then
          Some (Err (fmt_Errorf "admin role required"))
        else Some (Ok claims)
    end.

(** The [Recovery] middleware of [gin.Default()] answers a panic. *)
Definition Recovery (c : gin.Context) : gin.Context :=
  gin.AbortWithStatus http.StatusInternalServerError c.

(** [HandleLogin]; [decoded] is the decoded request body. *)
Definition HandleLogin (h : Handler) (now_exp now_iat : time.Time)
  (decoded : option LoginRequest) : gin.HandlerFunc models.DB :=
  fun db c _ =>
    match ShouldBindJSON_LoginRequest decoded with
    | Err _ =>
        (db, gin.JSON http.StatusBadRequest
               (gin.H [("error", gin.JString "Invalid request body")]) c)
    | Ok req =>
        match models.GetUserByUsername (Username req) db with
        | Err _ =>
            (db, gin.JSON http.StatusUnauthorized
                   (gin.H [("error",
                            gin.JString "Invalid username or password")]) c)
        | Ok user =>
            if negb (models.CheckPassword user (Password req)) then
              (db, gin.JSON http.StatusUnauthorized
                     (gin.H [("error",
                              gin.JString "Invalid username or password")]) c)
            else
              match createToken user (JWTSecret h) now_exp now_iat with
              | Err _ =>
                  (db, gin.JSON http.StatusInternalServerError
                         (gin.H [("error",
                                  gin.JString "Failed to generate token")]) c)
              | Ok token =>
                  (db, gin.JSON http.StatusOK (LoginResponse token user) c)
              end
        end
    end.

(** [HandleDeleteStudent]. *)
Definition HandleDeleteStudent (h : Handler) (now : time.Time)
  : gin.HandlerFunc models.DB :=
  fun db c _ =>
    match validateAdminToken h now c with
    | None => (db, Recovery c)
    | Some (Err _) =>
        (db, gin.JSON http.StatusUnauthorized
               (gin.H [("error",
                        gin.JString "Unauthorized - Admin access required")])
               c)
    | Some (Ok _) =>
        let idStr := gin.Param c "id" in
        match strconv.Atoi idStr with
        | None =>
            (db, gin.JSON http.StatusBadRequest
                   (gin.H [("error", gin.JString "Invalid student ID")]) c)
        | Some id =>
            match models.DeleteStudent id db with
            | (Err _, db) =>
                (db, gin.JSON http.StatusInternalServerError
                       (gin.H [("error",
                                gin.JString "Failed to delete student")]) c)
            | (Ok _, db) =>
                (db, gin.JSON http.StatusOK
                       (gin.H [("message",
                                gin.JString "Student deleted successfully")])
                       c)
            end
        end
    end.

End with_primitives.

(** [GetSubjectsByGrade], the handler of [GET /api/subjects/:grade]. *)
Definition GetSubjectsByGrade `{models.Collation}
  : gin.HandlerFunc models.DB :=
  fun db c _ =>
    let grade := gin.Param c "grade" in
    if bool_decide (grade <> "PIB") && bool_decide (grade <> "IB1")
       && bool_decide (grade <> "IB2")
    then
      (db, gin.JSON http.StatusBadRequest
             (ErrorResponse "Invalid grade. Must be PIB, IB1, or IB2") c)
    else
      match models.GetSubjectsByGrade grade db with
      | Err _ =>
          (db, gin.JSON http.StatusInternalServerError
                 (ErrorResponse "Failed to retrieve subjects") c)
      | Ok subjects =>
          (db, gin.JSON http.StatusOK
                 (gin.JSlice (map Subject_JSON subjects)) c)
      end.

(** The JSON of a [models.Student] and of a [models.Teacher]. *)
Definition Student_JSON (s : models.Student) : gin.JSONValue :=
  gin.JObject [("id", gin.JNumber (models.Student_ID s));
               ("user_id", gin.JNumber (models.Student_UserID s));
               ("first_name", gin.JString (models.Student_FirstName s));
               ("last_name", gin.JString (models.Student_LastName s));
               ("email", gin.JString (models.Student_Email s));
               ("grade", gin.JString (models.Student_Grade s));
               ("created_at", gin.JTime (models.Student_CreatedAt s));
               ("updated_at", gin.JTime (models.Student_UpdatedAt s));
               ("username", gin.JString (models.Student_Username s))].

Definition Teacher_JSON (t : models.Teacher) : gin.JSONValue :=
  gin.JObject [("id", gin.JNumber (models.Teacher_ID t));
               ("username", gin.JString (models.Teacher_Username t));
               ("first_name", gin.JString (models.Teacher_FirstName t));
               ("last_name", gin.JString (models.Teacher_LastName t));
               ("email", gin.JString (models.Teacher_Email t));
               ("subjects",
                gin.JSlice (map Subject_JSON (models.Teacher_Subjects t)))].

(** [SuccessResponse{Message: msg}]. *)
Definition SuccessResponse (msg : string) : gin.JSONValue :=
  gin.JObject [("message", gin.JString msg)].

Record AssignSubjectRequest : Type := mkAssignSubjectRequest {
  SubjectID : Z
}.

(** [c.ShouldBindJSON(&req)] for a request type without binding tags:
    only the decoding of the body can fail. *)
Definition ShouldBindJSON {A : Type} (decoded : option A) : Result A :=
  match decoded with
  | None => Err json_UnmarshalError
  | Some req => Ok req
  end.

(** [isAdmin]: [role == "admin"] compares an [any] with a string. *)
Definition isAdmin (c : gin.Context) : bool :=
  match gin.Get c "role" with
  | None => false
  | Some (gin.any_string role) => bool_decide (role = "admin")
  | Some _ => false
  end.

(** The loop of [GetAllSubjectsGrouped]:
    [grouped[grade] = append(grouped[grade], subject)]. *)
Definition group_by_grade (subjects : list models.Subject)
  : gmap string (list models.Subject) :=
  foldl (fun grouped subject =>
           let grade := models.Subject_Grade subject in
           <[grade := default [] (grouped !! grade) ++ [subject]]> grouped)
        ∅ subjects.

(** The JSON of a [map[string][]*models.Subject]: [encoding/json] writes
    the keys in byte order. *)
Definition Grouped_JSON (grouped : gmap string (list models.Subject))
  : gin.JSONValue :=
  gin.JObject
    ((fun kv => (kv.1, gin.JSlice (map Subject_JSON kv.2)))
       <$> merge_sort (fun a b => String.le a.1 b.1) (map_to_list grouped)).

Section endpoints.
Context {P : jwt.Primitives} {C : models.Collation}.

(** [HandleProtected]; [now] is the clock reading of the validation.  A nil
    [claims] would make [claims.UserID] panic. *)
Definition HandleProtected (h : Handler) (now : time.Time)
  : gin.HandlerFunc models.DB :=
  fun db c _ =>
    let tokenString := extractToken c in
    if bool_decide (tokenString = "") then
      (db, gin.JSON http.StatusUnauthorized
             (gin.H [("error", gin.JString "Unauthorized")]) c)
    else
      match validateToken tokenString (JWTSecret h) now with
      | Err _ =>
          (db, gin.JSON http.StatusUnauthorized
                 (gin.H [("error", gin.JString "Unauthorized")]) c)
      | Ok None => (db, Recovery c)
      | Ok (Some claims) =>
          (db, gin.JSON http.StatusOK
                 (gin.H [("message",
                          gin.JString "Protected data accessed successfully");
                         ("role", gin.JString (jwt.Role claims));
                         ("user_id", gin.JNumber (jwt.UserID claims))]) c)
      end.

(** [GetAllSubjects]. *)
Definition GetAllSubjects : gin.HandlerFunc models.DB :=
  fun db c _ =>
    match models.GetAllSubjects db with
    | Err _ =>
        (db, gin.JSON http.StatusInternalServerError
               (ErrorResponse "Failed to retrieve subjects") c)
    | Ok subjects =>
        (db, gin.JSON http.StatusOK (gin.JSlice (map Subject_JSON subjects)) c)
    end.

(** [GetAllSubjectsGrouped]. *)
Definition GetAllSubjectsGrouped : gin.HandlerFunc models.DB :=
  fun db c _ =>
    match models.GetAllSubjects db with
    | Err _ =>
        (db, gin.JSON http.StatusInternalServerError
               (ErrorResponse "Failed to retrieve subjects") c)
    | Ok subjects =>
        let grouped := group_by_grade subjects in
        (db, gin.JSON http.StatusOK (Grouped_JSON grouped) c)
    end.

(** [GetSubjectByID]. *)
Definition GetSubjectByID : gin.HandlerFunc models.DB :=
  fun db c _ =>
    let idStr := gin.Param c "id" in
    match strconv.Atoi idStr with
    | None =>
        (db, gin.JSON http.StatusBadRequest
               (ErrorResponse "Invalid subject ID") c)
    | Some id =>
        match models.GetSubjectByID id db with
        | Err _ =>
            (db, gin.JSON http.StatusNotFound
                   (ErrorResponse "Subject not found") c)
        | Ok subject => (db, gin.JSON http.StatusOK (Subject_JSON subject) c)
        end
    end.

(** [GetAllTeachers]. *)
Definition GetAllTeachers : gin.HandlerFunc models.DB :=
  fun db c _ =>
    match models.GetAllTeachers db with
    | Err _ =>
        (db, gin.JSON http.StatusInternalServerError
               (ErrorResponse "Failed to retrieve teachers") c)
    | Ok teachers =>
        (db, gin.JSON http.StatusOK (gin.JSlice (map Teacher_JSON teachers)) c)
    end.

(** [GetTeacherByID]. *)
Definition GetTeacherByID : gin.HandlerFunc models.DB :=
  fun db c _ =>
    let idStr := gin.Param c "id" in
    match strconv.Atoi idStr with
    | None =>
        (db, gin.JSON http.StatusBadRequest
               (ErrorResponse "Invalid teacher ID") c)
    | Some id =>
        match models.GetTeacherByID id db with
        | Err _ =>
            (db, gin.JSON http.StatusNotFound
                   (ErrorResponse "Teacher not found") c)
        | Ok teacher => (db, gin.JSON http.StatusOK (Teacher_JSON teacher) c)
        end
    end.

(** [AssignSubjectToTeacher]; [decoded] is the decoded request body and
    [db_now] the database's [NOW()]. *)
Definition AssignSubjectToTeacher (decoded : option AssignSubjectRequest)
  (db_now : time.Time) : gin.HandlerFunc models.DB :=
  fun db c _ =>
    if negb (isAdmin c) then
      (db, gin.JSON http.StatusUnauthorized
             (ErrorResponse "Unauthorized: Admin access required") c)
    else
      let idStr := gin.Param c "id" in
      match strconv.Atoi idStr with
      | None =>
          (db, gin.JSON http.StatusBadRequest
                 (ErrorResponse "Invalid teacher ID") c)
      | Some teacherID =>
          match ShouldBindJSON decoded with
          | Err _ =>
              (db, gin.JSON http.StatusBadRequest
                     (ErrorResponse "Invalid request body") c)
          | Ok req =>
              match models.AssignSubjectToTeacher teacherID (SubjectID req)
                      db_now db with
              | (Err _, db) =>
                  (db, gin.JSON http.StatusInternalServerError
                         (ErrorResponse "Failed to assign subject to teacher")
                         c)
              | (Ok _, db) =>
                  (db, gin.JSON http.StatusOK
                         (SuccessResponse
                            "Subject assigned to teacher successfully") c)
              end
          end
      end.

(** [RemoveSubjectFromTeacher]. *)
Definition RemoveSubjectFromTeacher : gin.HandlerFunc models.DB :=
  fun db c _ =>
    if negb (isAdmin c) then
      (db, gin.JSON http.StatusUnauthorized
             (ErrorResponse "Unauthorized: Admin access required") c)
    else
      let teacherIDStr := gin.Param c "id" in
      match strconv.Atoi teacherIDStr with
      | None =>
          (db, gin.JSON http.StatusBadRequest
                 (ErrorResponse "Invalid teacher ID") c)
      | Some teacherID =>
          let subjectIDStr := gin.Param c "subjectId" in
          match strconv.Atoi subjectIDStr with
          | None =>
              (db, gin.JSON http.StatusBadRequest
                     (ErrorResponse "Invalid subject ID") c)
          | Some subjectID =>
              match models.RemoveSubjectFromTeacher teacherID subjectID db with
              | (Err _, db) =>
                  (db, gin.JSON http.StatusInternalServerError
                         (ErrorResponse
                            "Failed to remove subject from teacher") c)
              | (Ok _, db) =>
                  (db, gin.JSON http.StatusOK
                         (SuccessResponse
                            "Subject removed from teacher successfully") c)
              end
          end
      end.

(** [HandleGetAllStudents]; [now] is the clock reading of the token
    validation, here and in the four handlers below. *)
Definition HandleGetAllStudents (h : Handler) (now : time.Time)
  : gin.HandlerFunc models.DB :=
  fun db c _ =>
    match validateAdminToken h now c with
    | None => (db, Recovery c)
    | Some (Err _) =>
        (db, gin.JSON http.StatusUnauthorized
               (gin.H [("error",
                        gin.JString "Unauthorized - Admin access required")])
               c)
    | Some (Ok claims) =>
        match models.GetAllStudents db with
        | Err _ =>
            (db, gin.JSON http.StatusInternalServerError
                   (gin.H [("error",
                            gin.JString "Failed to retrieve students")]) c)
        | Ok students =>
            (db, gin.JSON http.StatusOK
                   (gin.H [("admin_id", gin.JNumber (jwt.UserID claims));
                           ("students",
                            gin.JSlice (map Student_JSON students))]) c)
        end
    end.

(** [HandleGetStudent]. *)
Definition HandleGetStudent (h : Handler) (now : time.Time)
  : gin.HandlerFunc models.DB :=
  fun db c _ =>
    match validateAdminToken h now c with
    | None => (db, Recovery c)
    | Some (Err _) =>
        (db, gin.JSON http.StatusUnauthorized
               (gin.H [("error",
                        gin.JString "Unauthorized - Admin access required")])
               c)
    | Some (Ok _) =>
        let idStr := gin.Param c "id" in
        match strconv.Atoi idStr with
        | None =>
            (db, gin.JSON http.StatusBadRequest
                   (gin.H [("error", gin.JString "Invalid student ID")]) c)
        | Some id =>
            match models.GetStudentByID id db with
            | Err _ =>
                (db, gin.JSON http.StatusNotFound
                       (gin.H [("error", gin.JString "Student not found")]) c)
            | Ok student =>
                (db, gin.JSON http.StatusOK (Student_JSON student) c)
            end
        end
    end.

(** [HandleCreateStudent]; [decoded] is the decoded request body,
    [now_user] and [now_student] are the clock readings of
    [models.CreateStudent]. *)
Definition HandleCreateStudent (h : Handler) (now : time.Time)
  (decoded : option models.StudentRequest) (now_user now_student : time.Time)
  : gin.HandlerFunc models.DB :=
  fun db c _ =>
    match validateAdminToken h now c with
    | None => (db, Recovery c)
    | Some (Err _) =>
        (db, gin.JSON http.StatusUnauthorized
               (gin.H [("error",
                        gin.JString "Unauthorized - Admin access required")])
               c)
    | Some (Ok _) =>
        match ShouldBindJSON decoded with
        | Err _ =>
            (db, gin.JSON http.StatusBadRequest
                   (gin.H [("error", gin.JString "Invalid request data")]) c)
        | Ok req =>
            if bool_decide (models.Req_FirstName req = "")
               || bool_decide (models.Req_LastName req = "")
               || bool_decide (models.Req_Email req = "")
               || bool_decide (models.Req_Username req = "")
               || bool_decide (models.Req_Password req = "")
            then
              (db, gin.JSON http.StatusBadRequest
                     (gin.H [("error", gin.JString "Missing required fields")])
                     c)
            else
              match models.CreateStudent req now_user now_student db with
              | (Err _, db) =>
                  (db, gin.JSON http.StatusInternalServerError
                         (gin.H [("error",
                                  gin.JString "Failed to create student")]) c)
              | (Ok student, db) =>
                  (db, gin.JSON http.StatusCreated (Student_JSON student) c)
              end
        end
    end.

(** [HandleUpdateStudent]; [now_student] is the clock reading of
    [models.UpdateStudent]. *)
Definition HandleUpdateStudent (h : Handler) (now : time.Time)
  (decoded : option models.StudentRequest) (now_student : time.Time)
  : gin.HandlerFunc models.DB :=
  fun db c _ =>
    match validateAdminToken h now c with
    | None => (db, Recovery c)
    | Some (Err _) =>
        (db, gin.JSON http.StatusUnauthorized
               (gin.H [("error",
                        gin.JString "Unauthorized - Admin access required")])
               c)
    | Some (Ok _) =>
        let idStr := gin.Param c "id" in
        match strconv.Atoi idStr with
        | None =>
            (db, gin.JSON http.StatusBadRequest
                   (gin.H [("error", gin.JString "Invalid student ID")]) c)
        | Some id =>
            match ShouldBindJSON decoded with
            | Err _ =>
                (db, gin.JSON http.StatusBadRequest
                       (gin.H [("error", gin.JString "Invalid request data")])
                       c)
            | Ok req =>
                if bool_decide (models.Req_FirstName req = "")
                   || bool_decide (models.Req_LastName req = "")
                   || bool_decide (models.Req_Email req = "")
                then
                  (db, gin.JSON http.StatusBadRequest
                         (gin.H [("error",
                                  gin.JString "Missing required fields")]) c)
                else
                  match models.UpdateStudent id req now_student db with
                  | (Err _, db) =>
                      (db, gin.JSON http.StatusInternalServerError
                             (gin.H [("error",
                                      gin.JString "Failed to update student")])
                             c)
                  | (Ok student, db) =>
                      (db, gin.JSON http.StatusOK (Student_JSON student) c)
                  end
            end
        end
    end.

End endpoints.

End handlers.

(** ** Package [routes] *)
Module routes.

Section with_state.
Context {S : Type}.

(** [CORSMiddleware]. *)
Definition CORSMiddleware : gin.HandlerFunc S :=
  fun s c next =>
    let c := gin.Header_Set "Access-Control-Allow-Origin" "*" c in
    let c := gin.Header_Set "Access-Control-Allow-Methods"
                            "GET, POST, PUT, DELETE, OPTIONS" c in
    let c := gin.Header_Set "Access-Control-Allow-Headers"
                            "Content-Type, Authorization" c in
    if bool_decide (gin.Request_Method c = "OPTIONS") then
      (s, gin.AbortWithStatus 200 c)
    else next s c.

End with_state.

(** The middleware that [SetupRoutes] installs. *)
Inductive Middleware : Type :=
| MW_CORS
| MW_JWTAuth
| MW_TeacherOrAdmin
| MW_AdminOnly.

#[export] Instance Middleware_eq_dec : EqDecision Middleware.
Proof. solve_decision. Defined.

(** The handlers that [SetupRoutes] registers. *)
Inductive Endpoint : Type :=
| HandleHealth
| HandleLogin
| HandleProtected
| GetAllSubjects
| GetAllSubjectsGrouped
| GetSubjectsByGrade
| GetSubjectByID
| GetAllTeachers
| GetTeacherByID
| AssignSubjectToTeacher
| RemoveSubjectFromTeacher
| HandleGetAllStudents
| HandleGetStudent
| HandleCreateStudent
| HandleUpdateStudent
| HandleDeleteStudent.

Record Route : Type := mkRoute {
  Route_Method : string;
  Route_Path : string;
  Route_Middleware : list Middleware;
  Route_Endpoint : Endpoint
}.

(** The groups of [SetupRoutes], each with the middleware it inherits. *)
Definition router : list Middleware := [MW_CORS].
Definition api : list Middleware := router.
Definition protected : list Middleware := api ++ [MW_JWTAuth].
Definition subjects : list Middleware := protected.
Definition teachers : list Middleware := protected ++ [MW_TeacherOrAdmin].
Definition teacherAdmin : list Middleware := teachers ++ [MW_AdminOnly].
Definition admin : list Middleware := protected ++ [MW_AdminOnly].
Definition students : list Middleware := admin.

Definition SetupRoutes : list Route :=
  [ mkRoute "GET" "/api/health" api HandleHealth;
    mkRoute "POST" "/api/login" api HandleLogin;
    mkRoute "GET" "/api/protected" protected HandleProtected;
    mkRoute "GET" "/api/subjects" subjects GetAllSubjects;
    mkRoute "GET" "/api/subjects/grouped" subjects GetAllSubjectsGrouped;
    mkRoute "GET" "/api/subjects/:grade" subjects GetSubjectsByGrade;
    mkRoute "GET" "/api/subjects/id/:id" subjects GetSubjectByID;
    mkRoute "GET" "/api/teachers" teachers GetAllTeachers;
    mkRoute "GET" "/api/teachers/:id" teachers GetTeacherByID;
    mkRoute "POST" "/api/teachers/:id/subjects" teacherAdmin
            AssignSubjectToTeacher;
    mkRoute "DELETE" "/api/teachers/:id/subjects/:subjectId" teacherAdmin
            RemoveSubjectFromTeacher;
    mkRoute "GET" "/api/admin/students" students HandleGetAllStudents;
    mkRoute "GET" "/api/admin/students/:id" students HandleGetStudent;
    mkRoute "POST" "/api/admin/students" students HandleCreateStudent;
    mkRoute "PUT" "/api/admin/students/:id" students HandleUpdateStudent;
    mkRoute "DELETE" "/api/admin/students/:id" students HandleDeleteStudent ].

Section serving.
Context {P : jwt.Primitives} {S : Type}.

Definition middlewareFunc (jwtSecret : string) (now : time.Time)
  (m : Middleware) : gin.HandlerFunc S :=
  match m with
  | MW_CORS => CORSMiddleware
  | MW_JWTAuth => middleware.JWTAuth jwtSecret now
  | MW_TeacherOrAdmin => middleware.TeacherOrAdmin
  | MW_AdminOnly => middleware.AdminOnly
  end.

(** The chain that serves a request matched to route [r]: its middleware,
    then the handler [endpoints] gives for its endpoint.  [now] is the
    clock reading of [JWTAuth]. *)
Definition serve (jwtSecret : string) (now : time.Time)
  (endpoints : Endpoint -> gin.HandlerFunc S) (r : Route)
  : S -> gin.Context -> S * gin.Context :=
  gin.run (map (middlewareFunc jwtSecret now) (Route_Middleware r)
           ++ [endpoints (Route_Endpoint r)]).

End serving.

End routes.

(** ** An executable instance of the library primitives

    A plain serialization to run the model on concrete requests: each
    segment of a token is the binary numeral of its content, the segments
    are joined by dots, and the digest is the key followed by the message.
    It satisfies [jwt.Lawful]; nothing else is asked of the primitives. *)
Module instances.

Fixpoint pos_bits (p : positive) : string :=
  match p with
  | xH => EmptyString
  | xO p' => String "0"%char (pos_bits p')
  | xI p' => String "1"%char (pos_bits p')
  end.

Fixpoint bits_pos (s : string) : option positive :=
  match s with
  | EmptyString => Some xH
  | String a s' =>
      if Ascii.eqb a "0" then xO <$> bits_pos s'
      else if Ascii.eqb a "1" then xI <$> bits_pos s'
      else None
  end.

(** The dot-separated segments of a string. *)
Fixpoint segments (s : string) : list string :=
  match s with
  | EmptyString => [EmptyString]
  | String a s' =>
      if Ascii.eqb a "." then EmptyString :: segments s'
      else
        match segments s' with
        | [] => [String a EmptyString]
        | x :: xs => String a x :: xs
        end
  end.

Definition claims_fields (c : jwt.Claims)
  : Z * string * (option Z * option Z * option Z) :=
  (jwt.UserID c, jwt.Role c,
   (jwt.ExpiresAt (jwt.Registered c), jwt.NotBefore (jwt.Registered c),
    jwt.IssuedAt (jwt.Registered c))).

Definition fields_claims
  (f : Z * string * (option Z * option Z * option Z)) : jwt.Claims :=
  let '(uid, role, (exp, nbf, iat)) := f in
  jwt.mkClaims uid role (jwt.mkRegisteredClaims exp nbf iat).

Definition encode_segment {A} `{Countable A} (x : A) : string :=
  pos_bits (encode x).

Definition decode_segment {A} `{Countable A} (s : string) : option A :=
  bits_pos s ≫= decode.

Definition parse (tokenString : string)
  : option (string * jwt.Claims * string * string) :=
  match segments tokenString with
  | [h; c; s] =>
      alg ← decode_segment h;
      fields ← decode_segment c;
      sig ← decode_segment s;
      Some (alg, fields_claims fields, h +:+ "." +:+ c, sig)
  | _ => None
  end.

Definition primitives : jwt.Primitives := {|
  jwt.hmacSHA256 key msg := key +:+ msg;
  jwt.otherVerify _ _ _ _ := false;
  jwt.SigningString alg claims :=
    encode_segment alg +:+ "." +:+ encode_segment (claims_fields claims);
  jwt.EncodeSegment sig := encode_segment sig;
  jwt.ParseUnverified := parse
|}.

(** Byte order as the collation (the "C" collation). *)
Definition C_collation : models.Collation :=
  {| models.collate_le := String.le |}.

End instances.

(** ** Package [config] *)
Module config.

Record Config : Type := mkConfig {
  DBHost : string;
  DBPort : string;
  DBName : string;
  DBUser : string;
  DBPassword : string;
  JWTSecret : string;
  ServerPort : string
}.

Definition NewConfig : Config :=
  mkConfig "47.79.6.81" "5432" "WG_EDU" "longdelao" "2008"
           "wg-edu-secret-key" ":8080".

End config.

(** ** Package [main] *)
Module main.

Section with_error_text.
(** [err.Error()], the text that the verb [%v] prints. *)
Context (Error : error -> string).

(** The first loop of [CreateTestUsers].  [clock n] is the [n]-th reading
    of the clock since the call, and [n] counts the readings taken. *)
Fixpoint create_test_users (clock : nat -> time.Time) (roles : list string)
  (n : nat) (db : models.DB) : Result unit * (nat * models.DB) :=
  match roles with
  | [] => (Ok tt, (n, db))
  | role :: roles =>
      let username := "test_" +:+ role in
      let password := "test_" +:+ role in
      match models.GetUserByUsername username db with
      | Ok _ => create_test_users clock roles n db
      | Err _ =>
          match models.CreateUser username password role (clock n) db with
          | (Err err, db) =>
              (Err (fmt_Errorf ("failed to create test user '" +:+ username
                                +:+ "': " +:+ Error err)),
               (S n, db))
          | (Ok _, db) => create_test_users clock roles (S n) db
          end
      end
  end.

(** The second loop. *)
Fixpoint create_teachers (clock : nat -> time.Time) (teachers : list string)
  (n : nat) (db : models.DB) : Result unit * (nat * models.DB) :=
  match teachers with
  | [] => (Ok tt, (n, db))
  | username :: teachers =>
      let password := username +:+ "_123" in
      match models.GetUserByUsername username db with
      | Ok _ => create_teachers clock teachers n db
      | Err _ =>
          match models.CreateUser username password "teacher" (clock n) db with
          | (Err err, db) =>
              (Err (fmt_Errorf ("failed to create teacher '" +:+ username
                                +:+ "': " +:+ Error err)),
               (S n, db))
          | (Ok _, db) => create_teachers clock teachers (S n) db
          end
      end
  end.

(** [CreateTestUsers]: the result, the number of clock readings taken and
    the database. *)
Definition CreateTestUsers (clock : nat -> time.Time) (db : models.DB)
  : Result unit * (nat * models.DB) :=
  let roles := ["admin"; "teacher"; "student"] in
  match create_test_users clock roles 0 db with
  | (Err err, w) => (Err err, w)
  | (Ok _, (n, db)) =>
      let teachers := ["wg"; "liz"; "eddie"; "yu"; "tan"; "li"] in
      create_teachers clock teachers n db
  end.

End with_error_text.

(** The shape that the two loops share, for the proofs about them:
    [accounts] are the usernames, passwords and roles, and [message] is
    the error of a failed creation. *)
Fixpoint ensure_accounts (message : string -> error -> string)
  (clock : nat -> time.Time) (accounts : list (string * string * string))
  (n : nat) (db : models.DB) : Result unit * (nat * models.DB) :=
  match accounts with
  | [] => (Ok tt, (n, db))
  | (username, password, role) :: accounts =>
      match models.GetUserByUsername username db with
      | Ok _ => ensure_accounts message clock accounts n db
      | Err _ =>
          match models.CreateUser username password role (clock n) db with
          | (Err err, db) => (Err (fmt_Errorf (message username err)), (S n, db))
          | (Ok _, db) => ensure_accounts message clock accounts (S n) db
          end
      end
  end.

(** The accounts of [CreateTestUsers]: username, password and role. *)
Definition test_accounts : list (string * string * string) :=
  [("test_admin", "test_admin", "admin");
   ("test_teacher", "test_teacher", "teacher");
   ("test_student", "test_student", "student");
   ("wg", "wg_123", "teacher"); ("liz", "liz_123", "teacher");
   ("eddie", "eddie_123", "teacher"); ("yu", "yu_123", "teacher");
   ("tan", "tan_123", "teacher"); ("li", "li_123", "teacher")].

End main.

(** ** A small database and a few requests

    Users as [CreateTestUsers] makes them, the sample student of
    schema_students.sql, and some of the subjects and assignments of
    schema_teachers.sql. *)
Module examples.

Definition handler : handlers.Handler :=
  handlers.mkHandler (config.JWTSecret config.NewConfig).

Definition test_admin : models.User :=
  models.mkUser 1 "test_admin" "test_admin" "admin" 0.
Definition test_teacher : models.User :=
  models.mkUser 2 "test_teacher" "test_teacher" "teacher" 0.
Definition test_student : models.User :=
  models.mkUser 3 "test_student" "test_student" "student" 0.
Definition wg : models.User :=
  models.mkUser 4 "wg" "wg_123" "teacher" 0.

Definition student_row : models.StudentRow :=
  models.mkStudentRow 1 3 "Test" "Student" "test.student@example.com" "IB1"
                      0 0.

Definition pib_mathematics : models.Subject :=
  models.mkSubject 1 "PIB" "Mathematics" "Pre-IB Mathematics" 0.
Definition pib_physics : models.Subject :=
  models.mkSubject 3 "PIB" "Physics" "Pre-IB Physics" 0.
Definition ib1_math_aa : models.Subject :=
  models.mkSubject 7 "IB1" "Math AA"
                   "IB1 Mathematics Analysis and Approaches" 0.
Definition ib1_physics : models.Subject :=
  models.mkSubject 9 "IB1" "Physics" "IB1 Physics" 0.
Definition ib1_chemistry : models.Subject :=
  models.mkSubject 10 "IB1" "Chemistry" "IB1 Chemistry" 0.

Definition wg_pib_physics : models.TeacherSubject :=
  models.mkTeacherSubject 1 4 3 0.

Definition db : models.DB :=
  models.mkDB [test_admin; test_teacher; test_student; wg]
              [student_row]
              [pib_mathematics; pib_physics; ib1_math_aa; ib1_physics;
               ib1_chemistry]
              [wg_pib_physics]
              5 2 2.

(** A request with the given method, headers and path parameters. *)
Definition request (method : string) (headers params : list (string * string))
  : gin.Context :=
  gin.mkContext method (list_to_map headers) (list_to_map params) ∅ ∅ None
                false.

(** The token that [createToken] signs for a user at time 0, under the
    executable primitives. *)
Definition token_of (user : models.User) : string :=
  match handlers.createToken (P := instances.primitives) user
          (handlers.JWTSecret handler) 0 0 with
  | Ok tok => tok
  | Err _ => ""
  end.

Definition new_student : models.StudentRequest :=
  models.mkStudentRequest "Ada" "Lovelace" "ada@example.com" "IB2" "ada"
                          "analytical".

(** A request for a new account with the email of the sample student. *)
Definition duplicate_email : models.StudentRequest :=
  models.mkStudentRequest "Eve" "Moneypenny" "test.student@example.com" "IB1"
                          "eve" "secret".

(** An update of the sample student that leaves the password alone. *)
Definition rename_student : models.StudentRequest :=
  models.mkStudentRequest "Test" "Pupil" "test.pupil@example.com" "IB2" "" "".

(** The endpoints: the two handlers modelled here, and a stub that answers
    200 for the others. *)
Definition endpoints (e : routes.Endpoint) : gin.HandlerFunc models.DB :=
  match e with
  | routes.HandleDeleteStudent =>
      handlers.HandleDeleteStudent (P := instances.primitives) handler 5
  | routes.GetSubjectsByGrade =>
      handlers.GetSubjectsByGrade (H := instances.C_collation)
  | _ => fun db c _ => (db, gin.JSON http.StatusOK gin.JNull c)
  end.

(** [POST /api/admin/students]. *)
Definition create_student_route : routes.Route :=
  routes.mkRoute "POST" "/api/admin/students" routes.students
                 routes.HandleCreateStudent.

(** [DELETE /api/admin/students/:id] and [GET /api/subjects/:grade]. *)
Definition delete_student_route : routes.Route :=
  routes.mkRoute "DELETE" "/api/admin/students/:id" routes.students
                 routes.HandleDeleteStudent.

Definition subjects_by_grade_route : routes.Route :=
  routes.mkRoute "GET" "/api/subjects/:grade" routes.subjects
                 routes.GetSubjectsByGrade.

(** A request that carries the token of a user. *)
Definition request_as (user : models.User) (method : string)
  (params : list (string * string)) : gin.Context :=
  request method [("Authorization", "Bearer " +:+ token_of user)] params.

(** The server at clock reading 5 (nanoseconds). *)
Definition serve (r : routes.Route) (db : models.DB) (c : gin.Context)
  : models.DB * gin.Context :=
  routes.serve (P := instances.primitives) (handlers.JWTSecret handler) 5
               endpoints r db c.

(** An update of the sample student that also sets a new password. *)
Definition new_password : models.StudentRequest :=
  models.mkStudentRequest "Test" "Student" "test.student@example.com" "IB1" ""
                          "s3cret".

(** The body of a request that assigns IB1 Physics. *)
Definition assign_ib1_physics : handlers.AssignSubjectRequest :=
  handlers.mkAssignSubjectRequest 9.

(** The handlers at clock reading 6, each with the request body it reads;
    the health check, which formats the time of day, is a stub. *)
Definition server (e : routes.Endpoint) : gin.HandlerFunc models.DB :=
  match e with
  | routes.HandleHealth => fun db c _ => (db, gin.JSON http.StatusOK gin.JNull c)
  | routes.HandleLogin =>
      handlers.HandleLogin (P := instances.primitives) handler 6 6
        (Some (handlers.mkLoginRequest "wg" "wg_123"))
  | routes.HandleProtected =>
      handlers.HandleProtected (P := instances.primitives) handler 6
  | routes.GetAllSubjects => handlers.GetAllSubjects (C := instances.C_collation)
  | routes.GetAllSubjectsGrouped =>
      handlers.GetAllSubjectsGrouped (C := instances.C_collation)
  | routes.GetSubjectsByGrade =>
      handlers.GetSubjectsByGrade (H := instances.C_collation)
  | routes.GetSubjectByID => handlers.GetSubjectByID
  | routes.GetAllTeachers => handlers.GetAllTeachers (C := instances.C_collation)
  | routes.GetTeacherByID => handlers.GetTeacherByID (C := instances.C_collation)
  | routes.AssignSubjectToTeacher =>
      handlers.AssignSubjectToTeacher (Some assign_ib1_physics) 7
  | routes.RemoveSubjectFromTeacher => handlers.RemoveSubjectFromTeacher
  | routes.HandleGetAllStudents =>
      handlers.HandleGetAllStudents (P := instances.primitives)
        (C := instances.C_collation) handler 6
  | routes.HandleGetStudent =>
      handlers.HandleGetStudent (P := instances.primitives) handler 6
  | routes.HandleCreateStudent =>
      handlers.HandleCreateStudent (P := instances.primitives) handler 6
        (Some new_student) 7 8
  | routes.HandleUpdateStudent =>
      handlers.HandleUpdateStudent (P := instances.primitives) handler 6
        (Some rename_student) 7
  | routes.HandleDeleteStudent =>
      handlers.HandleDeleteStudent (P := instances.primitives) handler 6
  end.

(** [POST /api/login], [GET /api/protected], [GET /api/teachers] and
    [POST /api/teachers/:id/subjects]. *)
Definition login_route : routes.Route :=
  routes.mkRoute "POST" "/api/login" routes.api routes.HandleLogin.

Definition protected_route : routes.Route :=
  routes.mkRoute "GET" "/api/protected" routes.protected
                 routes.HandleProtected.

Definition teachers_route : routes.Route :=
  routes.mkRoute "GET" "/api/teachers" routes.teachers routes.GetAllTeachers.

Definition assign_subject_route : routes.Route :=
  routes.mkRoute "POST" "/api/teachers/:id/subjects" routes.teacherAdmin
                 routes.AssignSubjectToTeacher.

(** [DELETE /api/teachers/:id/subjects/:subjectId] and
    [GET /api/admin/students]. *)
Definition remove_subject_route : routes.Route :=
  routes.mkRoute "DELETE" "/api/teachers/:id/subjects/:subjectId"
                 routes.teacherAdmin routes.RemoveSubjectFromTeacher.


(** The clock of a run of [CreateTestUsers]: reading [n] is [n]
    nanoseconds. *)
Definition clock (n : nat) : time.Time := Z.of_nat n.

(** The end of a chain: nothing more to run. *)
Definition done_ (db : models.DB) (c : gin.Context) : models.DB * gin.Context :=
  (db, c).

End examples.

(** * Properties *)

(** ** The model at work *)

Example Truncate_to_second :
  time.Truncate 1500000000 time.Second = 1000000000.
Proof. reflexivity. Qed.

Example Atoi_decimal :
  strconv.Atoi "42" = Some 42 /\ strconv.Atoi "-7" = Some (-7)
  /\ strconv.Atoi "4x" = None /\ strconv.Atoi "" = None
  /\ strconv.Atoi "9223372036854775808" = None.
Proof. repeat split; reflexivity. Qed.

Example extractToken_cases :
  middleware.extractToken "Bearer abc.def.ghi" = "abc.def.ghi"
  /\ middleware.extractToken "bearer abc.def.ghi" = ""
  /\ middleware.extractToken "Bearer " = ""
  /\ middleware.extractToken "" = "".
Proof. repeat split; reflexivity. Qed.

(** A new student gets the next two serial keys, and both rows. *)
Example CreateStudent_new_student :
  (models.CreateStudent examples.new_student 10 11 examples.db).1
  = Ok (models.mkStudent 2 5 "Ada" "Lovelace" "ada@example.com" "IB2" 11 11
                         "ada")
  /\ models.users
       (models.CreateStudent examples.new_student 10 11 examples.db).2
     = models.users examples.db
       ++ [models.mkUser 5 "ada" "analytical" "student" 10]
  /\ models.students
       (models.CreateStudent examples.new_student 10 11 examples.db).2
     = models.students examples.db
       ++ [models.mkStudentRow 2 5 "Ada" "Lovelace" "ada@example.com" "IB2"
                               11 11].
Proof. repeat split; reflexivity. Qed.

(** The duplicate email fails in the second statement; the user row of
    the first is gone, its serial key is spent. *)
Example CreateStudent_duplicate_email :
  models.CreateStudent examples.duplicate_email 10 11 examples.db
  = (Err (pq_UniqueViolation "students_email_key"),
     models.mkDB (models.users examples.db) (models.students examples.db)
                 (models.subjects examples.db)
                 (models.teacher_subjects examples.db) 6 3 2).
Proof. reflexivity. Qed.

(** Deleting the sample student removes its row and its user. *)
Example DeleteStudent_sample_student :
  (models.DeleteStudent 1 examples.db).1 = Ok tt
  /\ models.students (models.DeleteStudent 1 examples.db).2 = []
  /\ models.users (models.DeleteStudent 1 examples.db).2
     = [examples.test_admin; examples.test_teacher; examples.wg].
Proof. repeat split; reflexivity. Qed.

Example GetSubjectsByGrade_IB1 :
  models.GetSubjectsByGrade (H := instances.C_collation) "IB1" examples.db
  = Ok [examples.ib1_chemistry; examples.ib1_math_aa; examples.ib1_physics].
Proof. reflexivity. Qed.

(** A token is three dot-separated segments, and validates until it
    expires. *)
Example token_of_wg :
  length (instances.segments (examples.token_of examples.wg)) = 3%nat
  /\ handlers.validateToken (P := instances.primitives)
       (examples.token_of examples.wg) "wg-edu-secret-key" time.Hour
     = Ok (Some (handlers.newClaims examples.wg 0 0))
  /\ handlers.validateToken (P := instances.primitives)
       (examples.token_of examples.wg) "wg-edu-secret-key" (24 * time.Hour)
     = Err jwt_ErrTokenExpired
  /\ handlers.validateToken (P := instances.primitives)
       (examples.token_of examples.wg) "another-secret" time.Hour
     = Err jwt_ErrTokenSignatureInvalid.
Proof. repeat split; vm_compute; reflexivity. Qed.

(** Requests through the whole chain of a route: an admin deletes the
    sample student; deleting a student that does not exist is answered 500;
    a student may list the subjects of a grade, and an unknown grade is
    answered 400. *)
Example serve_delete_student :
  (examples.serve examples.delete_student_route examples.db
     (examples.request_as examples.test_admin "DELETE" [("id", "1")])).1
  = (models.DeleteStudent 1 examples.db).2
  /\ gin.status
       (examples.serve examples.delete_student_route examples.db
          (examples.request_as examples.test_admin "DELETE" [("id", "1")])).2
     = http.StatusOK
  /\ examples.serve examples.delete_student_route examples.db
       (examples.request_as examples.test_admin "DELETE" [("id", "99")])
     = (examples.db,
        gin.JSON http.StatusInternalServerError
          (gin.H [("error", gin.JString "Failed to delete student")])
          (gin.Set_ "role" (gin.any_string "admin")
             (gin.Set_ "user_id" (gin.any_int 1)
                (gin.Header_Set "Access-Control-Allow-Headers"
                   "Content-Type, Authorization"
                   (gin.Header_Set "Access-Control-Allow-Methods"
                      "GET, POST, PUT, DELETE, OPTIONS"
                      (gin.Header_Set "Access-Control-Allow-Origin" "*"
                         (examples.request_as examples.test_admin "DELETE"
                            [("id", "99")]))))))).
Proof. repeat split; vm_compute; reflexivity. Qed.

Example serve_subjects_by_grade :
  gin.Writer
    (examples.serve examples.subjects_by_grade_route examples.db
       (examples.request_as examples.test_student "GET" [("grade", "IB1")])).2
  = Some (gin.mkResponse http.StatusOK
            (Some (gin.JArray
                     (map handlers.Subject_JSON
                        [examples.ib1_chemistry; examples.ib1_math_aa;
                         examples.ib1_physics]))))
  /\ gin.Writer
       (examples.serve examples.subjects_by_grade_route examples.db
          (examples.request_as examples.test_student "GET"
             [("grade", "IB3")])).2
     = Some (gin.mkResponse http.StatusBadRequest
               (Some (handlers.ErrorResponse
                        "Invalid grade. Must be PIB, IB1, or IB2"))).
Proof. repeat split; vm_compute; reflexivity. Qed.

(** ** Lists and tables *)

Lemma existsb_elem_of {A} (f : A -> bool) (l : list A) :
  existsb f l = true <-> exists x, x ∈ l /\ f x = true.
Proof.
  rewrite existsb_exists. split; intros (x & Hx & Hf); exists x; split; auto;
    by apply list_elem_of_In.
Qed.

Lemma existsb_false_elem_of {A} (f : A -> bool) (l : list A) :
  existsb f l = false <-> forall x, x ∈ l -> f x = false.
Proof.
  split.
  - intros Hex x Hx. destruct (f x) eqn:Hf; [|done].
    rewrite <- Hex. symmetry. apply existsb_elem_of. eauto.
  - intros Hall. destruct (existsb f l) eqn:Hex; [|done].
    apply existsb_elem_of in Hex as (x & Hx & Hf).
    rewrite (Hall x Hx) in Hf. done.
Qed.

(** A slice is written as an array when it has an element and as [null]
    when it has none. *)
Lemma JSlice_map {A} (f : A -> gin.JSONValue) (l : list A) :
  gin.JSlice (map f l)
  = match l with
    | [] => gin.JNull
    | _ :: _ => gin.JArray (map f l)
    end.
Proof. by destruct l. Qed.

(** ** C1: a duplicate username or email *)


(** ** C4: deleting a student that does not exist *)

Lemma find_none_elem_of {A} (f : A -> bool) (l : list A) :
  (forall x, x ∈ l -> f x = false) -> find f l = None.
Proof.
  induction l as [|a l IH]; intros Hall; [done|]. cbn.
  rewrite (Hall a) by constructor.
  apply IH. intros x Hx. apply Hall. by constructor.
Qed.

Lemma Rollback_Begin (db : models.DB) :
  models.Rollback (models.Begin db) = db.
Proof. by destruct db. Qed.

Lemma no_row_integer (key : Z) :
  -2147483648 <= key <= 2147483647 -> models.no_row key = sql_ErrNoRows.
Proof.
  intros Hrange. unfold models.no_row, models.is_integer.
  destruct (Z.leb_spec (-2147483648) key), (Z.leb_spec key 2147483647);
    cbn; try done; lia.
Qed.

Lemma no_row_out_of_range (key : Z) :
  key < -2147483648 \/ 2147483647 < key ->
  models.no_row key = pq_NumericValueOutOfRange.
Proof.
  intros Hrange. unfold models.no_row, models.is_integer.
  destruct (Z.leb_spec (-2147483648) key), (Z.leb_spec key 2147483647);
    cbn; try done; lia.
Qed.

Lemma DeleteStudent_no_row (id : Z) (db : models.DB) :
  (forall r, r ∈ models.students db -> models.Row_ID r <> id) ->
  models.DeleteStudent id db = (Err (models.no_row id), db).
Proof.
  intros Hmissing.
  unfold models.DeleteStudent, models.tx_query, models.select_student_user_id.
  cbn [models.Begin models.tx_now].
  rewrite find_none_elem_of.
  - by rewrite Rollback_Begin.
  - intros r Hr. apply Z.eqb_neq. by apply Hmissing.
Qed.

(** The caller of [DeleteStudent], [HandleDeleteStudent], reports every
    error of it, [sql.ErrNoRows] included, as 500. *)
Lemma HandleDeleteStudent_missing_student {P : jwt.Primitives}
  (h : handlers.Handler) (now : time.Time) (claims : jwt.Claims) (id : Z)
  (db : models.DB) (c : gin.Context)
  (next : models.DB -> gin.Context -> models.DB * gin.Context) :
  handlers.validateAdminToken h now c = Some (Ok claims) ->
  strconv.Atoi (gin.Param c "id") = Some id ->
  (forall r, r ∈ models.students db -> models.Row_ID r <> id) ->
  handlers.HandleDeleteStudent h now db c next
  = (db, gin.JSON http.StatusInternalServerError
           (gin.H [("error", gin.JString "Failed to delete student")]) c).
Proof.
  intros Hadmin Hid Hmissing. unfold handlers.HandleDeleteStudent.
  by rewrite Hadmin, Hid, (DeleteStudent_no_row id db Hmissing).
Qed.

(** C4 (as amended).  When no row of [students] has the id,
    [DeleteStudent] fails and the database is what it was: no row of any
    table is inserted, modified or removed.  The error it returns to its
    caller is [sql.ErrNoRows] when the id is within the 32-bit range of the
    key column, and the database's out-of-range error when it is not.  Its
    caller [HandleDeleteStudent], for an admin's request with that id,
    answers either error with 500 "Failed to delete student", not with
    404. *)
Theorem DeleteStudent_missing_not_found {P : jwt.Primitives} (id : Z)
  (db : models.DB) :
  (forall r, r ∈ models.students db -> models.Row_ID r <> id) ->
  (models.DeleteStudent id db).2 = db
  /\ models.users (models.DeleteStudent id db).2 = models.users db
  /\ models.students (models.DeleteStudent id db).2 = models.students db
  /\ (-2147483648 <= id <= 2147483647 ->
      (models.DeleteStudent id db).1 = Err sql_ErrNoRows)
  /\ (id < -2147483648 \/ 2147483647 < id ->
      (models.DeleteStudent id db).1 = Err pq_NumericValueOutOfRange)
  /\ (forall h now claims c next,
        handlers.validateAdminToken h now c = Some (Ok claims) ->
        strconv.Atoi (gin.Param c "id") = Some id ->
        handlers.HandleDeleteStudent h now db c next
        = (db, gin.JSON http.StatusInternalServerError
                 (gin.H [("error", gin.JString "Failed to delete student")])
                 c)).
Proof.
  intros Hmissing. rewrite (DeleteStudent_no_row id db Hmissing). cbn [fst snd].
  split; [done|]. split; [done|]. split; [done|]. split; [|split].
  - intros Hrange. by rewrite no_row_integer.
  - intros Hrange. by rewrite no_row_out_of_range.
  - intros h now claims c next Hadmin Hid.
    by apply (HandleDeleteStudent_missing_student h now claims id).
Qed.

(** ** C9: what a successful update writes *)

(** C9.  After a successful [UpdateStudent id req]: in every [students] row
    with that id the four profile fields are those of the request and
    [updated_at] is the clock reading, its other columns and all other rows
    are as before; with an empty password [users] is as before; with a
    non-empty one only the password column of the owner's [users] row is
    written; the other tables are untouched. *)
Theorem UpdateStudent_frame (id : Z) (req : models.StudentRequest)
  (now : time.Time) (db db' : models.DB) (student : models.Student) :
  models.UpdateStudent id req now db = (Ok student, db') ->
  exists row,
    find (fun r => models.Row_ID r =? id) (models.students db) = Some row
    /\ models.students db'
       = map (fun r =>
                if models.Row_ID r =? id then
                  models.mkStudentRow
                    (models.Row_ID r) (models.Row_UserID r)
                    (models.Req_FirstName req) (models.Req_LastName req)
                    (models.Req_Email req) (models.Req_Grade req)
                    (models.Row_CreatedAt r) now
                else r)
             (models.students db)
    /\ (models.Req_Password req = "" -> models.users db' = models.users db)
    /\ (models.Req_Password req <> "" ->
        models.users db'
        = map (fun u =>
                 if models.User_ID u =? models.Row_UserID row then
                   models.mkUser
                     (models.User_ID u) (models.User_Username u)
                     (models.Req_Password req) (models.User_Role u)
                     (models.User_DateCreated u)
                 else u)
              (models.users db))
    /\ models.subjects db' = models.subjects db
    /\ models.teacher_subjects db' = models.teacher_subjects db.
Proof.
  unfold models.UpdateStudent, models.tx_query, models.select_student_user_id.
  cbn [models.Begin models.tx_now].
  destruct (find _ (models.students db)) as [row|] eqn:Hrow; [|done].
  intros Hupd. exists row. split; [done|].
  unfold models.tx_exec, models.update_student, models.select_username in Hupd.
  case_bool_decide as Hpw; cbn in Hupd; rewrite Hrow in Hupd;
    destruct (existsb _ (models.students db)); cbn in Hupd; try done;
    destruct (find _ _) as [u|] in Hupd; cbn in Hupd; try done;
    injection Hupd as _ <-; cbn; repeat split; done.
Qed.

(** ** C7: assigning a subject to a teacher *)

Lemma filter_none {A} (P : A -> Prop) `{!forall x, Decision (P x)}
  (l : list A) :
  (forall x, x ∈ l -> ~ P x) -> filter P l = [].
Proof.
  induction l as [|a l IH]; intros Hall; [done|].
  rewrite filter_cons_False by (apply Hall; constructor).
  apply IH. intros x Hx. apply Hall. by constructor.
Qed.

Lemma filter_key_singleton {A K} `{EqDecision K} (key : A -> K)
  (l : list A) (x : A) :
  NoDup (key <$> l) -> x ∈ l -> filter (fun y => key y = key x) l = [x].
Proof.
  induction l as [|a l IH]; intros Hnd Hx; [by apply elem_of_nil in Hx|].
  rewrite fmap_cons in Hnd. apply NoDup_cons in Hnd as [Ha Hnd].
  apply elem_of_cons in Hx as [->|Hx].
  - rewrite filter_cons_True by done. f_equal.
    apply filter_none. intros y Hy Heq.
    apply Ha. rewrite <- Heq. by apply list_elem_of_fmap_2.
  - rewrite filter_cons_False; [by apply IH|].
    intros Heq. apply Ha. rewrite Heq. by apply list_elem_of_fmap_2.
Qed.

Lemma assigned_once (t s : Z) (l : list models.TeacherSubject)
  (ts : models.TeacherSubject) :
  NoDup ((fun ts => (models.TS_TeacherID ts, models.TS_SubjectID ts)) <$> l) ->
  ts ∈ l ->
  models.TS_TeacherID ts = t -> models.TS_SubjectID ts = s ->
  filter (fun ts => models.TS_TeacherID ts = t /\ models.TS_SubjectID ts = s) l
  = [ts].
Proof.
  intros Hnd Hts <- <-.
  rewrite <- (filter_key_singleton _ _ ts Hnd Hts).
  apply list_filter_iff. intros y. split.
  - by intros [-> ->].
  - intros [= -> ->]. done.
Qed.

Lemma assigned_never (t s : Z) (l : list models.TeacherSubject) :
  existsb (fun ts => (models.TS_TeacherID ts =? t)
                     && (models.TS_SubjectID ts =? s)) l = false ->
  filter (fun ts => models.TS_TeacherID ts = t /\ models.TS_SubjectID ts = s) l
  = [].
Proof.
  intros Hex. apply filter_none. intros ts Hts [Ht Hs].
  rewrite existsb_false_elem_of in Hex. specialize (Hex ts Hts).
  rewrite Ht, Hs, !Z.eqb_refl in Hex. done.
Qed.

Lemma teacherExists_iff (teacherID : Z) (db : models.DB) :
  existsb (fun u => (models.User_ID u =? teacherID)
                    && bool_decide (models.User_Role u = "teacher"))
          (models.users db) = true
  <-> exists u, u ∈ models.users db /\ models.User_ID u = teacherID
                /\ models.User_Role u = "teacher".
Proof.
  rewrite existsb_elem_of. split; intros (u & Hu & H); exists u; split; auto.
  - apply andb_true_iff in H as [H1 H2].
    apply Z.eqb_eq in H1. by apply bool_decide_eq_true in H2.
  - destruct H as [H1 H2]. apply andb_true_iff.
    split; [by apply Z.eqb_eq | by apply bool_decide_eq_true].
Qed.

Lemma subjectExists_iff (subjectID : Z) (db : models.DB) :
  existsb (fun s => models.Subject_ID s =? subjectID) (models.subjects db) = true
  <-> exists s, s ∈ models.subjects db /\ models.Subject_ID s = subjectID.
Proof.
  rewrite existsb_elem_of.
  split; intros (s & Hs & H); exists s; split; auto; by apply Z.eqb_eq.
Qed.

Lemma AssignSubjectToTeacher_found (teacherID subjectID : Z)
  (now : time.Time) (db : models.DB) :
  (exists u, u ∈ models.users db /\ models.User_ID u = teacherID
             /\ models.User_Role u = "teacher") ->
  (exists s, s ∈ models.subjects db /\ models.Subject_ID s = subjectID) ->
  models.AssignSubjectToTeacher teacherID subjectID now db
  = models.insert_teacher_subject teacherID subjectID now db.
Proof.
  intros Ht%teacherExists_iff Hs%subjectExists_iff.
  unfold models.AssignSubjectToTeacher. by rewrite Ht, Hs.
Qed.

Lemma insert_teacher_subject_frame (teacherID subjectID : Z)
  (now : time.Time) (db : models.DB) :
  models.users (models.insert_teacher_subject teacherID subjectID now db).2
  = models.users db
  /\ models.subjects (models.insert_teacher_subject teacherID subjectID now db).2
     = models.subjects db.
Proof.
  unfold models.insert_teacher_subject. cbn.
  repeat (destruct (existsb _ _); cbn; try done).
Qed.

(** Inserting under the constraints succeeds and leaves one row for the
    pair. *)
Lemma insert_teacher_subject_once (teacherID subjectID : Z)
  (now : time.Time) (db : models.DB) :
  models.teacher_subjects_constraints db ->
  (exists u, u ∈ models.users db /\ models.User_ID u = teacherID) ->
  (exists s, s ∈ models.subjects db /\ models.Subject_ID s = subjectID) ->
  (models.insert_teacher_subject teacherID subjectID now db).1 = Ok tt
  /\ existsb (fun ts => (models.TS_TeacherID ts =? teacherID)
                        && (models.TS_SubjectID ts =? subjectID))
       (models.teacher_subjects
          (models.insert_teacher_subject teacherID subjectID now db).2) = true
  /\ length (models.assignments teacherID subjectID
               (models.insert_teacher_subject teacherID subjectID now db).2)
     = 1%nat.
Proof.
  intros [Hunique Hbelow] Ht Hs.
  unfold models.insert_teacher_subject. cbn.
  destruct (existsb _ (models.teacher_subjects db)) eqn:Hpair; cbn.
  - split; [done|]. split; [done|].
    apply existsb_elem_of in Hpair as (ts & Hts & H).
    apply andb_true_iff in H as [H1%Z.eqb_eq H2%Z.eqb_eq].
    unfold models.assignments. cbn.
    by rewrite (assigned_once _ _ _ ts Hunique Hts H1 H2).
  - assert (Hpk : existsb (fun ts => models.TS_ID ts
                                     =? models.teacher_subjects_id_seq db)
                          (models.teacher_subjects db) = false).
    { apply existsb_false_elem_of. intros ts Hts.
      rewrite Forall_forall in Hbelow. specialize (Hbelow ts Hts).
      apply Z.eqb_neq. lia. }
    assert (Hfk1 : existsb (fun u => models.User_ID u =? teacherID)
                           (models.users db) = true).
    { destruct Ht as (u & Hu & H). apply existsb_elem_of.
      exists u. split; [done|]. by apply Z.eqb_eq. }
    apply subjectExists_iff in Hs.
    rewrite Hpk, Hfk1, Hs. cbn. split; [done|]. split.
    + rewrite existsb_app. cbn. rewrite !Z.eqb_refl. cbn.
      by rewrite orb_true_r.
    + unfold models.assignments. cbn.
      rewrite filter_app, (assigned_never _ _ _ Hpair).
      by rewrite filter_cons_True.
Qed.

(** Once the pair is there, inserting again writes no row. *)
Lemma insert_teacher_subject_again (teacherID subjectID : Z)
  (now : time.Time) (db : models.DB) :
  existsb (fun ts => (models.TS_TeacherID ts =? teacherID)
                     && (models.TS_SubjectID ts =? subjectID))
          (models.teacher_subjects db) = true ->
  (models.insert_teacher_subject teacherID subjectID now db).1 = Ok tt
  /\ models.teacher_subjects
       (models.insert_teacher_subject teacherID subjectID now db).2
     = models.teacher_subjects db.
Proof.
  intros Hpair. unfold models.insert_teacher_subject. cbn. by rewrite Hpair.
Qed.

(** The error of [AssignSubjectToTeacher] is that of the first id that
    does not resolve. *)
Lemma AssignSubjectToTeacher_no_teacher (teacherID subjectID : Z)
  (now : time.Time) (db : models.DB) :
  ~ (exists u, u ∈ models.users db /\ models.User_ID u = teacherID
               /\ models.User_Role u = "teacher") ->
  models.AssignSubjectToTeacher teacherID subjectID now db
  = (Err (models.no_row teacherID), db).
Proof.
  intros Hno. unfold models.AssignSubjectToTeacher.
  destruct (existsb _ (models.users db)) eqn:Htb; cbn; [|done].
  exfalso. apply Hno. by apply teacherExists_iff.
Qed.

Lemma AssignSubjectToTeacher_no_subject (teacherID subjectID : Z)
  (now : time.Time) (db : models.DB) :
  (exists u, u ∈ models.users db /\ models.User_ID u = teacherID
             /\ models.User_Role u = "teacher") ->
  ~ (exists s, s ∈ models.subjects db /\ models.Subject_ID s = subjectID) ->
  models.AssignSubjectToTeacher teacherID subjectID now db
  = (Err (models.no_row subjectID), db).
Proof.
  intros Ht%teacherExists_iff Hno. unfold models.AssignSubjectToTeacher.
  rewrite Ht. cbn.
  destruct (existsb _ (models.subjects db)) eqn:Hsb; cbn; [|done].
  exfalso. apply Hno. by apply subjectExists_iff.
Qed.

(** C7 (as amended).  On a [teacher_subjects] table that satisfies its
    constraints: when [users] has a row with the teacher id and role
    "teacher" and [subjects] has a row with the subject id, assigning twice
    succeeds both times, the second call leaves the rows as the first left
    them, and exactly one row assigns the subject to the teacher; when
    either row is missing the call fails and the database is what it was.
    The error is that of the first id that does not resolve, the teacher's
    before the subject's: [sql.ErrNoRows] when that id is within the 32-bit
    range of the key column, the database's out-of-range error when it is
    not. *)
Theorem AssignSubjectToTeacher_idempotent (teacherID subjectID : Z)
  (now1 now2 : time.Time) (db : models.DB) :
  models.teacher_subjects_constraints db ->
  ((exists u, u ∈ models.users db /\ models.User_ID u = teacherID
              /\ models.User_Role u = "teacher")
   /\ (exists s, s ∈ models.subjects db /\ models.Subject_ID s = subjectID) ->
   let first := models.AssignSubjectToTeacher teacherID subjectID now1 db in
   let second :=
     models.AssignSubjectToTeacher teacherID subjectID now2 first.2 in
   first.1 = Ok tt
   /\ second.1 = Ok tt
   /\ models.teacher_subjects second.2 = models.teacher_subjects first.2
   /\ length (models.assignments teacherID subjectID second.2) = 1%nat)
  /\ (forall key,
        (~ (exists u, u ∈ models.users db /\ models.User_ID u = teacherID
                      /\ models.User_Role u = "teacher")
         /\ key = teacherID)
        \/ ((exists u, u ∈ models.users db /\ models.User_ID u = teacherID
                       /\ models.User_Role u = "teacher")
            /\ ~ (exists s, s ∈ models.subjects db
                            /\ models.Subject_ID s = subjectID)
            /\ key = subjectID) ->
        (-2147483648 <= key <= 2147483647 ->
         models.AssignSubjectToTeacher teacherID subjectID now1 db
         = (Err sql_ErrNoRows, db))
        /\ (key < -2147483648 \/ 2147483647 < key ->
            models.AssignSubjectToTeacher teacherID subjectID now1 db
            = (Err pq_NumericValueOutOfRange, db))).
Proof.
  intros Hok. split.
  - intros [Ht Hs]. cbn zeta.
    rewrite (AssignSubjectToTeacher_found _ _ now1 db Ht Hs).
    destruct (insert_teacher_subject_frame teacherID subjectID now1 db)
      as [Husers Hsubjects].
    rewrite AssignSubjectToTeacher_found
      by (by rewrite ?Husers, ?Hsubjects).
    destruct (insert_teacher_subject_once teacherID subjectID now1 db Hok)
      as (Hfirst & Hpair & Hone).
    { destruct Ht as (u & Hu & Hid & _). eauto. }
    { done. }
    destruct (insert_teacher_subject_again teacherID subjectID now2 _ Hpair)
      as [Hsecond Hsame].
    repeat split; try done.
    unfold models.assignments in *. by rewrite Hsame.
  - intros key Hmissing.
    assert (Herr : models.AssignSubjectToTeacher teacherID subjectID now1 db
                   = (Err (models.no_row key), db)).
    { destruct Hmissing as [[Hno ->]|(Ht & Hno & ->)].
      - by apply AssignSubjectToTeacher_no_teacher.
      - by apply AssignSubjectToTeacher_no_subject. }
    rewrite Herr. split; intros Hrange.
    + by rewrite no_row_integer.
    + by rewrite no_row_out_of_range.
Qed.

(** ** The constraints are invariants *)

Lemma NoDup_snoc_fresh {A} (l : list A) (x : A) :
  NoDup l -> x ∉ l -> NoDup (l ++ [x]).
Proof.
  intros Hnd Hfresh. apply NoDup_app. split; [done|]. split.
  - intros y Hy Hin. apply list_elem_of_singleton in Hin as ->. done.
  - apply NoDup_singleton.
Qed.

(** [AssignSubjectToTeacher] keeps the constraints of [teacher_subjects]. *)
Lemma AssignSubjectToTeacher_keeps_constraints (teacherID subjectID : Z)
  (now : time.Time) (db : models.DB) :
  models.teacher_subjects_constraints db ->
  models.teacher_subjects_constraints
    (models.AssignSubjectToTeacher teacherID subjectID now db).2.
Proof.
  intros Hok. pose proof Hok as [Hunique Hbelow].
  assert (Hnext : Forall (fun ts => models.TS_ID ts
                                    < models.teacher_subjects_id_seq db + 1)
                         (models.teacher_subjects db)).
  { eapply Forall_impl; [exact Hbelow|]. cbn. intros ts Hts. lia. }
  unfold models.AssignSubjectToTeacher.
  destruct (existsb _ (models.users db)); cbn; [|exact Hok].
  destruct (existsb _ (models.subjects db)); cbn; [|exact Hok].
  unfold models.insert_teacher_subject. cbn.
  destruct (existsb _ (models.teacher_subjects db)) eqn:Hpair; cbn;
    [split; cbn; done|].
  destruct (existsb (fun ts => models.TS_ID ts =? _) _); cbn;
    [split; cbn; done|].
  destruct (existsb (fun u => models.User_ID u =? teacherID) _); cbn;
    [|split; cbn; done].
  split; cbn.
  - rewrite fmap_app. apply NoDup_snoc_fresh; [done|]. cbn.
    intros (ts & Heq & Hts)%list_elem_of_fmap. injection Heq as Ht Hs.
    rewrite existsb_false_elem_of in Hpair. specialize (Hpair ts Hts).
    rewrite <- Ht, <- Hs, !Z.eqb_refl in Hpair. done.
  - apply Forall_app. split; [done|]. constructor; [cbn; lia|constructor].
Qed.

Lemma fmap_map_invariant {A B} (f : A -> B) (g : A -> A) (l : list A) :
  (forall x, f (g x) = f x) -> f <$> map g l = f <$> l.
Proof.
  intros Hfg. induction l as [|a l IH]; [done|]. cbn. by rewrite Hfg, IH.
Qed.

(** [CreateStudent], [UpdateStudent] and [DeleteStudent] keep usernames
    unique. *)
Lemma CreateStudent_keeps_usernames_unique (req : models.StudentRequest)
  (now_user now : time.Time) (db : models.DB) :
  models.users_constraints db ->
  models.users_constraints (models.CreateStudent req now_user now db).2.
Proof.
  unfold models.users_constraints. intros Hunique.
  unfold models.CreateStudent, models.tx_exec, models.Begin; cbn.
  unfold models.insert_user; cbn.
  destruct (existsb _ (models.users db)); cbn; [done|].
  destruct (existsb _ (models.users db)) eqn:Hname; cbn; [done|].
  unfold models.insert_student; cbn.
  destruct (existsb _ (models.students db)); cbn; [done|].
  destruct (existsb _ (models.students db)); cbn; [done|].
  destruct (existsb _ (models.users db ++ _)); cbn; [|done].
  rewrite fmap_app. apply NoDup_snoc_fresh; [done|]. cbn.
  intros (u & Heq & Hu)%list_elem_of_fmap.
  rewrite existsb_false_elem_of in Hname. specialize (Hname u Hu).
  by rewrite bool_decide_eq_false in Hname.
Qed.

Lemma update_student_users (first_name last_name email grade : string)
  (updated_at : time.Time) (id : Z) (db : models.DB) :
  models.users
    (models.update_student first_name last_name email grade updated_at id
       db).2
  = models.users db.
Proof.
  unfold models.update_student.
  destruct (find _ _); [|done]. by destruct (existsb _ _).
Qed.

Lemma UpdateStudent_keeps_usernames_unique (id : Z)
  (req : models.StudentRequest) (now : time.Time) (db : models.DB) :
  models.users_constraints db ->
  models.users_constraints (models.UpdateStudent id req now db).2.
Proof.
  unfold models.users_constraints. intros Hunique.
  unfold models.UpdateStudent, models.tx_query, models.tx_exec.
  cbn [models.Begin models.tx_now].
  destruct (models.select_student_user_id id db) as [userID|]; [|done].
  case_bool_decide; cbn.
  - pose proof (update_student_users (models.Req_FirstName req)
                  (models.Req_LastName req) (models.Req_Email req)
                  (models.Req_Grade req) now id
                  (models.set_users
                     (map (fun u => if models.User_ID u =? userID
                                    then models.with_password
                                           (models.Req_Password req) u
                                    else u)) db)) as Husers.
    destruct (models.update_student _ _ _ _ _ _ _) as [[row|e] d]; cbn;
      [|done].
    destruct (models.select_username _ _); cbn; [|done].
    cbn in Husers. rewrite Husers, fmap_map_invariant; [done|].
    intros u. by destruct (_ =? _).
  - pose proof (update_student_users (models.Req_FirstName req)
                  (models.Req_LastName req) (models.Req_Email req)
                  (models.Req_Grade req) now id db) as Husers.
    destruct (models.update_student _ _ _ _ _ _ _) as [[row|e] d]; cbn;
      [|done].
    destruct (models.select_username _ _); cbn; [|done].
    cbn in Husers. by rewrite Husers.
Qed.

Lemma DeleteStudent_keeps_usernames_unique (id : Z) (db : models.DB) :
  models.users_constraints db ->
  models.users_constraints (models.DeleteStudent id db).2.
Proof.
  unfold models.users_constraints. intros Hunique.
  unfold models.DeleteStudent, models.tx_query, models.tx_exec.
  cbn [models.Begin models.tx_now].
  destruct (models.select_student_user_id id db); cbn; [|done].
  eapply sublist_NoDup; [exact Hunique|].
  apply fmap_sublist, sublist_filter.
Qed.

(** ** C8: subjects of a grade *)

Section subjects_by_grade.
Context {C : models.Collation}.
Context (collate_total : Total models.collate_le).
Context (collate_trans : Transitive models.collate_le).

#[local] Instance by_name_total : Total models.by_name.
Proof. intros a b. apply collate_total. Qed.

#[local] Instance by_name_trans : Transitive models.by_name.
Proof. intros a b c. unfold models.by_name. apply collate_trans. Qed.

(** C8.  For every grade, valid or not, the repository returns the stored
    subjects of that grade and no others, each as often as it is stored,
    in ascending order of name under the collation of the database.  It is
    the handler that answers 400 for a grade other than PIB, IB1 and IB2,
    before it calls the repository; for these three it answers 200 with the
    repository's rows, as a JSON array when there is a row and as [null]
    (the nil slice) when there is none. *)
Theorem GetSubjectsByGrade_filtered_sorted (grade : string) (db : models.DB) :
  exists rows,
    models.GetSubjectsByGrade grade db = Ok rows
    /\ rows ≡ₚ filter (fun s => models.Subject_Grade s = grade)
                      (models.subjects db)
    /\ (forall s, s ∈ rows <->
                  s ∈ models.subjects db /\ models.Subject_Grade s = grade)
    /\ StronglySorted
         (fun a b => models.collate_le (models.Subject_Name a)
                                       (models.Subject_Name b)) rows
    /\ (forall c next,
          gin.Param c "grade" = grade ->
          handlers.GetSubjectsByGrade db c next
          = (db,
             if bool_decide (grade ∈ ["PIB"; "IB1"; "IB2"]) then
               gin.JSON http.StatusOK
                 (match rows with
                  | [] => gin.JNull
                  | _ :: _ => gin.JArray (map handlers.Subject_JSON rows)
                  end) c
             else
               gin.JSON http.StatusBadRequest
                 (handlers.ErrorResponse
                    "Invalid grade. Must be PIB, IB1, or IB2") c)).
Proof.
  eexists. split; [reflexivity|].
  split; [apply merge_sort_Permutation|].
  split.
  { intros s. rewrite merge_sort_Permutation, list_elem_of_filter. tauto. }
  split.
  { apply (StronglySorted_merge_sort models.by_name). }
  intros c next Hgrade. unfold handlers.GetSubjectsByGrade.
  rewrite Hgrade. f_equal. cbn [models.GetSubjectsByGrade].
  rewrite JSlice_map.
  destruct (decide (grade = "PIB")) as [->|Hpib]; [done|].
  destruct (decide (grade = "IB1")) as [->|Hib1]; [done|].
  destruct (decide (grade = "IB2")) as [->|Hib2]; [done|].
  rewrite !bool_decide_eq_true_2 by done. cbn.
  rewrite bool_decide_eq_false_2; [done|].
  rewrite !elem_of_cons, elem_of_nil. tauto.
Qed.

End subjects_by_grade.

(** ** The executable primitives are lawful *)

Lemma append_String (a : ascii) (s t : string) :
  String a s +:+ t = String a (s +:+ t).
Proof. reflexivity. Qed.

Lemma append_Empty (t : string) : EmptyString +:+ t = t.
Proof. reflexivity. Qed.

Lemma bits_pos_bits (p : positive) :
  instances.bits_pos (instances.pos_bits p) = Some p.
Proof. induction p as [p IH|p IH|]; cbn; by rewrite ?IH. Qed.

Lemma segments_pos_bits (p : positive) :
  instances.segments (instances.pos_bits p) = [instances.pos_bits p].
Proof. induction p as [p IH|p IH|]; cbn; by rewrite ?IH. Qed.

Lemma segments_pos_bits_dot (p : positive) (s : string) :
  instances.segments (instances.pos_bits p +:+ String "."%char s)
  = instances.pos_bits p :: instances.segments s.
Proof.
  induction p as [p IH|p IH|]; cbn [instances.pos_bits];
    rewrite ?append_String, ?append_Empty;
    cbn [instances.segments Ascii.eqb Bool.eqb]; by rewrite ?IH.
Qed.

Lemma append_assoc (s t u : string) : (s +:+ t) +:+ u = s +:+ t +:+ u.
Proof.
  induction s as [|a s IH]; [done|]. by rewrite !append_String, IH.
Qed.

Lemma decode_encode_segment {A} `{Countable A} (x : A) :
  instances.decode_segment (instances.encode_segment x) = Some x.
Proof.
  unfold instances.decode_segment, instances.encode_segment.
  rewrite bits_pos_bits. cbn. apply decode_encode.
Qed.

Lemma fields_claims_fields (c : jwt.Claims) :
  instances.fields_claims (instances.claims_fields c) = c.
Proof. by destruct c as [uid role []]. Qed.

Lemma instances_lawful : jwt.Lawful instances.primitives.
Proof.
  constructor. intros alg claims sig. cbn.
  unfold instances.parse.
  unfold instances.encode_segment at 1 2 3.
  rewrite append_assoc, !append_String, !append_Empty.
  rewrite !segments_pos_bits_dot, segments_pos_bits.
  fold (instances.encode_segment alg).
  fold (instances.encode_segment (instances.claims_fields claims)).
  fold (instances.encode_segment sig).
  rewrite !decode_encode_segment.
  cbn -[instances.fields_claims instances.claims_fields].
  by rewrite fields_claims_fields.
Qed.

(** ** Time *)

Lemma NewNumericDate_spec (t : time.Time) :
  jwt.NewNumericDate t = t - t mod time.Second.
Proof.
  unfold jwt.NewNumericDate, time.Truncate, jwt.TimePrecision. cbn.
  f_equal. apply Z.mod_add. done.
Qed.

(** A numeric date is the whole second its time falls in. *)
Lemma NewNumericDate_bounds (t : time.Time) :
  t - time.Second < jwt.NewNumericDate t <= t
  /\ jwt.NewNumericDate t mod time.Second = 0.
Proof.
  rewrite NewNumericDate_spec.
  pose proof (Z.mod_pos_bound t time.Second ltac:(done)) as Hmod.
  split; [lia|].
  rewrite Zminus_mod, Zmod_mod, Z.sub_diag. done.
Qed.

(** ** Tokens *)

Section tokens.
Context {P : jwt.Primitives}.
Context (lawful : jwt.Lawful P).

(** A token signed with a key parses under that key to its claims, and is
    then judged by the validator alone. *)
Lemma ParseWithClaims_SignedString (claims : jwt.Claims) (key tok : string)
  (now : time.Time) :
  jwt.SignedString claims key = Ok tok ->
  jwt.ParseWithClaims tok key now
  = match jwt.Validate claims now with
    | Some e => jwt.ParseError (Some (jwt.mkToken claims false)) e
    | None => jwt.Parsed (jwt.mkToken claims true)
    end.
Proof.
  unfold jwt.SignedString. intros [= <-].
  unfold jwt.ParseWithClaims.
  rewrite jwt.ParseUnverified_SignedString.
  unfold jwt.Verify, jwt.HS256_Verify, jwt.HS256_Sign.
  by rewrite !bool_decide_eq_true_2.
Qed.

Lemma Validate_newClaims (user : models.User) (now_exp now_iat t : time.Time) :
  jwt.Validate (handlers.newClaims user now_exp now_iat) t
  = if t <? jwt.NewNumericDate (time.Add now_exp (24 * time.Hour))
    then None else Some jwt_ErrTokenExpired.
Proof.
  unfold jwt.Validate, jwt.verifyExpiresAt, jwt.verifyNotBefore. cbn.
  unfold time.Before. by destruct (t <? _).
Qed.

Lemma validateToken_createToken (user : models.User) (secret tok : string)
  (now_exp now_iat t : time.Time) :
  handlers.createToken user secret now_exp now_iat = Ok tok ->
  handlers.validateToken tok secret t
  = if t <? jwt.NewNumericDate (time.Add now_exp (24 * time.Hour))
    then Ok (Some (handlers.newClaims user now_exp now_iat))
    else Err jwt_ErrTokenExpired.
Proof.
  unfold handlers.createToken. intros Hcreate.
  destruct (jwt.SignedString _ _) as [tok'|] eqn:Hsign; [|done].
  injection Hcreate as ->.
  unfold handlers.validateToken.
  rewrite (ParseWithClaims_SignedString _ _ _ t Hsign), Validate_newClaims.
  by destruct (t <? _).
Qed.

Lemma createToken_Ok (user : models.User) (secret : string)
  (now_exp now_iat : time.Time) :
  exists tok, handlers.createToken user secret now_exp now_iat = Ok tok.
Proof. unfold handlers.createToken, jwt.SignedString. eauto. Qed.

End tokens.

Lemma find_unique_key {A K} `{EqDecision K} (key : A -> K) (l : list A)
  (x : A) :
  NoDup (key <$> l) -> x ∈ l ->
  find (fun y => bool_decide (key y = key x)) l = Some x.
Proof.
  induction l as [|a l IH]; intros Hnd Hx; [by apply elem_of_nil in Hx|].
  rewrite fmap_cons in Hnd. apply NoDup_cons in Hnd as [Ha Hnd]. cbn.
  apply elem_of_cons in Hx as [->|Hx].
  - by rewrite bool_decide_eq_true_2.
  - rewrite bool_decide_eq_false_2; [by apply IH|].
    intros Heq. apply Ha. rewrite Heq. by apply list_elem_of_fmap_2.
Qed.

(** Under the [UNIQUE] constraint a username finds its own row. *)
Lemma GetUserByUsername_stored (u : models.User) (db : models.DB) :
  models.users_constraints db -> u ∈ models.users db ->
  models.GetUserByUsername (models.User_Username u) db = Ok u.
Proof.
  intros Hunique Hu. unfold models.GetUserByUsername.
  by rewrite (find_unique_key models.User_Username _ u Hunique Hu).
Qed.

Section token_claims.
Context {P : jwt.Primitives}.
Context (lawful : jwt.Lawful P).

(** ** C2: login, then validation *)

(** C2 (as amended).  For a stored identity whose username and password
    are not empty (under the constraint that usernames are unique) and a
    login request whose body carries that username and that password,
    login answers 200 with a body of two fields: "token", the token that
    [createToken] signs for the identity, and "user", the identity without
    its password.  Validating that token with the same secret at any
    instant before its expiry yields claims with the identity's id and
    role. *)
Theorem login_token_round_trip (h : handlers.Handler) (db : models.DB)
  (u : models.User) (now_exp now_iat : time.Time)
  (c : gin.Context) (next : models.DB -> gin.Context -> models.DB * gin.Context) :
  models.users_constraints db ->
  u ∈ models.users db ->
  models.User_Username u <> "" ->
  models.User_Password u <> "" ->
  exists token,
    handlers.HandleLogin h now_exp now_iat
      (Some (handlers.mkLoginRequest (models.User_Username u)
               (models.User_Password u))) db c next
    = (db,
       gin.JSON http.StatusOK
         (gin.JObject
            [("token", gin.JString token);
             ("user",
              gin.JObject
                [("id", gin.JNumber (models.User_ID u));
                 ("username", gin.JString (models.User_Username u));
                 ("role", gin.JString (models.User_Role u));
                 ("date_created", gin.JTime (models.User_DateCreated u))])])
         c)
    /\ handlers.createToken u (handlers.JWTSecret h) now_exp now_iat = Ok token
    /\ forall t : time.Time,
         t < jwt.NewNumericDate (time.Add now_exp (24 * time.Hour)) ->
         exists claims,
           handlers.validateToken token (handlers.JWTSecret h) t
           = Ok (Some claims)
           /\ jwt.UserID claims = models.User_ID u
           /\ jwt.Role claims = models.User_Role u
           /\ jwt.ExpiresAt (jwt.Registered claims)
              = Some (jwt.NewNumericDate (time.Add now_exp (24 * time.Hour))).
Proof.
  intros Hunique Hu Hname Hpass.
  destruct (createToken_Ok u (handlers.JWTSecret h) now_exp now_iat)
    as [token Htoken].
  exists token. split; [|split; [done|]].
  - unfold handlers.HandleLogin, handlers.ShouldBindJSON_LoginRequest.
    cbn [handlers.Username handlers.Password].
    rewrite !bool_decide_eq_false_2 by done.
    cbn [orb handlers.Username handlers.Password].
    rewrite (GetUserByUsername_stored u db Hunique Hu).
    unfold models.CheckPassword. rewrite bool_decide_eq_true_2 by done.
    cbn [negb]. by rewrite Htoken.
  - intros t Ht. eexists. split.
    + rewrite (validateToken_createToken lawful _ _ _ _ _ t Htoken).
      apply Z.ltb_lt in Ht. by rewrite Ht.
    + done.
Qed.

(** ** C5: the lifetime of a token *)

(** C5 (as amended).  The token issued with clock readings [now_exp] (for
    the expiry) and [now_iat] (for issued-at) carries issued-at = [now_iat]
    truncated to the whole second and expiry = [now_exp] + 24 h truncated
    to the whole second.  Validation accepts it at every instant strictly
    before that expiry, hence up to one second before [now_exp] + 24 h and
    at [now_exp] + 23 h 59 min, and rejects it as expired at every instant
    from that expiry on, hence from [now_exp] + 24 h on and at
    [now_exp] + 24 h 1 min. *)
Theorem token_lifetime (user : models.User) (secret : string)
  (now_exp now_iat : time.Time) :
  exists token claims expiry,
    handlers.createToken user secret now_exp now_iat = Ok token
    /\ jwt.ParseUnverified token
       = Some ("HS256", claims, jwt.SigningString "HS256" claims,
               jwt.HS256_Sign (jwt.SigningString "HS256" claims) secret)
    /\ jwt.UserID claims = models.User_ID user
    /\ jwt.Role claims = models.User_Role user
    /\ jwt.IssuedAt (jwt.Registered claims)
       = Some (time.Truncate now_iat time.Second)
    /\ jwt.ExpiresAt (jwt.Registered claims) = Some expiry
    /\ expiry = time.Truncate (now_exp + 24 * time.Hour) time.Second
    /\ now_exp + 24 * time.Hour - time.Second < expiry
       <= now_exp + 24 * time.Hour
    /\ (forall t, t < expiry ->
                  handlers.validateToken token secret t = Ok (Some claims))
    /\ (forall t, expiry <= t ->
                  handlers.validateToken token secret t
                  = Err jwt_ErrTokenExpired)
    /\ (forall t, t <= now_exp + 24 * time.Hour - time.Second ->
                  handlers.validateToken token secret t = Ok (Some claims))
    /\ (forall t, now_exp + 24 * time.Hour <= t ->
                  handlers.validateToken token secret t
                  = Err jwt_ErrTokenExpired)
    /\ handlers.validateToken token secret
         (now_exp + 23 * time.Hour + 59 * time.Minute) = Ok (Some claims)
    /\ handlers.validateToken token secret
         (now_exp + 24 * time.Hour + 1 * time.Minute)
       = Err jwt_ErrTokenExpired.
Proof.
  destruct (createToken_Ok user secret now_exp now_iat) as [token Htoken].
  exists token, (handlers.newClaims user now_exp now_iat),
    (jwt.NewNumericDate (time.Add now_exp (24 * time.Hour))).
  pose proof (NewNumericDate_bounds (time.Add now_exp (24 * time.Hour)))
    as [Hbounds _].
  unfold time.Add in *.
  assert (Haccept : forall t,
            t < jwt.NewNumericDate (now_exp + 24 * time.Hour) ->
            handlers.validateToken token secret t
            = Ok (Some (handlers.newClaims user now_exp now_iat))).
  { intros t Ht. rewrite (validateToken_createToken lawful _ _ _ _ _ t Htoken).
    unfold time.Add. apply Z.ltb_lt in Ht. by rewrite Ht. }
  assert (Hreject : forall t,
            jwt.NewNumericDate (now_exp + 24 * time.Hour) <= t ->
            handlers.validateToken token secret t = Err jwt_ErrTokenExpired).
  { intros t Ht. rewrite (validateToken_createToken lawful _ _ _ _ _ t Htoken).
    unfold time.Add. apply Z.ltb_ge in Ht. by rewrite Ht. }
  split; [done|]. split.
  { unfold handlers.createToken, jwt.SignedString in Htoken.
    injection Htoken as <-. apply jwt.ParseUnverified_SignedString. }
  repeat split; try done; try lia.
  - intros t Ht. apply Haccept. lia.
  - intros t Ht. apply Hreject. lia.
  - apply Haccept. unfold time.Minute, time.Hour, time.Minute in *. lia.
  - apply Hreject. unfold time.Minute, time.Hour, time.Minute in *. lia.
Qed.

End token_claims.

(** ** C10: failing logins *)

Lemma find_some_elem_of {A} (f : A -> bool) (l : list A) (x : A) :
  find f l = Some x -> x ∈ l /\ f x = true.
Proof.
  induction l as [|a l IH]; [done|]. cbn.
  destruct (f a) eqn:Hfa.
  - intros [= <-]. split; [constructor|done].
  - intros Hfind. destruct (IH Hfind). split; [by constructor|done].
Qed.

(** C10 (as amended).  Of two login requests that pass the binding of
    [LoginRequest] (username and password both present and non-empty), one
    whose username is that of no stored identity and one whose username is
    stored but never with the given password, both are answered 401 with
    the same body, "Invalid username or password", and the database is left
    alone. *)
Theorem login_failures_indistinguishable {P : jwt.Primitives}
  (h : handlers.Handler) (db : models.DB)
  (decoded1 decoded2 : option handlers.LoginRequest)
  (req1 req2 : handlers.LoginRequest)
  (now_exp1 now_iat1 now_exp2 now_iat2 : time.Time)
  (c1 c2 : gin.Context)
  (next : models.DB -> gin.Context -> models.DB * gin.Context) :
  handlers.ShouldBindJSON_LoginRequest decoded1 = Ok req1 ->
  handlers.ShouldBindJSON_LoginRequest decoded2 = Ok req2 ->
  (forall u, u ∈ models.users db ->
             models.User_Username u <> handlers.Username req1) ->
  (exists u, u ∈ models.users db
             /\ models.User_Username u = handlers.Username req2) ->
  (forall u, u ∈ models.users db ->
             models.User_Username u = handlers.Username req2 ->
             models.User_Password u <> handlers.Password req2) ->
  handlers.HandleLogin h now_exp1 now_iat1 decoded1 db c1 next
  = (db, gin.JSON http.StatusUnauthorized
           (gin.H [("error", gin.JString "Invalid username or password")]) c1)
  /\ handlers.HandleLogin h now_exp2 now_iat2 decoded2 db c2 next
     = (db, gin.JSON http.StatusUnauthorized
              (gin.H [("error", gin.JString "Invalid username or password")])
              c2)
  /\ gin.Writer
       (handlers.HandleLogin h now_exp1 now_iat1 decoded1 db c1 next).2
     = gin.Writer
         (handlers.HandleLogin h now_exp2 now_iat2 decoded2 db c2 next).2.
Proof.
  intros Hbind1 Hbind2 Hunknown Hknown Hwrong.
  assert (H1 : handlers.HandleLogin h now_exp1 now_iat1 decoded1 db c1 next
               = (db, gin.JSON http.StatusUnauthorized
                        (gin.H [("error",
                                 gin.JString "Invalid username or password")])
                        c1)).
  { unfold handlers.HandleLogin. rewrite Hbind1.
    unfold models.GetUserByUsername. rewrite find_none_elem_of; [done|].
    intros u Hu. apply bool_decide_eq_false. by apply Hunknown. }
  assert (H2 : handlers.HandleLogin h now_exp2 now_iat2 decoded2 db c2 next
               = (db, gin.JSON http.StatusUnauthorized
                        (gin.H [("error",
                                 gin.JString "Invalid username or password")])
                        c2)).
  { unfold handlers.HandleLogin. rewrite Hbind2.
    unfold models.GetUserByUsername.
    destruct (find _ (models.users db)) as [u|] eqn:Hfind; [|done].
    apply find_some_elem_of in Hfind as [Hu Hname].
    apply bool_decide_eq_true in Hname.
    unfold models.CheckPassword.
    rewrite bool_decide_eq_false_2 by by apply Hwrong. done. }
  rewrite H1, H2. done.
Qed.

(** ** C3 and C6: the gate and the role filters *)

Lemma extractToken_no_prefix (authHeader : string) :
  String.prefix "Bearer " authHeader = false ->
  middleware.extractToken authHeader = "".
Proof.
  intros Hprefix. unfold middleware.extractToken.
  by rewrite Hprefix, andb_false_r.
Qed.

Lemma extractToken_Bearer (tok : string) :
  tok <> "" -> middleware.extractToken ("Bearer " +:+ tok) = tok.
Proof.
  intros Htok. destruct tok as [|a tok]; [done|].
  unfold middleware.extractToken.
  replace (String.prefix "Bearer " ("Bearer " +:+ String a tok)) with true
    by (cbn; by destruct tok).
  replace (7 <? Z.of_nat (String.length ("Bearer " +:+ String a tok)))
    with true; [done|].
  symmetry. apply Z.ltb_lt.
  rewrite !append_String, append_Empty. cbn [String.length]. lia.
Qed.

Lemma ParseWithClaims_Parsed_Valid {P : jwt.Primitives}
  (tok key : string) (now : time.Time) (token : jwt.Token) :
  jwt.ParseWithClaims tok key now = jwt.Parsed token ->
  jwt.Valid token = true.
Proof.
  unfold jwt.ParseWithClaims.
  destruct (jwt.ParseUnverified tok) as [[[[alg claims] sstr] sig]|]; [|done].
  destruct (jwt.Verify _ _ _ _); [|done].
  destruct (jwt.Validate _ _); [done|]. by intros [= <-].
Qed.

(** The two [extractToken] functions, of [handlers] and of [middleware],
    agree. *)
Lemma extractToken_agree (c : gin.Context) :
  handlers.extractToken c
  = middleware.extractToken (gin.GetHeader c "Authorization").
Proof.
  unfold handlers.extractToken, middleware.extractToken.
  destruct (7 <? _); [|done]. cbn [andb].
  destruct (String.prefix "Bearer " (gin.GetHeader c "Authorization"))
    eqn:Hprefix.
  - apply String.prefix_correct in Hprefix. cbn in Hprefix.
    by rewrite bool_decide_eq_true_2.
  - rewrite bool_decide_eq_false_2; [done|]. intros Heq.
    assert (String.prefix "Bearer " (gin.GetHeader c "Authorization") = true)
      as Htrue by by apply String.prefix_correct.
    by rewrite Htrue in Hprefix.
Qed.

(** Without a bearer token the gate answers 401 itself and does not call
    the rest of the chain. *)
Lemma JWTAuth_without_token {P : jwt.Primitives} {S : Type}
  (jwtSecret : string) (now : time.Time) (s : S) (c : gin.Context)
  (next : S -> gin.Context -> S * gin.Context) :
  middleware.extractToken (gin.GetHeader c "Authorization") = "" ->
  middleware.JWTAuth jwtSecret now s c next
  = (s, gin.Abort
          (gin.JSON http.StatusUnauthorized
             (gin.H [("error",
                      gin.JString
                        (if bool_decide (gin.GetHeader c "Authorization" = "")
                         then "Authorization header required"
                         else "Invalid token format"))]) c)).
Proof.
  intros Hnone. unfold middleware.JWTAuth.
  case_bool_decide; [done|].
  by rewrite Hnone, bool_decide_eq_true_2.
Qed.

(** With a valid token the gate records the claims and calls the rest of
    the chain. *)
Lemma JWTAuth_with_token {P : jwt.Primitives} {S : Type}
  (jwtSecret tok : string) (now : time.Time) (token : jwt.Token) (s : S)
  (c : gin.Context) (next : S -> gin.Context -> S * gin.Context) :
  gin.GetHeader c "Authorization" = "Bearer " +:+ tok ->
  tok <> "" ->
  jwt.ParseWithClaims tok jwtSecret now = jwt.Parsed token ->
  middleware.JWTAuth jwtSecret now s c next
  = next s
      (gin.Set_ "role" (gin.any_string (jwt.Role (jwt.Token_Claims token)))
         (gin.Set_ "user_id"
            (gin.any_int (jwt.UserID (jwt.Token_Claims token))) c)).
Proof.
  intros Hheader Htok Hparse. unfold middleware.JWTAuth.
  rewrite Hheader, bool_decide_eq_false_2 by by destruct tok.
  rewrite (extractToken_Bearer tok Htok), bool_decide_eq_false_2 by done.
  rewrite Hparse. by rewrite (ParseWithClaims_Parsed_Valid _ _ _ _ Hparse).
Qed.

(** Every route behind [JWTAuth] runs it right after the CORS middleware. *)
Lemma protected_route_chain (r : routes.Route) :
  r ∈ routes.SetupRoutes ->
  routes.MW_JWTAuth ∈ routes.Route_Middleware r ->
  routes.Route_Method r <> "OPTIONS"
  /\ exists filters,
       routes.Route_Middleware r
       = routes.MW_CORS :: routes.MW_JWTAuth :: filters.
Proof.
  intros Hr Hmw. unfold routes.SetupRoutes in Hr.
  repeat (apply elem_of_cons in Hr as [->|Hr]);
    try (by apply elem_of_nil in Hr);
    try (by apply list_elem_of_singleton in Hmw);
    (split; [done|by eexists]).
Qed.

(** Every route behind [AdminOnly] runs it after [JWTAuth], with at most
    [TeacherOrAdmin] in between. *)
Lemma admin_route_chain (r : routes.Route) :
  r ∈ routes.SetupRoutes ->
  routes.MW_AdminOnly ∈ routes.Route_Middleware r ->
  routes.Route_Method r <> "OPTIONS"
  /\ (routes.Route_Middleware r
      = [routes.MW_CORS; routes.MW_JWTAuth; routes.MW_AdminOnly]
      \/ routes.Route_Middleware r
         = [routes.MW_CORS; routes.MW_JWTAuth; routes.MW_TeacherOrAdmin;
            routes.MW_AdminOnly]).
Proof.
  intros Hr Hmw. unfold routes.SetupRoutes in Hr.
  repeat (apply elem_of_cons in Hr as [->|Hr]);
    try (by apply elem_of_nil in Hr);
    try (split; [done|by (left + right)]);
    exfalso; cbn in Hmw;
    repeat (apply elem_of_cons in Hmw as [Hmw|Hmw]; [done|]);
    by apply elem_of_nil in Hmw.
Qed.

Lemma GetHeader_CORS {S : Type} (c : gin.Context) (key : string) :
  gin.GetHeader
    (gin.Header_Set "Access-Control-Allow-Headers" "Content-Type, Authorization"
       (gin.Header_Set "Access-Control-Allow-Methods"
          "GET, POST, PUT, DELETE, OPTIONS"
          (gin.Header_Set "Access-Control-Allow-Origin" "*" c))) key
  = gin.GetHeader c key.
Proof. reflexivity. Qed.

(** The CORS middleware passes every request other than OPTIONS on, with
    its three response headers set. *)
Lemma CORSMiddleware_passes {S : Type} (s : S) (c : gin.Context)
  (next : S -> gin.Context -> S * gin.Context) :
  gin.Request_Method c <> "OPTIONS" ->
  routes.CORSMiddleware s c next
  = next s
      (gin.Header_Set "Access-Control-Allow-Headers"
         "Content-Type, Authorization"
         (gin.Header_Set "Access-Control-Allow-Methods"
            "GET, POST, PUT, DELETE, OPTIONS"
            (gin.Header_Set "Access-Control-Allow-Origin" "*" c))).
Proof.
  intros Hmethod. unfold routes.CORSMiddleware. cbn.
  by rewrite bool_decide_eq_false_2.
Qed.

(** C3.  A request matched to a protected route (one behind [JWTAuth])
    whose Authorization header is absent, or does not start with "Bearer ", is
    answered 401 by the gate, which aborts the chain: the answer is the
    gate's own whatever handlers follow it, so no role filter and no
    endpoint runs, the state is untouched, and the status is not 403.
    This holds for every route of [SetupRoutes], those behind
    [TeacherOrAdmin] and [AdminOnly] included. *)
Theorem missing_token_unauthenticated {P : jwt.Primitives} {S : Type}
  (jwtSecret : string) (now : time.Time)
  (endpoints : routes.Endpoint -> gin.HandlerFunc S)
  (r : routes.Route) (s : S) (c : gin.Context) :
  r ∈ routes.SetupRoutes ->
  routes.MW_JWTAuth ∈ routes.Route_Middleware r ->
  gin.Request_Method c = routes.Route_Method r ->
  gin.Request_Header c !! "Authorization" = None
  \/ String.prefix "Bearer " (gin.GetHeader c "Authorization") = false ->
  (forall (c0 : gin.Context) (next next' : S -> gin.Context -> S * gin.Context),
      gin.GetHeader c0 "Authorization" = gin.GetHeader c "Authorization" ->
      middleware.JWTAuth jwtSecret now s c0 next
      = middleware.JWTAuth jwtSecret now s c0 next')
  /\ exists c',
      routes.serve jwtSecret now endpoints r s c = (s, c')
      /\ gin.status c' = http.StatusUnauthorized
      /\ gin.status c' <> http.StatusForbidden
      /\ gin.IsAborted c' = true.
Proof.
  intros Hr Hmw Hmethod Hheader.
  assert (Hnone : middleware.extractToken (gin.GetHeader c "Authorization")
                  = "").
  { destruct Hheader as [Habsent|Hprefix].
    - unfold gin.GetHeader. by rewrite Habsent.
    - by apply extractToken_no_prefix. }
  split.
  - intros c0 next next' Hsame. rewrite <- Hsame in Hnone.
    by rewrite !JWTAuth_without_token.
  - destruct (protected_route_chain r Hr Hmw) as [Hopt [filters Hchain]].
    unfold routes.serve. rewrite Hchain.
    cbn [map app gin.run routes.middlewareFunc].
    rewrite CORSMiddleware_passes by by rewrite Hmethod.
    rewrite JWTAuth_without_token by by rewrite (GetHeader_CORS (S := S)).
    eexists. split; [reflexivity|]. done.
Qed.

Lemma Get_role_after_JWTAuth (c : gin.Context) (uid : Z) (role : string) :
  gin.Get (gin.Set_ "role" (gin.any_string role)
             (gin.Set_ "user_id" (gin.any_int uid) c)) "role"
  = Some (gin.any_string role).
Proof. unfold gin.Get, gin.Set_. cbn. apply lookup_insert_eq. Qed.

(** C6.  A request to a route behind [AdminOnly] that carries a bearer
    token which validates (signature and expiry) and whose role is
    "teacher" is answered 403 "Admin access required", not 401: the gate
    lets it through, [TeacherOrAdmin] (where installed) lets it through,
    [AdminOnly] aborts the chain, and the endpoint does not run. *)
Theorem AdminOnly_forbids_teacher {P : jwt.Primitives} {S : Type}
  (jwtSecret tok : string) (now : time.Time) (token : jwt.Token)
  (endpoints : routes.Endpoint -> gin.HandlerFunc S)
  (r : routes.Route) (s : S) (c : gin.Context) :
  r ∈ routes.SetupRoutes ->
  routes.MW_AdminOnly ∈ routes.Route_Middleware r ->
  gin.Request_Method c = routes.Route_Method r ->
  gin.GetHeader c "Authorization" = "Bearer " +:+ tok ->
  tok <> "" ->
  jwt.ParseWithClaims tok jwtSecret now = jwt.Parsed token ->
  jwt.Role (jwt.Token_Claims token) = "teacher" ->
  exists c',
    routes.serve jwtSecret now endpoints r s c = (s, c')
    /\ gin.Writer c'
       = Some (gin.mkResponse http.StatusForbidden
                 (Some (gin.H [("error",
                                gin.JString "Admin access required")])))
    /\ gin.status c' = http.StatusForbidden
    /\ gin.status c' <> http.StatusUnauthorized
    /\ gin.IsAborted c' = true.
Proof.
  intros Hr Hmw Hmethod Hheader Htok Hparse Hrole.
  destruct (admin_route_chain r Hr Hmw) as [Hopt Hchain].
  unfold routes.serve.
  destruct Hchain as [-> | ->];
    cbn [map app gin.run routes.middlewareFunc];
    rewrite CORSMiddleware_passes by (by rewrite Hmethod);
    rewrite (JWTAuth_with_token jwtSecret tok now token)
      by (by rewrite ?(GetHeader_CORS (S := S)));
    rewrite Hrole.
  - unfold middleware.AdminOnly at 1. rewrite Get_role_after_JWTAuth.
    eexists. split; [reflexivity|]. done.
  - unfold middleware.TeacherOrAdmin at 1. rewrite Get_role_after_JWTAuth.
    cbn [bool_decide andb]. 
    unfold middleware.AdminOnly at 1. rewrite Get_role_after_JWTAuth.
    eexists. split; [reflexivity|]. done.
Qed.

(** * The theorems at concrete inputs *)


Lemma DeleteStudent_missing_not_found_witness :
  (models.DeleteStudent 99 examples.db).1 = Err sql_ErrNoRows
  /\ (models.DeleteStudent 99 examples.db).2 = examples.db
  /\ models.users (models.DeleteStudent 99 examples.db).2
     = models.users examples.db
  /\ models.students (models.DeleteStudent 99 examples.db).2
     = models.students examples.db
  /\ handlers.HandleDeleteStudent (P := instances.primitives)
       examples.handler 6 examples.db
       (examples.request_as examples.test_admin "DELETE" [("id", "99")])
       examples.done_
     = (examples.db,
        gin.JSON http.StatusInternalServerError
          (gin.H [("error", gin.JString "Failed to delete student")])
          (examples.request_as examples.test_admin "DELETE" [("id", "99")])).
Proof.
  destruct (DeleteStudent_missing_not_found (P := instances.primitives) 99
              examples.db)
    as (Hdb & Husers & Hstudents & Hfound & _ & Hhandler).
  { intros r Hr. apply list_elem_of_singleton in Hr as ->. discriminate. }
  split; [apply Hfound; lia|]. split; [exact Hdb|].
  split; [exact Husers|]. split; [exact Hstudents|].
  apply (Hhandler examples.handler 6
           (handlers.newClaims examples.test_admin 0 0)).
  - vm_compute. reflexivity.
  - vm_compute. reflexivity.
Defined.

Lemma UpdateStudent_frame_witness :
  exists row,
    find (fun r => models.Row_ID r =? 1) (models.students examples.db)
    = Some row
    /\ models.students
         (models.UpdateStudent 1 examples.rename_student 20 examples.db).2
       = map (fun r =>
                if models.Row_ID r =? 1 then
                  models.mkStudentRow
                    (models.Row_ID r) (models.Row_UserID r)
                    "Test" "Pupil" "test.pupil@example.com" "IB2"
                    (models.Row_CreatedAt r) 20
                else r)
             (models.students examples.db)
    /\ models.users
         (models.UpdateStudent 1 examples.rename_student 20 examples.db).2
       = models.users examples.db.
Proof.
  destruct (UpdateStudent_frame 1 examples.rename_student 20 examples.db
              (models.UpdateStudent 1 examples.rename_student 20 examples.db).2
              (models.mkStudent 1 3 "Test" "Pupil" "test.pupil@example.com"
                                "IB2" 0 20 "test_student"))
    as (row & Hrow & Hstudents & Hempty & _).
  { vm_compute. reflexivity. }
  exists row. split; [exact Hrow|]. split; [exact Hstudents|].
  apply Hempty. reflexivity.
Defined.

Lemma AssignSubjectToTeacher_idempotent_witness :
  models.teacher_subjects_constraints examples.db
  /\ (let first := models.AssignSubjectToTeacher 4 9 30 examples.db in
      let second := models.AssignSubjectToTeacher 4 9 31 first.2 in
      first.1 = Ok tt
      /\ second.1 = Ok tt
      /\ models.teacher_subjects second.2 = models.teacher_subjects first.2
      /\ length (models.assignments 4 9 second.2) = 1%nat)
  /\ models.AssignSubjectToTeacher 3 9 30 examples.db
     = (Err sql_ErrNoRows, examples.db).
Proof.
  assert (Hok : models.teacher_subjects_constraints examples.db).
  { split; [|by repeat constructor].
    apply (bool_decide_unpack _). vm_compute. exact I. }
  split; [exact Hok|]. split.
  - apply (AssignSubjectToTeacher_idempotent 4 9 30 31 examples.db Hok).
    split.
    + exists examples.wg. split; [repeat constructor|]. split; reflexivity.
    + exists examples.ib1_physics. split; [repeat constructor|reflexivity].
  - apply (proj2 (AssignSubjectToTeacher_idempotent 3 9 30 31 examples.db
                    Hok) 3); [|lia].
    left. split; [|reflexivity]. intros (u & Hu & Hid & Hrole).
    unfold examples.db in Hu. cbn in Hu.
    repeat (apply elem_of_cons in Hu as [->|Hu]; [discriminate|]).
    by apply elem_of_nil in Hu.
Defined.

Lemma GetSubjectsByGrade_filtered_sorted_witness :
  exists rows,
    models.GetSubjectsByGrade (H := instances.C_collation) "IB1" examples.db
    = Ok rows
    /\ rows ≡ₚ filter (fun s => models.Subject_Grade s = "IB1")
                      (models.subjects examples.db)
    /\ (forall s, s ∈ rows <->
                  s ∈ models.subjects examples.db
                  /\ models.Subject_Grade s = "IB1")
    /\ StronglySorted
         (fun a b => String.le (models.Subject_Name a) (models.Subject_Name b))
         rows
    /\ (forall c next,
          gin.Param c "grade" = "IB1" ->
          handlers.GetSubjectsByGrade (H := instances.C_collation)
            examples.db c next
          = (examples.db,
             if bool_decide ("IB1" ∈ ["PIB"; "IB1"; "IB2"]) then
               gin.JSON http.StatusOK
                 (match rows with
                  | [] => gin.JNull
                  | _ :: _ => gin.JArray (map handlers.Subject_JSON rows)
                  end) c
             else
               gin.JSON http.StatusBadRequest
                 (handlers.ErrorResponse
                    "Invalid grade. Must be PIB, IB1, or IB2") c)).
Proof.
  apply (@GetSubjectsByGrade_filtered_sorted instances.C_collation
           String.le_total _ "IB1" examples.db).
Defined.

Lemma login_token_round_trip_witness :
  exists token,
    handlers.HandleLogin (P := instances.primitives) examples.handler 0 0
      (Some (handlers.mkLoginRequest "wg" "wg_123")) examples.db
      (examples.request "POST" [] []) examples.done_
    = (examples.db,
       gin.JSON http.StatusOK
         (gin.JObject
            [("token", gin.JString token);
             ("user",
              gin.JObject
                [("id", gin.JNumber 4); ("username", gin.JString "wg");
                 ("role", gin.JString "teacher");
                 ("date_created", gin.JTime 0)])])
         (examples.request "POST" [] []))
    /\ token = examples.token_of examples.wg
    /\ forall t : time.Time,
         t < jwt.NewNumericDate (time.Add 0 (24 * time.Hour)) ->
         exists claims,
           handlers.validateToken (P := instances.primitives) token
             (handlers.JWTSecret examples.handler) t
           = Ok (Some claims)
           /\ jwt.UserID claims = 4
           /\ jwt.Role claims = "teacher"
           /\ jwt.ExpiresAt (jwt.Registered claims)
              = Some (jwt.NewNumericDate (time.Add 0 (24 * time.Hour))).
Proof.
  destruct (login_token_round_trip instances_lawful examples.handler
              examples.db examples.wg 0 0 (examples.request "POST" [] [])
              examples.done_)
    as (token & Hlogin & Htoken & Hvalid).
  - apply (bool_decide_unpack _). vm_compute. exact I.
  - repeat constructor.
  - discriminate.
  - discriminate.
  - exists token. split; [exact Hlogin|]. split; [|exact Hvalid].
    unfold examples.token_of. by rewrite Htoken.
Defined.

Lemma token_lifetime_witness :
  exists token claims expiry,
    handlers.createToken (P := instances.primitives) examples.wg
      "wg-edu-secret-key" 1500000000 1700000000 = Ok token
    /\ jwt.ParseUnverified (Primitives := instances.primitives) token
       = Some ("HS256", claims,
               jwt.SigningString (Primitives := instances.primitives)
                 "HS256" claims,
               jwt.HS256_Sign (P := instances.primitives)
                 (jwt.SigningString (Primitives := instances.primitives)
                    "HS256" claims) "wg-edu-secret-key")
    /\ jwt.UserID claims = 4
    /\ jwt.Role claims = "teacher"
    /\ jwt.IssuedAt (jwt.Registered claims) = Some 1000000000
    /\ jwt.ExpiresAt (jwt.Registered claims) = Some expiry
    /\ expiry = 86401000000000
    /\ (forall t, t < expiry ->
                  handlers.validateToken (P := instances.primitives) token
                    "wg-edu-secret-key" t = Ok (Some claims))
    /\ (forall t, expiry <= t ->
                  handlers.validateToken (P := instances.primitives) token
                    "wg-edu-secret-key" t = Err jwt_ErrTokenExpired).
Proof.
  destruct (token_lifetime instances_lawful examples.wg "wg-edu-secret-key"
              1500000000 1700000000)
    as (token & claims & expiry & Htoken & Hparse & Hid & Hrole & Hiat & Hexp
        & Hexpiry & _ & Haccept & Hreject & _).
  exists token, claims, expiry.
  repeat split; assumption.
Defined.

Lemma missing_token_unauthenticated_witness :
  exists c',
    routes.serve (P := instances.primitives)
      (handlers.JWTSecret examples.handler) 5 examples.endpoints
      examples.create_student_route examples.db
      (examples.request "POST" [] [])
    = (examples.db, c')
    /\ gin.status c' = http.StatusUnauthorized
    /\ gin.status c' <> http.StatusForbidden
    /\ gin.IsAborted c' = true.
Proof.
  destruct (missing_token_unauthenticated (P := instances.primitives)
              (handlers.JWTSecret examples.handler) 5 examples.endpoints
              examples.create_student_route examples.db
              (examples.request "POST" [] []))
    as [_ Hserve].
  - unfold routes.SetupRoutes, examples.create_student_route.
    repeat constructor.
  - unfold examples.create_student_route. cbn. repeat constructor.
  - reflexivity.
  - left. reflexivity.
  - exact Hserve.
Defined.

Lemma AdminOnly_forbids_teacher_witness :
  exists c',
    routes.serve (P := instances.primitives)
      (handlers.JWTSecret examples.handler) 5 examples.endpoints
      examples.create_student_route examples.db
      (examples.request "POST"
         [("Authorization",
           "Bearer " +:+ examples.token_of examples.test_teacher)] [])
    = (examples.db, c')
    /\ gin.Writer c'
       = Some (gin.mkResponse http.StatusForbidden
                 (Some (gin.H [("error",
                                gin.JString "Admin access required")])))
    /\ gin.status c' = http.StatusForbidden
    /\ gin.status c' <> http.StatusUnauthorized
    /\ gin.IsAborted c' = true.
Proof.
  apply (AdminOnly_forbids_teacher (P := instances.primitives)
           (handlers.JWTSecret examples.handler)
           (examples.token_of examples.test_teacher) 5
           (jwt.mkToken (handlers.newClaims examples.test_teacher 0 0) true)).
  - unfold routes.SetupRoutes, examples.create_student_route.
    repeat constructor.
  - unfold examples.create_student_route. cbn. repeat constructor.
  - reflexivity.
  - vm_compute. reflexivity.
  - vm_compute. discriminate.
  - vm_compute. reflexivity.
  - reflexivity.
Defined.

Lemma login_failures_indistinguishable_witness :
  handlers.HandleLogin (P := instances.primitives) examples.handler 0 0
    (Some (handlers.mkLoginRequest "mallory" "guess")) examples.db
    (examples.request "POST" [] []) examples.done_
  = (examples.db,
     gin.JSON http.StatusUnauthorized
       (gin.H [("error", gin.JString "Invalid username or password")])
       (examples.request "POST" [] []))
  /\ handlers.HandleLogin (P := instances.primitives) examples.handler 1 1
       (Some (handlers.mkLoginRequest "wg" "guess")) examples.db
       (examples.request "POST" [] []) examples.done_
     = (examples.db,
        gin.JSON http.StatusUnauthorized
          (gin.H [("error", gin.JString "Invalid username or password")])
          (examples.request "POST" [] []))
  /\ gin.Writer
       (handlers.HandleLogin (P := instances.primitives) examples.handler 0 0
          (Some (handlers.mkLoginRequest "mallory" "guess")) examples.db
          (examples.request "POST" [] []) examples.done_).2
     = gin.Writer
         (handlers.HandleLogin (P := instances.primitives) examples.handler
            1 1 (Some (handlers.mkLoginRequest "wg" "guess")) examples.db
            (examples.request "POST" [] []) examples.done_).2.
Proof.
  apply (login_failures_indistinguishable (P := instances.primitives)
           examples.handler examples.db
           (Some (handlers.mkLoginRequest "mallory" "guess"))
           (Some (handlers.mkLoginRequest "wg" "guess"))
           (handlers.mkLoginRequest "mallory" "guess")
           (handlers.mkLoginRequest "wg" "guess")).
  - reflexivity.
  - reflexivity.
  - intros u Hu. unfold examples.db in Hu. cbn in Hu.
    repeat (apply elem_of_cons in Hu as [->|Hu]; [discriminate|]).
    by apply elem_of_nil in Hu.
  - exists examples.wg. split; [repeat constructor|reflexivity].
  - intros u Hu Hname. unfold examples.db in Hu. cbn in Hu.
    repeat (apply elem_of_cons in Hu as [->|Hu]; [discriminate|]).
    by apply elem_of_nil in Hu.
Defined.

(** * Where the claims as stated fail *)

(** C5 as stated fails below the second.  A token issued at T = 1.5 s
    carries issued-at 1 s, not T, and expiry 24 h + 1 s, not T + 24 h; at
    T + 24 h - 0.2 s, an instant strictly before T + 24 h, validation
    rejects it as expired, whatever the primitives. *)
Lemma token_rejected_before_24h :
  jwt.IssuedAt
    (jwt.Registered (handlers.newClaims examples.wg 1500000000 1500000000))
  = Some 1000000000
  /\ jwt.ExpiresAt
       (jwt.Registered (handlers.newClaims examples.wg 1500000000 1500000000))
     = Some 86401000000000
  /\ 1500000000 + 24 * time.Hour = 86401500000000
  /\ 86401300000000 < 1500000000 + 24 * time.Hour
  /\ (forall P : jwt.Primitives,
        jwt.Lawful P ->
        exists token,
          handlers.createToken examples.wg "wg-edu-secret-key"
            1500000000 1500000000 = Ok token
          /\ handlers.validateToken token "wg-edu-secret-key" 86401300000000
             = Err jwt_ErrTokenExpired)
  /\ (exists token,
        handlers.createToken (P := instances.primitives) examples.wg
          "wg-edu-secret-key" 1500000000 1500000000 = Ok token
        /\ handlers.validateToken (P := instances.primitives) token
             "wg-edu-secret-key" 86401300000000
           = Err jwt_ErrTokenExpired).
Proof.
  assert (Hany : forall P : jwt.Primitives,
             jwt.Lawful P ->
             exists token,
               handlers.createToken examples.wg "wg-edu-secret-key"
                 1500000000 1500000000 = Ok token
               /\ handlers.validateToken token "wg-edu-secret-key"
                    86401300000000
                  = Err jwt_ErrTokenExpired).
  { intros P lawful.
    destruct (createToken_Ok (P := P) examples.wg "wg-edu-secret-key"
                1500000000 1500000000) as [token Htoken].
    exists token. split; [done|].
    by rewrite (validateToken_createToken lawful _ _ _ _ _ _ Htoken). }
  repeat split; try reflexivity; [exact Hany|].
  apply (Hany instances.primitives instances_lawful).
Qed.

(** C2 as stated fails for an identity whose password is empty.
    [CreateUser] stores the identity "guest" with the empty password; the
    login request with that username and that password matches the stored
    pair, and is answered 400 "Invalid request body" by the binding of
    [LoginRequest], without a token, whatever the primitives. *)
Lemma login_matching_pair_bad_request :
  let stored := models.CreateUser "guest" "" "student" 7 examples.db in
  let guest := models.mkUser 5 "guest" "" "student" 7 in
  stored.1 = Ok guest
  /\ guest ∈ models.users stored.2
  /\ models.GetUserByUsername "guest" stored.2 = Ok guest
  /\ models.CheckPassword guest "" = true
  /\ (forall P : jwt.Primitives,
        gin.Writer
          (handlers.HandleLogin examples.handler 0 0
             (Some (handlers.mkLoginRequest (models.User_Username guest)
                      (models.User_Password guest)))
             stored.2 (examples.request "POST" [] []) examples.done_).2
        = Some (gin.mkResponse http.StatusBadRequest
                  (Some (gin.H [("error",
                                 gin.JString "Invalid request body")])))).
Proof.
  cbn zeta. split; [reflexivity|]. split; [|split; [reflexivity|]].
  { vm_compute. repeat constructor. }
  split; [reflexivity|]. intros P. reflexivity.
Qed.

(** C4 as stated fails in two ways.  The id 2147483648 has no row in
    [students] and is outside the 32-bit range of the key column:
    [DeleteStudent] returns the out-of-range error, not [sql.ErrNoRows].
    The id 99 has no row either: [DeleteStudent] returns [sql.ErrNoRows],
    and the client of [DELETE /api/admin/students/99] receives 500 "Failed
    to delete student", not 404. *)
Lemma delete_missing_student_not_NotFound :
  (forall r, r ∈ models.students examples.db ->
             models.Row_ID r <> 2147483648 /\ models.Row_ID r <> 99)
  /\ strconv.Atoi "2147483648" = Some 2147483648
  /\ models.DeleteStudent 2147483648 examples.db
     = (Err pq_NumericValueOutOfRange, examples.db)
  /\ models.DeleteStudent 99 examples.db = (Err sql_ErrNoRows, examples.db)
  /\ gin.Writer
       (examples.serve examples.delete_student_route examples.db
          (examples.request_as examples.test_admin "DELETE" [("id", "99")])).2
     = Some (gin.mkResponse http.StatusInternalServerError
               (Some (gin.H [("error",
                              gin.JString "Failed to delete student")])))
  /\ gin.status
       (examples.serve examples.delete_student_route examples.db
          (examples.request_as examples.test_admin "DELETE"
             [("id", "2147483648")])).2
     = http.StatusInternalServerError.
Proof.
  split.
  { intros r Hr. apply list_elem_of_singleton in Hr as ->.
    split; discriminate. }
  repeat split; vm_compute; reflexivity.
Qed.

(** C7 as stated fails for an id outside the 32-bit range of the key
    columns.  The teacher 4 exists and no subject has the id 2147483648,
    which a request body may carry: [AssignSubjectToTeacher] fails with the
    out-of-range error, not with [sql.ErrNoRows]; it inserts nothing. *)
Lemma assign_out_of_range_not_NotFound :
  (exists u, u ∈ models.users examples.db /\ models.User_ID u = 4
             /\ models.User_Role u = "teacher")
  /\ (forall s, s ∈ models.subjects examples.db ->
                models.Subject_ID s <> 2147483648)
  /\ models.AssignSubjectToTeacher 4 2147483648 30 examples.db
     = (Err pq_NumericValueOutOfRange, examples.db)
  /\ models.AssignSubjectToTeacher 2147483648 9 30 examples.db
     = (Err pq_NumericValueOutOfRange, examples.db).
Proof.
  split.
  { exists examples.wg. split; [repeat constructor|]. split; reflexivity. }
  split.
  { intros s Hs. unfold examples.db in Hs. cbn in Hs.
    repeat (apply elem_of_cons in Hs as [->|Hs]; [discriminate|]).
    by apply elem_of_nil in Hs. }
  split; reflexivity.
Qed.

(** C10 as stated fails for a request that does not pass the binding.  The
    database stores "wg" with the password "wg_123" and nobody called
    "mallory": the login of "mallory" is answered 401, the login of "wg"
    with an empty password is answered 400 "Invalid request body". *)
Lemma login_empty_password_bad_request :
  (forall u, u ∈ models.users examples.db ->
             models.User_Username u <> "mallory")
  /\ (examples.wg ∈ models.users examples.db
      /\ models.User_Username examples.wg = "wg"
      /\ models.User_Password examples.wg <> "")
  /\ (forall P : jwt.Primitives,
        gin.Writer
          (handlers.HandleLogin examples.handler 0 0
             (Some (handlers.mkLoginRequest "mallory" "guess")) examples.db
             (examples.request "POST" [] []) examples.done_).2
        = Some (gin.mkResponse http.StatusUnauthorized
                  (Some (gin.H [("error",
                                 gin.JString "Invalid username or password")])))
        /\ gin.Writer
             (handlers.HandleLogin examples.handler 0 0
                (Some (handlers.mkLoginRequest "wg" "")) examples.db
                (examples.request "POST" [] []) examples.done_).2
           = Some (gin.mkResponse http.StatusBadRequest
                     (Some (gin.H [("error",
                                    gin.JString "Invalid request body")])))).
Proof.
  split.
  { intros u Hu. unfold examples.db in Hu. cbn in Hu.
    repeat (apply elem_of_cons in Hu as [->|Hu]; [discriminate|]).
    by apply elem_of_nil in Hu. }
  split.
  { split; [repeat constructor|]. split; [reflexivity|discriminate]. }
  intros P. split; reflexivity.
Qed.

(** * Further properties of the code *)

(** ** Student records *)

Lemma elem_of_students_join_users (s : models.Student) (db : models.DB) :
  s ∈ models.students_join_users db
  <-> exists r u, r ∈ models.students db /\ u ∈ models.users db
                  /\ models.Row_UserID r = models.User_ID u
                  /\ s = models.student_of r (models.User_Username u).
Proof.
  unfold models.students_join_users. rewrite list_elem_of_bind. split.
  - intros (r & Hs & Hr). apply list_elem_of_bind in Hs as (u & Hs & Hu).
    case_bool_decide as Hid; [|by apply elem_of_nil in Hs].
    apply list_elem_of_singleton in Hs. eauto 10.
  - intros (r & u & Hr & Hu & Hid & ->). exists r. split; [|done].
    apply list_elem_of_bind. exists u. split; [|done].
    rewrite bool_decide_eq_true_2 by done. by apply list_elem_of_singleton.
Qed.

(** The join row of a student with the first user of its [user_id]. *)
Lemma join_users_head (r : models.StudentRow) (us : list models.User)
  (u : models.User) :
  find (fun u => models.User_ID u =? models.Row_UserID r) us = Some u ->
  exists rest,
    (u ← us;
     if bool_decide (models.Row_UserID r = models.User_ID u)
     then [models.student_of r (models.User_Username u)] else [])
    = models.student_of r (models.User_Username u) :: rest.
Proof.
  induction us as [|a us IH]; [done|]. cbn.
  destruct (models.User_ID a =? models.Row_UserID r) eqn:Hid.
  - intros [= ->]. apply Z.eqb_eq in Hid.
    rewrite bool_decide_eq_true_2 by done. by eexists.
  - intros Hfind. apply Z.eqb_neq in Hid.
    rewrite bool_decide_eq_false_2 by done. by apply IH.
Qed.

(** A student is looked up through the first row of its id and the first
    user of that row's [user_id]. *)
Lemma GetStudentByID_find (id : Z) (db : models.DB) (r : models.StudentRow)
  (u : models.User) :
  find (fun r => models.Row_ID r =? id) (models.students db) = Some r ->
  find (fun u => models.User_ID u =? models.Row_UserID r) (models.users db)
  = Some u ->
  models.GetStudentByID id db
  = Ok (models.student_of r (models.User_Username u)).
Proof.
  unfold models.GetStudentByID, models.students_join_users.
  induction (models.students db) as [|a l IH]; [done|]. cbn [find].
  destruct (models.Row_ID a =? id) eqn:Hid.
  - intros [= ->] Hu. apply Z.eqb_eq in Hid.
    destruct (join_users_head r _ u Hu) as [rest Hrest].
    cbn. rewrite Hrest, <- app_comm_cons. by rewrite filter_cons_True.
  - intros Hr Hu. apply Z.eqb_neq in Hid. cbn. rewrite filter_app.
    rewrite (filter_none _ (_ ≫= _)); [by apply IH|].
    intros s (u' & Hs & Hu')%list_elem_of_bind.
    case_bool_decide; [|by apply elem_of_nil in Hs].
    apply list_elem_of_singleton in Hs as ->. done.
Qed.

Lemma GetStudentByID_no_row (id : Z) (db : models.DB) :
  (forall r, r ∈ models.students db -> models.Row_ID r <> id) ->
  models.GetStudentByID id db = Err (models.no_row id).
Proof.
  intros Hmissing. unfold models.GetStudentByID.
  rewrite filter_none; [done|].
  intros s (r & u & Hr & _ & _ & ->)%elem_of_students_join_users.
  by apply Hmissing.
Qed.

Lemma find_snoc_fresh {A} (f : A -> bool) (l : list A) (x : A) :
  existsb f l = false -> f x = true -> find f (l ++ [x]) = Some x.
Proof.
  intros Hnone Hx. induction l as [|a l IH]; cbn in *; [by rewrite Hx|].
  apply orb_false_iff in Hnone as [-> Hnone]. by apply IH.
Qed.

Lemma CreateStudent_Err_tables (req : models.StudentRequest)
  (now_user now : time.Time) (db : models.DB) (e : error) :
  (models.CreateStudent req now_user now db).1 = Err e ->
  models.tables (models.CreateStudent req now_user now db).2 = models.tables db.
Proof.
  unfold models.CreateStudent, models.tx_exec.
  cbn [models.Begin models.tx_now models.tx_begin].
  destruct (models.insert_user _ _ _ _ _) as [[userID|e1] d1]; [|done].
  destruct (models.insert_student _ _ _ _ _ _ _ _) as [[row|e2] d2]; done.
Qed.

Lemma UpdateStudent_Err_tables (id : Z) (req : models.StudentRequest)
  (now : time.Time) (db : models.DB) (e : error) :
  (models.UpdateStudent id req now db).1 = Err e ->
  models.tables (models.UpdateStudent id req now db).2 = models.tables db.
Proof.
  unfold models.UpdateStudent, models.tx_exec, models.tx_query.
  cbn [models.Begin models.tx_now models.tx_begin].
  destruct (models.select_student_user_id id db) as [userID|e0]; [|done].
  case_bool_decide; cbn.
  - destruct (models.update_student _ _ _ _ _ _ _) as [[row|e2] d2]; [|done].
    cbn. by destruct (models.select_username _ _).
  - destruct (models.update_student _ _ _ _ _ _ _) as [[row|e2] d2]; [|done].
    cbn. by destruct (models.select_username _ _).
Qed.

Lemma DeleteStudent_Err_tables (id : Z) (db : models.DB) (e : error) :
  (models.DeleteStudent id db).1 = Err e ->
  models.tables (models.DeleteStudent id db).2 = models.tables db.
Proof.
  unfold models.DeleteStudent, models.tx_exec, models.tx_query.
  cbn [models.Begin models.tx_now models.tx_begin].
  by destruct (models.select_student_user_id id db) as [userID|e0].
Qed.

(** X1.  The three transactional operations are atomic: whenever
    [CreateStudent], [UpdateStudent] or [DeleteStudent] returns an error,
    whichever statement failed, the rows of all four tables are what they
    were before the call (a password that [UpdateStudent] had already
    rewritten included). *)
Theorem transactions_atomic (id : Z) (req : models.StudentRequest)
  (now_user now : time.Time) (db : models.DB) :
  (forall e, (models.CreateStudent req now_user now db).1 = Err e ->
             models.tables (models.CreateStudent req now_user now db).2
             = models.tables db)
  /\ (forall e, (models.UpdateStudent id req now db).1 = Err e ->
                models.tables (models.UpdateStudent id req now db).2
                = models.tables db)
  /\ (forall e, (models.DeleteStudent id db).1 = Err e ->
                models.tables (models.DeleteStudent id db).2
                = models.tables db).
Proof.
  split; [|split]; intros e.
  - apply CreateStudent_Err_tables.
  - apply UpdateStudent_Err_tables.
  - apply DeleteStudent_Err_tables.
Qed.

(** What a successful [CreateStudent] has checked and written. *)
Lemma CreateStudent_Ok (req : models.StudentRequest)
  (now_user now : time.Time) (db db' : models.DB) (student : models.Student) :
  models.CreateStudent req now_user now db = (Ok student, db') ->
  let user := models.mkUser (models.users_id_seq db) (models.Req_Username req)
                (models.Req_Password req) "student" now_user in
  let row := models.mkStudentRow (models.students_id_seq db)
               (models.users_id_seq db) (models.Req_FirstName req)
               (models.Req_LastName req) (models.Req_Email req)
               (models.Req_Grade req) now now in
  existsb (fun u => models.User_ID u =? models.users_id_seq db)
          (models.users db) = false
  /\ existsb (fun u => bool_decide (models.User_Username u
                                    = models.Req_Username req))
             (models.users db) = false
  /\ existsb (fun r => models.Row_ID r =? models.students_id_seq db)
             (models.students db) = false
  /\ existsb (fun r => bool_decide (models.Row_Email r = models.Req_Email req))
             (models.students db) = false
  /\ student = models.student_of row (models.Req_Username req)
  /\ db' = models.mkDB (models.users db ++ [user])
                       (models.students db ++ [row])
                       (models.subjects db) (models.teacher_subjects db)
                       (models.users_id_seq db + 1)
                       (models.students_id_seq db + 1)
                       (models.teacher_subjects_id_seq db).
Proof.
  unfold models.CreateStudent, models.tx_exec, models.Begin; cbn.
  unfold models.insert_user; cbn.
  destruct (existsb _ (models.users db)) eqn:Hpk; cbn; [done|].
  destruct (existsb (fun u => bool_decide (models.User_Username u = _))
                    (models.users db)) eqn:Hname; cbn; [done|].
  unfold models.insert_student; cbn.
  destruct (existsb _ (models.students db)) eqn:Hspk; cbn; [done|].
  destruct (existsb (fun r => bool_decide (models.Row_Email r = _))
                    (models.students db)) eqn:Hemail; cbn; [done|].
  destruct (existsb _ (models.users db ++ _)); cbn; [|done].
  intros [= <- <-]. done.
Qed.


(** The account of a student that [CreateStudent] returned. *)
Lemma CreateStudent_GetUserByUsername (req : models.StudentRequest)
  (now_user now : time.Time) (db db' : models.DB) (student : models.Student) :
  models.CreateStudent req now_user now db = (Ok student, db') ->
  models.GetUserByUsername (models.Req_Username req) db'
  = Ok (models.mkUser (models.Student_UserID student)
          (models.Req_Username req) (models.Req_Password req) "student"
          now_user).
Proof.
  intros (Hpk & Hname & Hspk & Hemail & -> & ->)%CreateStudent_Ok.
  unfold models.GetUserByUsername. cbn.
  rewrite find_snoc_fresh; [done|done|]. cbn. by apply bool_decide_eq_true.
Qed.

(** X3.  A student that [CreateStudent] returned is found again: by
    [GetStudentByID] under the id it was given, and its account by
    [GetUserByUsername] under the username of the request, with the
    password of the request and the role "student". *)
Theorem CreateStudent_then_lookup (req : models.StudentRequest)
  (now_user now : time.Time) (db db' : models.DB) (student : models.Student) :
  models.CreateStudent req now_user now db = (Ok student, db') ->
  models.GetStudentByID (models.Student_ID student) db' = Ok student
  /\ models.GetUserByUsername (models.Req_Username req) db'
     = Ok (models.mkUser (models.Student_UserID student)
             (models.Req_Username req) (models.Req_Password req) "student"
             now_user).
Proof.
  intros Hcreate. split; [|by eapply CreateStudent_GetUserByUsername].
  apply CreateStudent_Ok in Hcreate as (Hpk & Hname & Hspk & Hemail & -> & ->).
  cbn [models.student_of models.Student_ID models.Row_ID].
  apply (GetStudentByID_find _ _
           (models.mkStudentRow (models.students_id_seq db)
              (models.users_id_seq db) (models.Req_FirstName req)
              (models.Req_LastName req) (models.Req_Email req)
              (models.Req_Grade req) now now)
           (models.mkUser (models.users_id_seq db) (models.Req_Username req)
              (models.Req_Password req) "student" now_user)); cbn.
  - apply find_snoc_fresh; [done|]. cbn. apply Z.eqb_refl.
  - apply find_snoc_fresh; [done|]. cbn. apply Z.eqb_refl.
Qed.

Lemma find_map_invariant {A} (f : A -> bool) (g : A -> A) (l : list A) :
  (forall x, f (g x) = f x) -> find f (map g l) = g <$> find f l.
Proof.
  intros Hfg. induction l as [|a l IH]; [done|]. cbn.
  rewrite Hfg. by destruct (f a).
Qed.

(** What a successful [UpdateStudent] has read and written. *)
Lemma UpdateStudent_Ok (id : Z) (req : models.StudentRequest)
  (now : time.Time) (db db' : models.DB) (student : models.Student) :
  models.UpdateStudent id req now db = (Ok student, db') ->
  exists row u,
    find (fun r => models.Row_ID r =? id) (models.students db) = Some row
    /\ find (fun u => models.User_ID u =? models.Row_UserID row)
            (models.users db) = Some u
    /\ student
       = models.student_of
           (models.with_profile (models.Req_FirstName req)
              (models.Req_LastName req) (models.Req_Email req)
              (models.Req_Grade req) now row)
           (models.User_Username u)
    /\ models.students db'
       = map (fun r => if models.Row_ID r =? id
                       then models.with_profile (models.Req_FirstName req)
                              (models.Req_LastName req) (models.Req_Email req)
                              (models.Req_Grade req) now r
                       else r) (models.students db)
    /\ models.users db'
       = if bool_decide (models.Req_Password req <> "")
         then map (fun u => if models.User_ID u =? models.Row_UserID row
                            then models.with_password (models.Req_Password req) u
                            else u) (models.users db)
         else models.users db.
Proof.
  unfold models.UpdateStudent, models.tx_query, models.select_student_user_id.
  cbn [models.Begin models.tx_now].
  destruct (find _ (models.students db)) as [row|] eqn:Hrow; [|done].
  intros Hupd. exists row.
  unfold models.tx_exec, models.update_student, models.select_username in Hupd.
  case_bool_decide as Hpw; cbn in Hupd; rewrite Hrow in Hupd;
    destruct (existsb _ (models.students db)); cbn in Hupd; try done.
  - rewrite find_map_invariant in Hupd by (intros x; cbn; destruct (models.User_ID x =? _) eqn:E; cbn; by rewrite ?E).
    destruct (find _ (models.users db)) as [u|] eqn:Hu; cbn in Hupd; [|done].
    exists u. injection Hupd as <- <-. repeat split; try done.
    cbn. by destruct (_ =? _).
  - destruct (find _ (models.users db)) as [u|] eqn:Hu; cbn in Hupd; [|done].
    exists u. by injection Hupd as <- <-.
Qed.

(** X4.  A student that [UpdateStudent] returned is what [GetStudentByID]
    then returns for that id, timestamps and the username of its owner
    included; it has the id asked for and the profile of the request. *)
Theorem UpdateStudent_then_GetStudentByID (id : Z)
  (req : models.StudentRequest) (now : time.Time) (db db' : models.DB)
  (student : models.Student) :
  models.UpdateStudent id req now db = (Ok student, db') ->
  models.GetStudentByID id db' = Ok student
  /\ models.Student_ID student = id
  /\ models.Student_FirstName student = models.Req_FirstName req
  /\ models.Student_LastName student = models.Req_LastName req
  /\ models.Student_Email student = models.Req_Email req
  /\ models.Student_Grade student = models.Req_Grade req.
Proof.
  intros (row & u & Hrow & Hu & -> & Hstudents & Husers)%UpdateStudent_Ok.
  pose proof (find_some_elem_of _ _ _ Hrow) as [_ Hid].
  split; [|by apply Z.eqb_eq in Hid].
  set (u' := if bool_decide (models.Req_Password req <> "")
             then models.with_password (models.Req_Password req) u else u).
  replace (models.User_Username u) with (models.User_Username u')
    by (subst u'; by case_bool_decide).
  apply GetStudentByID_find.
  - rewrite Hstudents, find_map_invariant by (intros r; cbn; destruct (models.Row_ID r =? _) eqn:E; cbn; by rewrite ?E).
    by rewrite Hrow; cbn; rewrite Hid.
  - rewrite Husers. cbn. subst u'. case_bool_decide; [|done].
    rewrite find_map_invariant by (intros x; cbn; destruct (models.User_ID x =? _) eqn:E; cbn; by rewrite ?E).
    rewrite Hu. cbn. pose proof (find_some_elem_of _ _ _ Hu) as [_ Huid].
    by rewrite Huid.
Qed.


(** X6.  After a successful [UpdateStudent] with a non-empty password, and
    with usernames unique, the account found under the student's username
    is the owner's and carries the new password: [CheckPassword] accepts
    the new password and no other. *)
Theorem UpdateStudent_new_password (id : Z) (req : models.StudentRequest)
  (now : time.Time) (db db' : models.DB) (student : models.Student) :
  models.users_constraints db ->
  models.UpdateStudent id req now db = (Ok student, db') ->
  models.Req_Password req <> "" ->
  exists u,
    models.GetUserByUsername (models.Student_Username student) db' = Ok u
    /\ models.User_ID u = models.Student_UserID student
    /\ models.User_Password u = models.Req_Password req
    /\ forall password,
         models.CheckPassword u password
         = bool_decide (password = models.Req_Password req).
Proof.
  intros Hunique (row & u & Hrow & Hu & -> & _ & Husers)%UpdateStudent_Ok Hpw.
  rewrite bool_decide_eq_true_2 in Husers by done.
  pose proof (find_some_elem_of _ _ _ Hu) as [Hin Huid].
  exists (models.with_password (models.Req_Password req) u).
  split; [|split; [|split]].
  - unfold models.GetUserByUsername. rewrite Husers. cbn.
    rewrite find_map_invariant by (intros x; cbn; destruct (models.User_ID x =? _) eqn:E; cbn; by rewrite ?E).
    rewrite (find_unique_key models.User_Username _ u Hunique Hin). cbn.
    by rewrite Huid.
  - cbn. by apply Z.eqb_eq in Huid.
  - done.
  - intros password. unfold models.CheckPassword. cbn.
    apply bool_decide_ext. split; intros; by subst.
Qed.

(** X7.  Deleting a stored student succeeds and removes its row, the
    [users] row of its owner and, by the cascades of the schema, every
    other [students] row and every [teacher_subjects] row of that owner;
    all other rows stay.  The student is then not found, and deleting it
    again fails as for an id that was never stored: with [sql.ErrNoRows],
    the id being within the 32-bit range of the key column. *)
Theorem DeleteStudent_removes (id : Z) (db : models.DB)
  (row : models.StudentRow) :
  find (fun r => models.Row_ID r =? id) (models.students db) = Some row ->
  let db' := (models.DeleteStudent id db).2 in
  (models.DeleteStudent id db).1 = Ok tt
  /\ (forall u, u ∈ models.users db'
                <-> u ∈ models.users db
                    /\ models.User_ID u <> models.Row_UserID row)
  /\ (forall r, r ∈ models.students db'
                <-> r ∈ models.students db /\ models.Row_ID r <> id
                    /\ models.Row_UserID r <> models.Row_UserID row)
  /\ (forall ts, ts ∈ models.teacher_subjects db'
                 <-> ts ∈ models.teacher_subjects db
                     /\ models.TS_TeacherID ts <> models.Row_UserID row)
  /\ models.subjects db' = models.subjects db
  /\ models.GetStudentByID id db' = Err (models.no_row id)
  /\ models.DeleteStudent id db' = (Err (models.no_row id), db')
  /\ (-2147483648 <= id <= 2147483647 ->
      models.GetStudentByID id db' = Err sql_ErrNoRows
      /\ models.DeleteStudent id db' = (Err sql_ErrNoRows, db')).
Proof.
  intros Hrow.
  assert (Hdel : models.DeleteStudent id db
                 = (Ok tt,
                    models.set_teacher_subjects
                      (filter (fun ts => models.TS_TeacherID ts
                                         <> models.Row_UserID row))
                      (models.set_students
                         (filter (fun r => models.Row_UserID r
                                           <> models.Row_UserID row))
                         (models.set_users
                            (filter (fun u => models.User_ID u
                                              <> models.Row_UserID row))
                            (models.set_students
                               (filter (fun r => models.Row_ID r <> id))
                               db))))).
  { unfold models.DeleteStudent, models.tx_query,
      models.select_student_user_id.
    cbn [models.Begin models.tx_now]. by rewrite Hrow. }
  rewrite Hdel. cbn [fst snd]. clear Hdel.
  assert (Hgone : forall r,
            r ∈ filter (fun r => models.Row_UserID r <> models.Row_UserID row)
                  (filter (fun r => models.Row_ID r <> id)
                     (models.students db)) ->
            models.Row_ID r <> id).
  { intros r Hr. rewrite !list_elem_of_filter in Hr. tauto. }
  split; [done|]. split; [|split; [|split; [|split; [|split; [|split]]]]].
  - intros u. cbn. rewrite list_elem_of_filter. tauto.
  - intros r. cbn. rewrite !list_elem_of_filter. tauto.
  - intros ts. cbn. rewrite list_elem_of_filter. tauto.
  - done.
  - by apply GetStudentByID_no_row.
  - by apply DeleteStudent_no_row.
  - intros Hrange. rewrite GetStudentByID_no_row, DeleteStudent_no_row by done.
    by rewrite no_row_integer.
Qed.

(** ** Queries *)

(** In a join on a key, a row meets the one row of its key. *)
Lemma bind_key_singleton {A B K} `{EqDecision K} (key : A -> K) (f : A -> B)
  (l : list A) (x : A) :
  NoDup (key <$> l) -> x ∈ l ->
  (y ← l; if bool_decide (key x = key y) then [f y] else []) = [f x].
Proof.
  induction l as [|a l IH]; intros Hnd Hx; [by apply elem_of_nil in Hx|].
  rewrite fmap_cons in Hnd. apply NoDup_cons in Hnd as [Ha Hnd]. cbn.
  apply elem_of_cons in Hx as [->|Hx].
  - rewrite bool_decide_eq_true_2 by done. cbn. f_equal.
    clear IH Hnd. induction l as [|b l IH]; [done|]. cbn.
    rewrite bool_decide_eq_false_2.
    + apply IH. intros Hin. apply Ha. rewrite fmap_cons. by constructor.
    + intros Heq. apply Ha. rewrite Heq, fmap_cons. constructor.
  - rewrite bool_decide_eq_false_2; [by apply IH|].
    intros Heq. apply Ha. rewrite <- Heq. by apply list_elem_of_fmap_2.
Qed.

(** Under the constraints every student row is joined once. *)
Lemma students_join_users_ids (db : models.DB) :
  models.students_constraints db ->
  models.Student_ID <$> models.students_join_users db
  = models.Row_ID <$> models.students db.
Proof.
  intros (Hpk & _ & Hfk). unfold models.students_join_users.
  induction Hfk as [|r l (u & Hu & Hid) Hfk IH]; [done|]. cbn.
  rewrite fmap_app, IH. f_equal. clear IH.
  rewrite <- Hid.
  by rewrite (bind_key_singleton models.User_ID
                (fun u => models.student_of r (models.User_Username u))
                _ u Hpk Hu).
Qed.

Section queries.
Context {C : models.Collation}.
Context (collate_total : Total models.collate_le).
Context (collate_trans : Transitive models.collate_le).

#[local] Existing Instances models.order_by_dec models.order_by2_dec.

#[local] Instance order_by_total {A} (k : A -> string)
  : Total (models.order_by k).
Proof. intros a b. apply collate_total. Qed.

#[local] Instance order_by_trans {A} (k : A -> string)
  : Transitive (models.order_by k).
Proof. intros a b c. unfold models.order_by. apply collate_trans. Qed.

#[local] Instance order_by2_total {A} (k1 k2 : A -> string)
  : Total (models.order_by2 k1 k2).
Proof.
  intros a b. unfold models.order_by2.
  destruct (models.collate_le_dec (k1 a) (k1 b)) as [Hab|Hab];
    destruct (models.collate_le_dec (k1 b) (k1 a)) as [Hba|Hba].
  - destruct (collate_total (k2 a) (k2 b)); [left|right]; done.
  - left. done.
  - right. done.
  - by destruct (collate_total (k1 a) (k1 b)).
Qed.

#[local] Instance order_by2_trans {A} (k1 k2 : A -> string)
  : Transitive (models.order_by2 k1 k2).
Proof.
  intros a b c [Hab Hab2] [Hbc Hbc2]. split; [by etrans|].
  intros Hca. etrans; [apply Hab2|apply Hbc2]; by etrans.
Qed.

(** X8.  [GetAllStudents] returns the rows of the join of [students] with
    [users], in ascending order of last name and, among equal last names,
    of first name.  When [users.id] is a key and every student refers to a
    user, each stored student is listed exactly once. *)
Theorem GetAllStudents_lists_every_student (db : models.DB) :
  exists rows,
    models.GetAllStudents db = Ok rows
    /\ (forall s, s ∈ rows
                  <-> exists r u,
                        r ∈ models.students db /\ u ∈ models.users db
                        /\ models.Row_UserID r = models.User_ID u
                        /\ s = models.student_of r (models.User_Username u))
    /\ StronglySorted
         (fun a b =>
            models.collate_le (models.Student_LastName a)
                              (models.Student_LastName b)
            /\ (models.collate_le (models.Student_LastName b)
                                  (models.Student_LastName a) ->
                models.collate_le (models.Student_FirstName a)
                                  (models.Student_FirstName b))) rows
    /\ (models.students_constraints db ->
        models.Student_ID <$> rows ≡ₚ models.Row_ID <$> models.students db).
Proof.
  eexists. split; [reflexivity|]. split; [|split].
  - intros s. by rewrite merge_sort_Permutation, elem_of_students_join_users.
  - apply (StronglySorted_merge_sort
             (models.order_by2 models.Student_LastName
                               models.Student_FirstName)).
  - intros Hok. by rewrite merge_sort_Permutation, students_join_users_ids.
Qed.




Lemma elem_of_GetTeacherSubjects (teacherID : Z) (db : models.DB)
  (rows : list models.Subject) (x : models.Subject) :
  models.GetTeacherSubjects teacherID db = Ok rows ->
  x ∈ rows
  <-> x ∈ models.subjects db
      /\ exists ts, ts ∈ models.teacher_subjects db
                    /\ models.TS_TeacherID ts = teacherID
                    /\ models.TS_SubjectID ts = models.Subject_ID x.
Proof.
  intros [= <-]. rewrite merge_sort_Permutation, list_elem_of_bind. split.
  - intros (s & Hx & Hs). apply list_elem_of_bind in Hx as (ts & Hx & Hts).
    case_bool_decide as Hpair; [|by apply elem_of_nil in Hx].
    apply list_elem_of_singleton in Hx as ->. destruct Hpair. eauto 10.
  - intros (Hx & ts & Hts & Ht & Hs). exists x. split; [|done].
    apply list_elem_of_bind. exists ts. split; [|done].
    rewrite bool_decide_eq_true_2 by done. by apply list_elem_of_singleton.
Qed.

(** What a successful [AssignSubjectToTeacher] has checked and written. *)
Lemma AssignSubjectToTeacher_Ok (teacherID subjectID : Z) (now : time.Time)
  (db db' : models.DB) :
  models.AssignSubjectToTeacher teacherID subjectID now db = (Ok tt, db') ->
  models.users db' = models.users db
  /\ models.students db' = models.students db
  /\ models.subjects db' = models.subjects db
  /\ (exists u, u ∈ models.users db /\ models.User_ID u = teacherID
                /\ models.User_Role u = "teacher")
  /\ (exists s, s ∈ models.subjects db /\ models.Subject_ID s = subjectID)
  /\ (models.teacher_subjects db' = models.teacher_subjects db
      /\ (exists ts, ts ∈ models.teacher_subjects db
                     /\ models.TS_TeacherID ts = teacherID
                     /\ models.TS_SubjectID ts = subjectID)
      \/ models.teacher_subjects db'
         = models.teacher_subjects db
           ++ [models.mkTeacherSubject (models.teacher_subjects_id_seq db)
                 teacherID subjectID now]).
Proof.
  unfold models.AssignSubjectToTeacher.
  destruct (existsb _ (models.users db)) eqn:Ht; cbn; [|done].
  destruct (existsb _ (models.subjects db)) eqn:Hs; cbn; [|done].
  apply teacherExists_iff in Ht. apply subjectExists_iff in Hs.
  unfold models.insert_teacher_subject. cbn.
  destruct (existsb _ (models.teacher_subjects db)) eqn:Hpair; cbn.
  { intros [= <-]. cbn. split_and!; try done. left. split; [done|].
    apply existsb_elem_of in Hpair as (ts & Hts & H).
    apply andb_true_iff in H as [H1%Z.eqb_eq H2%Z.eqb_eq]. eauto. }
  destruct (existsb (fun ts => models.TS_ID ts =? _) _); cbn; [done|].
  destruct (existsb (fun u => models.User_ID u =? teacherID) _); cbn; [|done].
  intros [= <-]. cbn. split_and!; try done. by right.
Qed.

Lemma filter_all {A} (P : A -> Prop) `{!forall x, Decision (P x)}
  (l : list A) :
  (forall x, x ∈ l -> P x) -> filter P l = l.
Proof.
  induction l as [|a l IH]; intros Hall; [done|].
  rewrite filter_cons_True by (apply Hall; constructor). f_equal.
  apply IH. intros x Hx. apply Hall. by constructor.
Qed.

(** Whether it succeeds or fails, [RemoveSubjectFromTeacher] leaves the
    rows that do not assign the subject to the teacher, and these only. *)
Lemma RemoveSubjectFromTeacher_tables (teacherID subjectID : Z)
  (db : models.DB) :
  let db' := (models.RemoveSubjectFromTeacher teacherID subjectID db).2 in
  models.users db' = models.users db
  /\ models.students db' = models.students db
  /\ models.subjects db' = models.subjects db
  /\ models.teacher_subjects db'
     = filter (fun ts => ~ (models.TS_TeacherID ts = teacherID
                            /\ models.TS_SubjectID ts = subjectID))
              (models.teacher_subjects db).
Proof.
  unfold models.RemoveSubjectFromTeacher.
  destruct (existsb _ (models.teacher_subjects db)) eqn:Hpair; cbn; [done|].
  destruct (models.is_integer teacherID && models.is_integer subjectID);
    cbn; [done|].
  repeat split. symmetry. apply filter_all. intros ts Hts [Ht Hs].
  rewrite existsb_false_elem_of in Hpair. specialize (Hpair ts Hts).
  rewrite Ht, Hs, !Z.eqb_refl in Hpair. done.
Qed.

(** With keys in the range of [INTEGER] the removal succeeds; with a key
    outside it and no row of the pair, it fails. *)
Lemma RemoveSubjectFromTeacher_integer (teacherID subjectID : Z)
  (db : models.DB) :
  -2147483648 <= teacherID <= 2147483647 ->
  -2147483648 <= subjectID <= 2147483647 ->
  (models.RemoveSubjectFromTeacher teacherID subjectID db).1 = Ok tt.
Proof.
  intros Ht Hs. unfold models.RemoveSubjectFromTeacher, models.is_integer.
  destruct (Z.leb_spec (-2147483648) teacherID),
    (Z.leb_spec teacherID 2147483647),
    (Z.leb_spec (-2147483648) subjectID),
    (Z.leb_spec subjectID 2147483647); try lia.
  cbn. by rewrite orb_true_r.
Qed.

Lemma RemoveSubjectFromTeacher_out_of_range (teacherID subjectID : Z)
  (db : models.DB) :
  models.assignments teacherID subjectID db = [] ->
  teacherID < -2147483648 \/ 2147483647 < teacherID
  \/ subjectID < -2147483648 \/ 2147483647 < subjectID ->
  models.RemoveSubjectFromTeacher teacherID subjectID db
  = (Err pq_NumericValueOutOfRange, db).
Proof.
  intros Hnone Hrange.
  unfold models.RemoveSubjectFromTeacher, models.is_integer.
  rewrite (proj2 (existsb_false_elem_of _ (models.teacher_subjects db)));
    cycle 1.
  { intros ts Hts. apply andb_false_iff.
    destruct (Z.eqb_spec (models.TS_TeacherID ts) teacherID) as [Ht|];
      [|by left].
    destruct (Z.eqb_spec (models.TS_SubjectID ts) subjectID) as [Hs|];
      [|by right].
    assert (ts ∈ models.assignments teacherID subjectID db) as Hin
      by by apply list_elem_of_filter.
    rewrite Hnone in Hin. by apply elem_of_nil in Hin. }
  destruct (Z.leb_spec (-2147483648) teacherID),
    (Z.leb_spec teacherID 2147483647),
    (Z.leb_spec (-2147483648) subjectID),
    (Z.leb_spec subjectID 2147483647); cbn; try done; lia.
Qed.

(** X10.  After a successful [AssignSubjectToTeacher] the subject is among
    the subjects of the teacher, beside those listed before; after
    [RemoveSubjectFromTeacher] it is no longer among them, and the others
    still are. *)
Theorem assigned_subject_is_listed (teacherID subjectID : Z)
  (now : time.Time) (db db1 : models.DB) :
  models.AssignSubjectToTeacher teacherID subjectID now db = (Ok tt, db1) ->
  exists before rows1 rows2,
    models.GetTeacherSubjects teacherID db = Ok before
    /\ models.GetTeacherSubjects teacherID db1 = Ok rows1
    /\ models.GetTeacherSubjects teacherID
         (models.RemoveSubjectFromTeacher teacherID subjectID db1).2
       = Ok rows2
    /\ (exists x, x ∈ rows1 /\ models.Subject_ID x = subjectID)
    /\ (forall x, x ∈ rows1
                  <-> x ∈ before
                      \/ (x ∈ models.subjects db
                          /\ models.Subject_ID x = subjectID))
    /\ (forall x, x ∈ rows2
                  <-> x ∈ before /\ models.Subject_ID x <> subjectID).
Proof.
  intros (_ & _ & Hsubjects & _ & (s & Hs & Hsid) & Hrows)%AssignSubjectToTeacher_Ok.
  eexists _, _, _.
  split; [reflexivity|]. split; [reflexivity|]. split; [reflexivity|].
  assert (Hin : forall ts,
            ts ∈ models.teacher_subjects db1
            <-> ts ∈ models.teacher_subjects db
                \/ (ts ∈ models.teacher_subjects db1
                    /\ models.TS_TeacherID ts = teacherID
                    /\ models.TS_SubjectID ts = subjectID)).
  { intros ts. destruct Hrows as [[-> _]| ->]; [tauto|].
    rewrite !elem_of_app, !list_elem_of_singleton. split; [|tauto].
    intros [Hts| ->]; [by left|]. right. split; [by right|done]. }
  assert (Hpair : exists ts, ts ∈ models.teacher_subjects db1
                             /\ models.TS_TeacherID ts = teacherID
                             /\ models.TS_SubjectID ts = subjectID).
  { destruct Hrows as [[-> Hts]| ->]; [done|]. eexists. split.
    - apply elem_of_app. right. by apply list_elem_of_singleton.
    - done. }
  assert (Hlisted : forall x,
            x ∈ merge_sort
                  (models.order_by2 models.Subject_Grade models.Subject_Name)
                  (s ← models.subjects db1;
                   ts ← models.teacher_subjects db1;
                   if bool_decide (models.Subject_ID s = models.TS_SubjectID ts
                                   /\ models.TS_TeacherID ts = teacherID)
                   then [s] else [])
            <-> x ∈ merge_sort
                      (models.order_by2 models.Subject_Grade
                                        models.Subject_Name)
                      (s ← models.subjects db;
                       ts ← models.teacher_subjects db;
                       if bool_decide (models.Subject_ID s
                                       = models.TS_SubjectID ts
                                       /\ models.TS_TeacherID ts = teacherID)
                       then [s] else [])
                \/ (x ∈ models.subjects db
                    /\ models.Subject_ID x = subjectID)).
  { intros x.
    rewrite (elem_of_GetTeacherSubjects teacherID db1 _ x eq_refl).
    rewrite (elem_of_GetTeacherSubjects teacherID db _ x eq_refl).
    rewrite Hsubjects. split.
    - intros (Hx & ts & Hts & Ht & Hsx). apply Hin in Hts as [Hts|Hts].
      + left. eauto 10.
      + right. split; [done|]. destruct Hts as (_ & _ & <-). done.
    - intros [(Hx & ts & Hts & Ht & Hsx)|[Hx Hxid]].
      + split; [done|]. exists ts. split; [|done]. apply Hin. by left.
      + split; [done|]. destruct Hpair as (ts & Hts & Ht & Hsx).
        exists ts. by rewrite Hxid. }
  split; [|split].
  - exists s. split; [|done]. apply Hlisted. by right.
  - exact Hlisted.
  - intros x.
    rewrite (elem_of_GetTeacherSubjects teacherID _ _ x eq_refl).
    rewrite (elem_of_GetTeacherSubjects teacherID db _ x eq_refl).
    destruct (RemoveSubjectFromTeacher_tables teacherID subjectID db1)
      as (_ & _ & Hsubjects' & Hrows').
    cbn zeta in Hsubjects', Hrows'. rewrite Hsubjects', Hrows', Hsubjects.
    split.
    + intros (Hx & ts & Hts & Ht & Hsx).
      apply list_elem_of_filter in Hts as [Hnot Hts]. split.
      * split; [done|]. apply Hin in Hts as [Hts|Hts]; [by eauto|].
        destruct Hnot. tauto.
      * intros Hxid. apply Hnot. by rewrite Hsx.
    + intros [(Hx & ts & Hts & Ht & Hsx) Hne]. split; [done|].
      exists ts. split; [|done]. apply list_elem_of_filter. split.
      * intros [_ Heq]. apply Hne. by rewrite <- Hsx.
      * apply Hin. by left.
Qed.

(** X11.  [RemoveSubjectFromTeacher] with ids within the 32-bit range of
    the key columns succeeds whether or not the subject was assigned; with
    an id outside that range, which no row holds, it fails with the
    database's out-of-range error and changes nothing.  Either way no row
    assigns the subject to the teacher afterwards, every other row of
    every table is as before, and a second removal changes nothing.  It
    undoes an assignment: on a table where the subject was not assigned to
    the teacher, assigning and then removing leaves the rows of
    [teacher_subjects] as they were. *)
Theorem RemoveSubjectFromTeacher_removes (teacherID subjectID : Z)
  (db : models.DB) :
  let removed := models.RemoveSubjectFromTeacher teacherID subjectID db in
  let db' := removed.2 in
  (-2147483648 <= teacherID <= 2147483647 ->
   -2147483648 <= subjectID <= 2147483647 ->
   removed.1 = Ok tt)
  /\ (models.assignments teacherID subjectID db = [] ->
      teacherID < -2147483648 \/ 2147483647 < teacherID
      \/ subjectID < -2147483648 \/ 2147483647 < subjectID ->
      removed = (Err pq_NumericValueOutOfRange, db))
  /\ models.assignments teacherID subjectID db' = []
  /\ (forall ts, ts ∈ models.teacher_subjects db'
                 <-> ts ∈ models.teacher_subjects db
                     /\ ~ (models.TS_TeacherID ts = teacherID
                           /\ models.TS_SubjectID ts = subjectID))
  /\ models.users db' = models.users db
  /\ models.students db' = models.students db
  /\ models.subjects db' = models.subjects db
  /\ models.tables
       (models.RemoveSubjectFromTeacher teacherID subjectID db').2
     = models.tables db'
  /\ forall now,
       models.assignments teacherID subjectID db = [] ->
       models.teacher_subjects
         (models.RemoveSubjectFromTeacher teacherID subjectID
            (models.AssignSubjectToTeacher teacherID subjectID now db).2).2
       = models.teacher_subjects db.
Proof.
  cbn zeta.
  destruct (RemoveSubjectFromTeacher_tables teacherID subjectID db)
    as (Husers & Hstudents & Hsubjects & Hrows).
  cbn zeta in Husers, Hstudents, Hsubjects, Hrows.
  assert (Hkeep : forall l : list models.TeacherSubject,
            filter (fun ts => ~ (models.TS_TeacherID ts = teacherID
                                 /\ models.TS_SubjectID ts = subjectID))
              (filter (fun ts => ~ (models.TS_TeacherID ts = teacherID
                                    /\ models.TS_SubjectID ts = subjectID)) l)
            = filter (fun ts => ~ (models.TS_TeacherID ts = teacherID
                                   /\ models.TS_SubjectID ts = subjectID)) l).
  { intros l. apply filter_all. intros ts Hts%list_elem_of_filter. tauto. }
  split; [apply RemoveSubjectFromTeacher_integer|].
  split; [apply RemoveSubjectFromTeacher_out_of_range|].
  split; [|split; [|split; [done|split; [done|split; [done|split]]]]].
  - unfold models.assignments. rewrite Hrows. apply filter_none.
    intros ts Hts%list_elem_of_filter. tauto.
  - intros ts. rewrite Hrows, list_elem_of_filter. tauto.
  - destruct (RemoveSubjectFromTeacher_tables teacherID subjectID
                (models.RemoveSubjectFromTeacher teacherID subjectID db).2)
      as (Husers' & Hstudents' & Hsubjects' & Hrows').
    cbn zeta in Husers', Hstudents', Hsubjects', Hrows'.
    unfold models.tables.
    by rewrite Husers', Hstudents', Hsubjects', Hrows', Hrows, Hkeep.
  - intros now Hnone.
    destruct (RemoveSubjectFromTeacher_tables teacherID subjectID
                (models.AssignSubjectToTeacher teacherID subjectID now db).2)
      as (_ & _ & _ & Hrows').
    cbn zeta in Hrows'. rewrite Hrows'.
    assert (Hsame : filter (fun ts => ~ (models.TS_TeacherID ts = teacherID
                                         /\ models.TS_SubjectID ts = subjectID))
                           (models.teacher_subjects db)
                    = models.teacher_subjects db).
    { apply filter_all. intros ts Hts Hpair.
      assert (ts ∈ models.assignments teacherID subjectID db) as Hin
        by by apply list_elem_of_filter.
      rewrite Hnone in Hin. by apply elem_of_nil in Hin. }
    unfold models.AssignSubjectToTeacher.
    destruct (existsb _ (models.users db)); cbn; [|done].
    destruct (existsb _ (models.subjects db)); cbn; [|done].
    unfold models.insert_teacher_subject. cbn.
    destruct (existsb _ (models.teacher_subjects db)); cbn; [done|].
    destruct (existsb _ (models.teacher_subjects db)); cbn; [done|].
    destruct (existsb _ (models.users db)); cbn; [|done].
    rewrite filter_app, Hsame, filter_cons_False, filter_nil, app_nil_r; tauto.
Qed.

Lemma scan_teachers_map (rows : list models.User)
  (teachers : list models.Teacher) (db : models.DB) :
  models.scan_teachers rows teachers db
  = Ok (teachers
        ++ map (fun u =>
                  models.teacher_of u
                    (merge_sort
                       (models.order_by2 models.Subject_Grade
                                         models.Subject_Name)
                       (s ← models.subjects db;
                        ts ← models.teacher_subjects db;
                        if bool_decide (models.Subject_ID s
                                        = models.TS_SubjectID ts
                                        /\ models.TS_TeacherID ts
                                           = models.User_ID u)
                        then [s] else []))) rows).
Proof.
  revert teachers. induction rows as [|u rows IH]; intros teachers; cbn.
  - by rewrite app_nil_r.
  - rewrite IH. by rewrite <- app_assoc.
Qed.

(** X12.  [GetAllTeachers] lists the users of role "teacher" and no
    others, each once for each of its rows, in ascending order of
    username; each entry carries the user's id and username, the subjects
    that [GetTeacherSubjects] returns for that id, and empty first name,
    last name and email. *)
Theorem GetAllTeachers_lists_teachers (db : models.DB) :
  exists teachers,
    models.GetAllTeachers db = Ok teachers
    /\ (forall t,
          t ∈ teachers
          <-> exists u subjects,
                u ∈ models.users db /\ models.User_Role u = "teacher"
                /\ models.GetTeacherSubjects (models.User_ID u) db = Ok subjects
                /\ t = models.mkTeacher (models.User_ID u)
                         (models.User_Username u) "" "" "" subjects)
    /\ models.Teacher_ID <$> teachers
       ≡ₚ models.User_ID
            <$> filter (fun u => models.User_Role u = "teacher")
                       (models.users db)
    /\ StronglySorted
         (fun a b => models.collate_le (models.Teacher_Username a)
                                       (models.Teacher_Username b)) teachers.
Proof.
  unfold models.GetAllTeachers. rewrite scan_teachers_map, app_nil_l.
  eexists. split; [reflexivity|]. split; [|split].
  - intros t. rewrite list_elem_of_fmap. split.
    + intros (u & -> & Hu). rewrite merge_sort_Permutation in Hu.
      apply list_elem_of_filter in Hu as [Hrole Hu].
      exists u. eexists. split; [done|]. split; [done|].
      split; [reflexivity|done].
    + intros (u & subjects & Hu & Hrole & [= <-] & ->). exists u.
      split; [done|]. rewrite merge_sort_Permutation.
      by apply list_elem_of_filter.
  - change (map ?f ?l) with (f <$> l). rewrite <- list_fmap_compose.
    change (models.Teacher_ID ∘ _) with models.User_ID.
    by rewrite merge_sort_Permutation.
  - apply (StronglySorted_fmap _ (models.order_by models.User_Username)).
    + done.
    + apply (StronglySorted_merge_sort (models.order_by models.User_Username)).
Qed.

(** X13.  [GetTeacherByID] finds users of role "teacher" only: for the id
    of no user, or of a user of another role, it fails, with
    [sql.ErrNoRows] when the id is within the 32-bit range of the key
    column and with the database's out-of-range error when it is not, and
    the handler answers either with 404 "Teacher not found"; what it
    returns has the id asked for, the subjects that [GetTeacherSubjects]
    returns for it, and empty first name, last name and email. *)
Theorem GetTeacherByID_teachers_only (id : Z) (db : models.DB) :
  ((forall u, u ∈ models.users db -> models.User_ID u = id ->
              models.User_Role u <> "teacher") ->
   (-2147483648 <= id <= 2147483647 ->
    models.GetTeacherByID id db = Err sql_ErrNoRows)
   /\ (id < -2147483648 \/ 2147483647 < id ->
       models.GetTeacherByID id db = Err pq_NumericValueOutOfRange)
   /\ forall c next,
        strconv.Atoi (gin.Param c "id") = Some id ->
        handlers.GetTeacherByID db c next
        = (db, gin.JSON http.StatusNotFound
                 (handlers.ErrorResponse "Teacher not found") c))
  /\ (forall t,
        models.GetTeacherByID id db = Ok t ->
        exists u,
          u ∈ models.users db /\ models.User_ID u = id
          /\ models.User_Role u = "teacher"
          /\ models.GetTeacherSubjects id db = Ok (models.Teacher_Subjects t)
          /\ t = models.mkTeacher id (models.User_Username u) "" "" ""
                   (models.Teacher_Subjects t)).
Proof.
  split.
  - intros Hnone.
    assert (Herr : models.GetTeacherByID id db = Err (models.no_row id)).
    { unfold models.GetTeacherByID. rewrite find_none_elem_of; [done|].
      intros u Hu. apply andb_false_iff.
      destruct (decide (models.User_ID u = id)) as [Hid|Hid].
      - right. apply bool_decide_eq_false. by apply Hnone.
      - left. by apply Z.eqb_neq. }
    split; [|split].
    + intros Hrange. by rewrite Herr, no_row_integer.
    + intros Hrange. by rewrite Herr, no_row_out_of_range.
    + intros c next Hid. unfold handlers.GetTeacherByID. by rewrite Hid, Herr.
  - intros t. unfold models.GetTeacherByID.
    destruct (find _ (models.users db)) as [u|] eqn:Hfind; [|done].
    apply find_some_elem_of in Hfind as [Hu Hmatch].
    apply andb_true_iff in Hmatch as [Hid%Z.eqb_eq Hrole%bool_decide_eq_true].
    cbn. intros [= <-]. exists u. cbn. by rewrite <- Hid.
Qed.

End queries.

(** ** The accounts made at start-up *)

Lemma GetUserByUsername_Err (username : string) (db : models.DB) (e : error) :
  models.GetUserByUsername username db = Err e ->
  forall u, u ∈ models.users db -> models.User_Username u <> username.
Proof.
  unfold models.GetUserByUsername.
  destruct (find _ _) eqn:Hfind; [done|]. intros _ u Hu%list_elem_of_In.
  pose proof (find_none _ _ Hfind u Hu) as Hno.
  by apply bool_decide_eq_false in Hno.
Qed.

Lemma GetUserByUsername_Ok (username : string) (db : models.DB)
  (u : models.User) :
  models.GetUserByUsername username db = Ok u ->
  u ∈ models.users db /\ models.User_Username u = username.
Proof.
  unfold models.GetUserByUsername.
  destruct (find _ _) eqn:Hfind; [|done]. intros [= ->].
  apply find_some_elem_of in Hfind as [Hu Hname].
  by apply bool_decide_eq_true in Hname.
Qed.

Lemma GetUserByUsername_elem_of (username : string) (db : models.DB) :
  (exists u, u ∈ models.users db /\ models.User_Username u = username) ->
  exists u, models.GetUserByUsername username db = Ok u.
Proof.
  intros (u & Hu & Hname). unfold models.GetUserByUsername.
  destruct (find _ _) eqn:Hfind; [by eexists|].
  apply list_elem_of_In in Hu. pose proof (find_none _ _ Hfind u Hu) as Hno.
  by apply bool_decide_eq_false in Hno.
Qed.

(** What a successful [CreateUser] has checked and written. *)
Lemma CreateUser_Ok (username password role : string) (now : time.Time)
  (db db' : models.DB) (u : models.User) :
  models.CreateUser username password role now db = (Ok u, db') ->
  u = models.mkUser (models.users_id_seq db) username password role now
  /\ db' = models.mkDB (models.users db ++ [u]) (models.students db)
             (models.subjects db) (models.teacher_subjects db)
             (models.users_id_seq db + 1) (models.students_id_seq db)
             (models.teacher_subjects_id_seq db).
Proof.
  unfold models.CreateUser, models.insert_user. cbn.
  destruct (existsb _ (models.users db)); cbn; [done|].
  destruct (existsb _ (models.users db)); cbn; [done|].
  by intros [= <- <-].
Qed.

(** With the serial keys drawn from the sequence, a new username is
    accepted. *)
Lemma CreateUser_new (username password role : string) (now : time.Time)
  (db : models.DB) :
  Forall (fun u => models.User_ID u < models.users_id_seq db) (models.users db) ->
  (forall u, u ∈ models.users db -> models.User_Username u <> username) ->
  exists u db', models.CreateUser username password role now db = (Ok u, db').
Proof.
  intros Hdrawn Hnew. unfold models.CreateUser, models.insert_user. cbn.
  rewrite (proj2 (existsb_false_elem_of _ (models.users db))); cycle 1.
  { intros u Hu. rewrite Forall_forall in Hdrawn. specialize (Hdrawn u Hu).
    apply Z.eqb_neq. lia. }
  rewrite (proj2 (existsb_false_elem_of _ (models.users db))); cycle 1.
  { intros u Hu. apply bool_decide_eq_false. by apply Hnew. }
  cbn. by eexists _, _.
Qed.

Section accounts.
Context (message : string -> error -> string).

(** A run that succeeds appends the accounts that were missing. *)
Lemma ensure_accounts_Ok (clock : nat -> time.Time)
  (accounts : list (string * string * string)) (n n' : nat)
  (db db' : models.DB) :
  main.ensure_accounts message clock accounts n db = (Ok tt, (n', db')) ->
  exists news,
    models.users db' = models.users db ++ news
    /\ (n' = n + length news)%nat
    /\ Forall (fun u =>
                 (models.User_Username u, models.User_Password u,
                  models.User_Role u) ∈ accounts
                 /\ forall v, v ∈ models.users db ->
                              models.User_Username v <> models.User_Username u)
              news
    /\ (models.users_constraints db -> models.users_constraints db')
    /\ (Forall (fun u => models.User_ID u < models.users_id_seq db)
               (models.users db) ->
        Forall (fun u => models.User_ID u < models.users_id_seq db')
               (models.users db'))
    /\ models.students db' = models.students db
    /\ models.subjects db' = models.subjects db
    /\ models.teacher_subjects db' = models.teacher_subjects db
    /\ forall a, a ∈ accounts ->
                 exists u, u ∈ models.users db'
                           /\ models.User_Username u = a.1.1.
Proof.
  revert n db. induction accounts as [|[[username password] role] accounts IH];
    intros n db; cbn [main.ensure_accounts].
  { intros [= <- <-]. exists []. rewrite app_nil_r.
    split_and!; try done. intros a Ha. by apply elem_of_nil in Ha. }
  destruct (models.GetUserByUsername username db) as [u0|e0] eqn:Hfind.
  - intros (news & Husers & Hn & Hnews & Hunique & Hdrawn & Hst & Hsu & Hts
            & Hfound)%IH.
    exists news. split_and!; try done.
    + eapply Forall_impl; [exact Hnews|]. cbn. intros u [Hu Hfresh].
      split; [by constructor|done].
    + intros a [->|Ha]%elem_of_cons; [|by apply Hfound].
      apply GetUserByUsername_Ok in Hfind as [Hu0 Hname].
      exists u0. split; [|done]. rewrite Husers. apply elem_of_app. by left.
  - destruct (models.CreateUser _ _ _ _ _) as [[u|e] db1] eqn:Hcreate; [|done].
    apply CreateUser_Ok in Hcreate as [-> ->].
    intros (news & Husers & Hn & Hnews & Hunique & Hdrawn & Hst & Hsu & Hts
            & Hfound)%IH.
    cbn in Husers. rewrite <- app_assoc in Husers. cbn in Husers.
    pose proof (GetUserByUsername_Err _ _ _ Hfind) as Hnew.
    eexists. split; [exact Husers|]. split_and!; try done.
    + cbn. lia.
    + constructor.
      * cbn. split; [constructor|]. done.
      * eapply Forall_impl; [exact Hnews|]. cbn. intros u [Hu Hfresh].
        split; [by constructor|]. intros v Hv. apply Hfresh.
        apply elem_of_app. by left.
    + intros Hdb. apply Hunique. unfold models.users_constraints. cbn.
      rewrite fmap_app. apply NoDup_snoc_fresh; [done|]. cbn.
      intros (v & Heq & Hv)%list_elem_of_fmap. by apply (Hnew v).
    + intros Hdb. apply Hdrawn. cbn. apply Forall_app. split.
      * eapply Forall_impl; [exact Hdb|]. cbn. intros v Hv. lia.
      * constructor; [cbn; lia|constructor].
    + intros a [->|Ha]%elem_of_cons; [|by apply Hfound].
      eexists. split.
      * rewrite Husers. apply elem_of_app. right. constructor.
      * done.
Qed.

(** With the serial keys drawn from the sequence, a run succeeds. *)
Lemma ensure_accounts_succeeds (clock : nat -> time.Time)
  (accounts : list (string * string * string)) (n : nat) (db : models.DB) :
  Forall (fun u => models.User_ID u < models.users_id_seq db) (models.users db) ->
  exists n' db',
    main.ensure_accounts message clock accounts n db = (Ok tt, (n', db')).
Proof.
  revert n db. induction accounts as [|[[username password] role] accounts IH];
    intros n db Hdrawn; cbn [main.ensure_accounts]; [by eexists _, _|].
  destruct (models.GetUserByUsername username db) as [u0|e0] eqn:Hfind;
    [by apply IH|].
  pose proof (GetUserByUsername_Err _ _ _ Hfind) as Hnew.
  destruct (CreateUser_new username password role (clock n) db Hdrawn Hnew)
    as (u & db1 & Hcreate).
  rewrite Hcreate. apply CreateUser_Ok in Hcreate as [-> ->].
  apply IH. cbn. apply Forall_app. split.
  - eapply Forall_impl; [exact Hdrawn|]. cbn. intros v Hv. lia.
  - constructor; [cbn; lia|constructor].
Qed.

(** When every account exists, a run reads no clock and writes nothing. *)
Lemma ensure_accounts_present (clock : nat -> time.Time)
  (accounts : list (string * string * string)) (n : nat) (db : models.DB) :
  (forall a, a ∈ accounts ->
             exists u, u ∈ models.users db /\ models.User_Username u = a.1.1) ->
  main.ensure_accounts message clock accounts n db = (Ok tt, (n, db)).
Proof.
  induction accounts as [|[[username password] role] accounts IH];
    intros Hpresent; cbn [main.ensure_accounts]; [done|].
  destruct (GetUserByUsername_elem_of username db) as [u Hu].
  { apply (Hpresent (username, password, role)). constructor. }
  rewrite Hu. apply IH. intros a Ha. apply Hpresent. by constructor.
Qed.

End accounts.

Section test_users.
Context (Error : error -> string).

Lemma create_test_users_ensure (clock : nat -> time.Time)
  (roles : list string) (n : nat) (db : models.DB) :
  main.create_test_users Error clock roles n db
  = main.ensure_accounts
      (fun username err =>
         "failed to create test user '" +:+ username +:+ "': " +:+ Error err)
      clock (map (fun role => ("test_" +:+ role, "test_" +:+ role, role)) roles)
      n db.
Proof.
  revert n db. induction roles as [|role roles IH]; intros n db; [done|].
  cbn [main.create_test_users main.ensure_accounts map].
  destruct (models.GetUserByUsername _ db) as [u0|e0]; [by apply IH|].
  destruct (models.CreateUser _ _ _ _ _) as [[u|e] db1]; [by apply IH|done].
Qed.

Lemma create_teachers_ensure (clock : nat -> time.Time)
  (teachers : list string) (n : nat) (db : models.DB) :
  main.create_teachers Error clock teachers n db
  = main.ensure_accounts
      (fun username err =>
         "failed to create teacher '" +:+ username +:+ "': " +:+ Error err)
      clock
      (map (fun username => (username, username +:+ "_123", "teacher"))
           teachers)
      n db.
Proof.
  revert n db. induction teachers as [|username teachers IH]; intros n db;
    [done|].
  cbn [main.create_teachers main.ensure_accounts map].
  destruct (models.GetUserByUsername _ db) as [u0|e0]; [by apply IH|].
  destruct (models.CreateUser _ _ _ _ _) as [[u|e] db1]; [by apply IH|done].
Qed.

(** X14.  On a database whose user ids were drawn from the sequence,
    [CreateTestUsers] succeeds.  It only appends to [users]: one row for
    each of its nine accounts whose username was missing, with the
    password and the role of that account, as many rows as it read the
    clock; the rows that were there stay as they are, passwords included,
    and so do the other tables.  Afterwards each of the nine usernames is
    stored, and usernames that were unique still are. *)
Theorem CreateTestUsers_seeds (clock : nat -> time.Time) (db : models.DB) :
  Forall (fun u => models.User_ID u < models.users_id_seq db) (models.users db) ->
  exists n news db',
    main.CreateTestUsers Error clock db = (Ok tt, (n, db'))
    /\ models.users db' = models.users db ++ news
    /\ length news = n
    /\ Forall (fun u =>
                 (models.User_Username u, models.User_Password u,
                  models.User_Role u) ∈ main.test_accounts
                 /\ forall v, v ∈ models.users db ->
                              models.User_Username v <> models.User_Username u)
              news
    /\ (forall a, a ∈ main.test_accounts ->
                  exists u, u ∈ models.users db'
                            /\ models.User_Username u = a.1.1)
    /\ (models.users_constraints db -> models.users_constraints db')
    /\ models.students db' = models.students db
    /\ models.subjects db' = models.subjects db
    /\ models.teacher_subjects db' = models.teacher_subjects db.
Proof.
  intros Hdrawn. unfold main.CreateTestUsers.
  rewrite create_test_users_ensure.
  match goal with
  | |- context [main.ensure_accounts ?m ?c ?a ?k ?d] =>
      destruct (ensure_accounts_succeeds m c a k d Hdrawn)
        as (n1 & db1 & Hrun1)
  end.
  rewrite Hrun1. rewrite create_teachers_ensure.
  apply ensure_accounts_Ok in Hrun1
    as (news1 & Husers1 & Hn1 & Hnews1 & Hunique1 & Hdrawn1 & Hst1 & Hsu1
        & Hts1 & Hfound1).
  match goal with
  | |- context [main.ensure_accounts ?m ?c ?a ?k ?d] =>
      destruct (ensure_accounts_succeeds m c a k d (Hdrawn1 Hdrawn))
        as (n2 & db2 & Hrun2)
  end.
  rewrite Hrun2.
  apply ensure_accounts_Ok in Hrun2
    as (news2 & Husers2 & Hn2 & Hnews2 & Hunique2 & Hdrawn2 & Hst2 & Hsu2
        & Hts2 & Hfound2).
  exists n2, (news1 ++ news2), db2. split; [done|].
  split; [by rewrite Husers2, Husers1, app_assoc|].
  split; [rewrite length_app; lia|].
  assert (Haccounts : main.test_accounts
                      = map (fun role =>
                               ("test_" +:+ role, "test_" +:+ role, role))
                            ["admin"; "teacher"; "student"]
                        ++ map (fun username =>
                                  (username, username +:+ "_123", "teacher"))
                               ["wg"; "liz"; "eddie"; "yu"; "tan"; "li"])
    by reflexivity.
  rewrite Haccounts.
  split; [|split; [|split; [auto|split_and!; congruence]]].
  - apply Forall_app. split.
    + eapply Forall_impl; [exact Hnews1|]. cbn beta. intros u [Hu Hfresh].
      split; [|done]. apply elem_of_app. by left.
    + eapply Forall_impl; [exact Hnews2|]. cbn beta. intros u [Hu Hfresh].
      split.
      * apply elem_of_app. by right.
      * intros v Hv. apply Hfresh. rewrite Husers1. apply elem_of_app.
        by left.
  - intros a [Ha|Ha]%elem_of_app.
    + destruct (Hfound1 a Ha) as (u & Hu & Hname). exists u.
      split; [|done]. rewrite Husers2. apply elem_of_app. by left.
    + by apply Hfound2.
Qed.

(** X15.  A run of [CreateTestUsers] that succeeded is not repeated by
    the next: on the database it left, [CreateTestUsers] succeeds again,
    reads no clock and leaves the database, sequences included, as it
    is. *)
Theorem CreateTestUsers_idempotent (clock clock' : nat -> time.Time)
  (n : nat) (db db' : models.DB) :
  main.CreateTestUsers Error clock db = (Ok tt, (n, db')) ->
  main.CreateTestUsers Error clock' db' = (Ok tt, (0%nat, db')).
Proof.
  unfold main.CreateTestUsers.
  rewrite !create_test_users_ensure.
  destruct (main.ensure_accounts _ clock _ 0 db) as [[[]|e1] [n1 db1]] eqn:Hrun1;
    [|done].
  rewrite create_teachers_ensure. intros Hrun2.
  apply ensure_accounts_Ok in Hrun1
    as (news1 & Husers1 & _ & _ & _ & _ & _ & _ & _ & Hfound1).
  apply ensure_accounts_Ok in Hrun2
    as (news2 & Husers2 & _ & _ & _ & _ & _ & _ & _ & Hfound2).
  rewrite ensure_accounts_present.
  - rewrite create_teachers_ensure. apply ensure_accounts_present.
    exact Hfound2.
  - intros a Ha. destruct (Hfound1 a Ha) as (u & Hu & Hname). exists u.
    split; [|done]. rewrite Husers2. apply elem_of_app. by left.
Qed.

End test_users.

(** ** The gate, the role filters and the routes *)

Lemma prefix_drop_bytes (p s : string) :
  String.prefix p s = true ->
  s = p +:+ middleware.drop_bytes (String.length p) s.
Proof.
  revert s. induction p as [|a p IH]; intros s; [done|].
  destruct s as [|b s]; [done|]. cbn.
  destruct (Ascii.ascii_dec a b) as [->|]; [|done].
  intros Hp. rewrite append_String. f_equal. by apply IH.
Qed.

(** A header from which a token is extracted is "Bearer " and the token. *)
Lemma extractToken_not_empty (authHeader : string) :
  middleware.extractToken authHeader <> "" ->
  authHeader = "Bearer " +:+ middleware.extractToken authHeader.
Proof.
  unfold middleware.extractToken.
  destruct (7 <? _); cbn [andb]; [|done].
  destruct (String.prefix "Bearer " authHeader) eqn:Hprefix; [|done].
  intros _. by apply prefix_drop_bytes in Hprefix.
Qed.

(** X16.  [extractToken] returns a non-empty token exactly for a header
    that is "Bearer " followed by that token: the scheme is matched byte
    for byte, and every other header gives the empty string.  The copy of
    the function in [handlers] computes the same. *)
Theorem extractToken_Bearer_iff (authHeader tok : string) :
  tok <> "" ->
  (middleware.extractToken authHeader = tok
   <-> authHeader = "Bearer " +:+ tok)
  /\ forall c, gin.GetHeader c "Authorization" = authHeader ->
               (handlers.extractToken c = tok
                <-> authHeader = "Bearer " +:+ tok).
Proof.
  intros Htok.
  assert (Hiff : middleware.extractToken authHeader = tok
                 <-> authHeader = "Bearer " +:+ tok).
  { split.
    - intros <-. by apply extractToken_not_empty.
    - intros ->. by apply extractToken_Bearer. }
  split; [done|]. intros c <-. by rewrite extractToken_agree.
Qed.

(** The chains of middleware that [SetupRoutes] builds. *)
Lemma route_chains (r : routes.Route) :
  r ∈ routes.SetupRoutes ->
  routes.Route_Method r <> "OPTIONS"
  /\ (routes.Route_Middleware r = [routes.MW_CORS]
      \/ routes.Route_Middleware r = [routes.MW_CORS; routes.MW_JWTAuth]
      \/ routes.Route_Middleware r
         = [routes.MW_CORS; routes.MW_JWTAuth; routes.MW_TeacherOrAdmin]
      \/ routes.Route_Middleware r
         = [routes.MW_CORS; routes.MW_JWTAuth; routes.MW_TeacherOrAdmin;
            routes.MW_AdminOnly]
      \/ routes.Route_Middleware r
         = [routes.MW_CORS; routes.MW_JWTAuth; routes.MW_AdminOnly]).
Proof.
  intros Hr. unfold routes.SetupRoutes in Hr.
  repeat (apply elem_of_cons in Hr as [->|Hr]);
    try (by apply elem_of_nil in Hr); (split; [done|]); cbn; tauto.
Qed.

Lemma Get_role_absent_CORS (c : gin.Context) (key : string) :
  gin.Get
    (gin.Header_Set "Access-Control-Allow-Headers" "Content-Type, Authorization"
       (gin.Header_Set "Access-Control-Allow-Methods"
          "GET, POST, PUT, DELETE, OPTIONS"
          (gin.Header_Set "Access-Control-Allow-Origin" "*" c))) key
  = gin.Get c key.
Proof. reflexivity. Qed.

Section chains.
Context {P : jwt.Primitives} {S : Type}.

#[local] Existing Instance routes.Middleware_eq_dec.

(** Headers of the response: what each middleware after the first keeps. *)
Lemma JWTAuth_keeps_headers (jwtSecret : string) (now : time.Time) (s : S)
  (c : gin.Context) (next : S -> gin.Context -> S * gin.Context) :
  (forall s c, gin.Writer_Header (next s c).2 = gin.Writer_Header c) ->
  gin.Writer_Header (middleware.JWTAuth jwtSecret now s c next).2
  = gin.Writer_Header c.
Proof.
  intros Hnext. unfold middleware.JWTAuth.
  case_bool_decide; [done|]. case_bool_decide; [done|].
  destruct (jwt.ParseWithClaims _ _ _) as [?|token]; [done|].
  destruct (jwt.Valid token); [|done]. by rewrite Hnext.
Qed.

Lemma AdminOnly_keeps_headers (s : S) (c : gin.Context)
  (next : S -> gin.Context -> S * gin.Context) :
  (forall s c, gin.Writer_Header (next s c).2 = gin.Writer_Header c) ->
  gin.Writer_Header (middleware.AdminOnly s c next).2 = gin.Writer_Header c.
Proof.
  intros Hnext. unfold middleware.AdminOnly.
  destruct (gin.Get c "role") as [[n|role]|]; try done.
  by case_bool_decide.
Qed.

Lemma TeacherOrAdmin_keeps_headers (s : S) (c : gin.Context)
  (next : S -> gin.Context -> S * gin.Context) :
  (forall s c, gin.Writer_Header (next s c).2 = gin.Writer_Header c) ->
  gin.Writer_Header (middleware.TeacherOrAdmin s c next).2
  = gin.Writer_Header c.
Proof.
  intros Hnext. unfold middleware.TeacherOrAdmin.
  destruct (gin.Get c "role") as [[n|role]|]; try done.
  by destruct (_ && _).
Qed.

Lemma chain_keeps_headers (jwtSecret : string) (now : time.Time)
  (ms : list routes.Middleware) (endpoint : gin.HandlerFunc S) :
  routes.MW_CORS ∉ ms ->
  (forall s c next, gin.Writer_Header (endpoint s c next).2
                    = gin.Writer_Header c) ->
  forall s c,
    gin.Writer_Header
      (gin.run (map (routes.middlewareFunc jwtSecret now) ms ++ [endpoint])
         s c).2
    = gin.Writer_Header c.
Proof.
  intros Hms Hendpoint. induction ms as [|m ms IH]; intros s c; cbn.
  - apply Hendpoint.
  - apply not_elem_of_cons in Hms as [Hm Hms]. specialize (IH Hms).
    destruct m; cbn.
    + done.
    + by apply JWTAuth_keeps_headers.
    + by apply TeacherOrAdmin_keeps_headers.
    + by apply AdminOnly_keeps_headers.
Qed.

(** X17.  Every response to a request that is served through a route of
    [SetupRoutes] carries the three CORS headers, whether the gate or a
    role filter answered (401, 403) or the endpoint did, provided the
    endpoint leaves the response headers alone.  An OPTIONS request does
    not get past the CORS middleware: it is answered 200, the chain is
    aborted and the state is untouched. *)
Theorem responses_carry_CORS_headers (jwtSecret : string) (now : time.Time)
  (endpoints : routes.Endpoint -> gin.HandlerFunc S) (r : routes.Route)
  (s : S) (c : gin.Context) :
  r ∈ routes.SetupRoutes ->
  (forall e s c next, gin.Writer_Header (endpoints e s c next).2
                      = gin.Writer_Header c) ->
  let c' := (routes.serve jwtSecret now endpoints r s c).2 in
  (gin.Writer_Header c' !! "Access-Control-Allow-Origin" = Some "*"
   /\ gin.Writer_Header c' !! "Access-Control-Allow-Methods"
      = Some "GET, POST, PUT, DELETE, OPTIONS"
   /\ gin.Writer_Header c' !! "Access-Control-Allow-Headers"
      = Some "Content-Type, Authorization")
  /\ (gin.Request_Method c = "OPTIONS" ->
      (routes.serve jwtSecret now endpoints r s c).1 = s
      /\ gin.Writer c' = Some (gin.mkResponse 200 None)
      /\ gin.IsAborted c' = true).
Proof.
  intros Hr Hendpoints.
  assert (Hchain : exists ms, routes.Route_Middleware r = routes.MW_CORS :: ms
                              /\ routes.MW_CORS ∉ ms).
  { destruct (route_chains r Hr) as [_ [->|[->|[->|[->| ->]]]]];
      eexists; (split; [reflexivity|]);
      rewrite ?not_elem_of_cons; split_and?; try done; apply not_elem_of_nil. }
  destruct Hchain as (ms & Hms & Hnocors).
  unfold routes.serve. rewrite Hms.
  cbn [map app gin.run routes.middlewareFunc].
  unfold routes.CORSMiddleware. cbn zeta.
  case_bool_decide as Hmethod; cbn in Hmethod.
  - cbn. split; [|done]. split_and!; by simplify_map_eq.
  - rewrite (chain_keeps_headers jwtSecret now ms _ Hnocors (Hendpoints _)).
    cbn. split; [|done]. split_and!; by simplify_map_eq.
Qed.

(** Every route behind [TeacherOrAdmin] runs it right after [JWTAuth]. *)
Lemma teacher_route_chain (r : routes.Route) :
  r ∈ routes.SetupRoutes ->
  routes.MW_TeacherOrAdmin ∈ routes.Route_Middleware r ->
  routes.Route_Method r <> "OPTIONS"
  /\ exists filters,
       routes.Route_Middleware r
       = routes.MW_CORS :: routes.MW_JWTAuth :: routes.MW_TeacherOrAdmin
         :: filters.
Proof.
  intros Hr Hmw.
  destruct (route_chains r Hr) as [Hopt [Hc|[Hc|[Hc|[Hc|Hc]]]]];
    rewrite Hc in Hmw |- *; (split; [done|]); try (by eexists);
    exfalso; repeat (apply elem_of_cons in Hmw as [Hmw|Hmw]; [done|]);
    by apply elem_of_nil in Hmw.
Qed.

(** X18.  A request to a route behind [TeacherOrAdmin] with a bearer token
    that validates and whose role is neither "teacher" nor "admin" (a
    student's, say) is answered 403 "Teacher or admin access required":
    the chain is aborted there, no endpoint runs and the state is
    untouched. *)
Theorem TeacherOrAdmin_forbids_other_roles (jwtSecret tok : string)
  (now : time.Time) (token : jwt.Token)
  (endpoints : routes.Endpoint -> gin.HandlerFunc S)
  (r : routes.Route) (s : S) (c : gin.Context) :
  r ∈ routes.SetupRoutes ->
  routes.MW_TeacherOrAdmin ∈ routes.Route_Middleware r ->
  gin.Request_Method c = routes.Route_Method r ->
  gin.GetHeader c "Authorization" = "Bearer " +:+ tok ->
  tok <> "" ->
  jwt.ParseWithClaims tok jwtSecret now = jwt.Parsed token ->
  jwt.Role (jwt.Token_Claims token) <> "teacher" ->
  jwt.Role (jwt.Token_Claims token) <> "admin" ->
  exists c',
    routes.serve jwtSecret now endpoints r s c = (s, c')
    /\ gin.Writer c'
       = Some (gin.mkResponse http.StatusForbidden
                 (Some (gin.H [("error",
                                gin.JString
                                  "Teacher or admin access required")])))
    /\ gin.IsAborted c' = true.
Proof.
  intros Hr Hmw Hmethod Hheader Htok Hparse Hteacher Hadmin.
  destruct (teacher_route_chain r Hr Hmw) as [Hopt [filters Hchain]].
  unfold routes.serve. rewrite Hchain.
  cbn [map app gin.run routes.middlewareFunc].
  rewrite CORSMiddleware_passes by (by rewrite Hmethod).
  rewrite (JWTAuth_with_token jwtSecret tok now token)
    by (by rewrite ?(GetHeader_CORS (S := S))).
  unfold middleware.TeacherOrAdmin at 1. rewrite Get_role_after_JWTAuth.
  rewrite !bool_decide_eq_true_2 by done. cbn [andb].
  eexists. split; [reflexivity|]. done.
Qed.

(** X19.  A request to a route behind [JWTAuth] with a bearer token that
    validates and whose role the filters of the route admit ("admin"
    behind [AdminOnly]; "teacher" or "admin" behind [TeacherOrAdmin]; any
    role elsewhere) reaches the endpoint of the route, as the last of the
    chain, with the state untouched and with the CORS headers and the
    token's [user_id] and [role] set in the context. *)
Theorem admitted_request_reaches_endpoint (jwtSecret tok : string)
  (now : time.Time) (token : jwt.Token)
  (endpoints : routes.Endpoint -> gin.HandlerFunc S)
  (r : routes.Route) (s : S) (c : gin.Context) :
  r ∈ routes.SetupRoutes ->
  routes.MW_JWTAuth ∈ routes.Route_Middleware r ->
  gin.Request_Method c = routes.Route_Method r ->
  gin.GetHeader c "Authorization" = "Bearer " +:+ tok ->
  tok <> "" ->
  jwt.ParseWithClaims tok jwtSecret now = jwt.Parsed token ->
  (routes.MW_AdminOnly ∈ routes.Route_Middleware r ->
   jwt.Role (jwt.Token_Claims token) = "admin") ->
  (routes.MW_TeacherOrAdmin ∈ routes.Route_Middleware r ->
   jwt.Role (jwt.Token_Claims token) = "teacher"
   \/ jwt.Role (jwt.Token_Claims token) = "admin") ->
  routes.serve jwtSecret now endpoints r s c
  = endpoints (routes.Route_Endpoint r) s
      (gin.Set_ "role" (gin.any_string (jwt.Role (jwt.Token_Claims token)))
         (gin.Set_ "user_id"
            (gin.any_int (jwt.UserID (jwt.Token_Claims token)))
            (gin.Header_Set "Access-Control-Allow-Headers"
               "Content-Type, Authorization"
               (gin.Header_Set "Access-Control-Allow-Methods"
                  "GET, POST, PUT, DELETE, OPTIONS"
                  (gin.Header_Set "Access-Control-Allow-Origin" "*" c)))))
      (gin.run []).
Proof.
  intros Hr Hmw Hmethod Hheader Htok Hparse Hadmin Hteacher.
  destruct (route_chains r Hr) as [Hopt Hchain].
  unfold routes.serve.
  destruct Hchain as [Hc|[Hc|[Hc|[Hc|Hc]]]]; rewrite Hc in *.
  { exfalso. apply list_elem_of_singleton in Hmw. done. }
  all: cbn [map app gin.run routes.middlewareFunc];
    rewrite CORSMiddleware_passes by (by rewrite Hmethod);
    rewrite (JWTAuth_with_token jwtSecret tok now token)
      by (by rewrite ?(GetHeader_CORS (S := S))).
  - done.
  - unfold middleware.TeacherOrAdmin. rewrite Get_role_after_JWTAuth.
    destruct Hteacher as [-> | ->]; [repeat constructor| |]; done.
  - unfold middleware.TeacherOrAdmin, middleware.AdminOnly.
    rewrite !Get_role_after_JWTAuth.
    rewrite Hadmin by repeat constructor. done.
  - unfold middleware.AdminOnly. rewrite Get_role_after_JWTAuth.
    rewrite Hadmin by repeat constructor. done.
Qed.

(** X20.  The routes that are not behind [JWTAuth] are the health check
    and the login, and no others; a request to one of them reaches the
    endpoint whatever its Authorization header, with the CORS headers set
    and nothing else changed. *)
Theorem public_routes (jwtSecret : string) (now : time.Time)
  (endpoints : routes.Endpoint -> gin.HandlerFunc S)
  (r : routes.Route) (s : S) (c : gin.Context) :
  r ∈ routes.SetupRoutes ->
  (routes.MW_JWTAuth ∉ routes.Route_Middleware r
   <-> routes.Route_Path r = "/api/health"
       \/ routes.Route_Path r = "/api/login")
  /\ (routes.MW_JWTAuth ∉ routes.Route_Middleware r ->
      gin.Request_Method c = routes.Route_Method r ->
      routes.serve jwtSecret now endpoints r s c
      = endpoints (routes.Route_Endpoint r) s
          (gin.Header_Set "Access-Control-Allow-Headers"
             "Content-Type, Authorization"
             (gin.Header_Set "Access-Control-Allow-Methods"
                "GET, POST, PUT, DELETE, OPTIONS"
                (gin.Header_Set "Access-Control-Allow-Origin" "*" c)))
          (gin.run [])).
Proof.
  intros Hr. split.
  - unfold routes.SetupRoutes in Hr.
    repeat (apply elem_of_cons in Hr as [->|Hr]);
      try (by apply elem_of_nil in Hr);
      apply (bool_decide_unpack _); vm_compute; exact I.
  - intros Hmw Hmethod.
    destruct (route_chains r Hr) as [Hopt [Hc|[Hc|[Hc|[Hc|Hc]]]]];
      rewrite Hc in *;
      try (exfalso; apply Hmw; by repeat constructor).
    unfold routes.serve. rewrite Hc.
    cbn [map app gin.run routes.middlewareFunc].
    by rewrite CORSMiddleware_passes by (by rewrite Hmethod).
Qed.

End chains.

(** ** Tokens that the gate turns away *)

Section rejected_tokens.
Context {P : jwt.Primitives} {S : Type}.
Context (lawful : jwt.Lawful P).

Lemma createToken_not_empty (user : models.User) (key tok : string)
  (now_exp now_iat : time.Time) :
  handlers.createToken user key now_exp now_iat = Ok tok -> tok <> "".
Proof.
  unfold handlers.createToken, jwt.SignedString. intros [= <-].
  by destruct (jwt.SigningString _ _).
Qed.

(** A token parsed under a key: the digests must agree, then the
    validator decides. *)
Lemma ParseWithClaims_createToken (user : models.User) (key secret tok : string)
  (now_exp now_iat now : time.Time) :
  handlers.createToken user key now_exp now_iat = Ok tok ->
  jwt.ParseWithClaims tok secret now
  = let claims := handlers.newClaims user now_exp now_iat in
    if bool_decide (jwt.hmacSHA256 key (jwt.SigningString "HS256" claims)
                    = jwt.hmacSHA256 secret (jwt.SigningString "HS256" claims))
    then if now <? jwt.NewNumericDate (time.Add now_exp (24 * time.Hour))
         then jwt.Parsed (jwt.mkToken claims true)
         else jwt.ParseError (Some (jwt.mkToken claims false))
                             jwt_ErrTokenExpired
    else jwt.ParseError (Some (jwt.mkToken claims false))
                        jwt_ErrTokenSignatureInvalid.
Proof.
  unfold handlers.createToken, jwt.SignedString. intros [= <-].
  unfold jwt.ParseWithClaims.
  rewrite jwt.ParseUnverified_SignedString.
  unfold jwt.Verify, jwt.HS256_Verify, jwt.HS256_Sign.
  rewrite (bool_decide_eq_true_2 ("HS256" = "HS256")) by done. cbn zeta.
  case_bool_decide; [|done].
  rewrite Validate_newClaims. by destruct (now <? _).
Qed.

(** X21.  A request to a route behind [JWTAuth] whose bearer token was
    issued by [createToken] is answered 401 "Invalid token", with the
    chain aborted and the state untouched, when the token has expired
    (the clock reading of the gate is at or after its expiry) and when it
    was signed with a key whose digest of the signing string is not that
    of the server's secret. *)
Theorem JWTAuth_rejects_expired_and_forged (jwtSecret key tok : string)
  (user : models.User) (now_exp now_iat now : time.Time)
  (endpoints : routes.Endpoint -> gin.HandlerFunc S)
  (r : routes.Route) (s : S) (c : gin.Context) :
  r ∈ routes.SetupRoutes ->
  routes.MW_JWTAuth ∈ routes.Route_Middleware r ->
  gin.Request_Method c = routes.Route_Method r ->
  handlers.createToken user key now_exp now_iat = Ok tok ->
  gin.GetHeader c "Authorization" = "Bearer " +:+ tok ->
  (key = jwtSecret
   /\ jwt.NewNumericDate (time.Add now_exp (24 * time.Hour)) <= now)
  \/ jwt.hmacSHA256 key
       (jwt.SigningString "HS256" (handlers.newClaims user now_exp now_iat))
     <> jwt.hmacSHA256 jwtSecret
          (jwt.SigningString "HS256"
             (handlers.newClaims user now_exp now_iat)) ->
  routes.serve jwtSecret now endpoints r s c
  = (s, gin.Abort
          (gin.JSON http.StatusUnauthorized
             (gin.H [("error", gin.JString "Invalid token")])
             (gin.Header_Set "Access-Control-Allow-Headers"
                "Content-Type, Authorization"
                (gin.Header_Set "Access-Control-Allow-Methods"
                   "GET, POST, PUT, DELETE, OPTIONS"
                   (gin.Header_Set "Access-Control-Allow-Origin" "*" c))))).
Proof.
  intros Hr Hmw Hmethod Htoken Hheader Hbad.
  destruct (protected_route_chain r Hr Hmw) as [Hopt [filters Hchain]].
  pose proof (createToken_not_empty _ _ _ _ _ Htoken) as Htok.
  unfold routes.serve. rewrite Hchain.
  cbn [map app gin.run routes.middlewareFunc].
  rewrite CORSMiddleware_passes by (by rewrite Hmethod).
  unfold middleware.JWTAuth. rewrite (GetHeader_CORS (S := S)), Hheader.
  rewrite bool_decide_eq_false_2 by (by destruct tok).
  rewrite (extractToken_Bearer tok Htok), bool_decide_eq_false_2 by done.
  rewrite (ParseWithClaims_createToken _ _ _ _ _ _ now Htoken). cbn zeta.
  destruct Hbad as [[-> Hexpired]|Hforged].
  - rewrite bool_decide_eq_true_2 by done.
    apply Z.ltb_ge in Hexpired. by rewrite Hexpired.
  - by rewrite bool_decide_eq_false_2.
Qed.

End rejected_tokens.

(** ** The handlers behind the admin routes *)

Section admin_handlers.
Context {P : jwt.Primitives}.

(** X22.  [validateAdminToken] returns claims exactly when the request
    carries "Bearer " and a non-empty token that parses, verifies under
    the handler's secret and is valid at the clock reading, with the role
    "admin"; the claims are the token's.  The nil claims that
    [validateToken] could return never reach it: it does not panic. *)
Theorem validateAdminToken_sound (h : handlers.Handler) (now : time.Time)
  (c : gin.Context) :
  handlers.validateAdminToken h now c <> None
  /\ forall claims,
       handlers.validateAdminToken h now c = Some (Ok claims)
       <-> exists tok,
             gin.GetHeader c "Authorization" = "Bearer " +:+ tok
             /\ tok <> ""
             /\ jwt.ParseWithClaims tok (handlers.JWTSecret h) now
                = jwt.Parsed (jwt.mkToken claims true)
             /\ jwt.Role claims = "admin".
Proof.
  unfold handlers.validateAdminToken, handlers.validateToken.
  rewrite extractToken_agree.
  set (authHeader := gin.GetHeader c "Authorization").
  split.
  - case_bool_decide; [done|].
    destruct (jwt.ParseWithClaims _ _ _) as [?|token] eqn:Hparse; [done|].
    rewrite (ParseWithClaims_Parsed_Valid _ _ _ _ Hparse). cbn.
    by case_bool_decide.
  - intros claims. split.
    + case_bool_decide as Hempty; [done|].
      destruct (jwt.ParseWithClaims _ _ _) as [?|token] eqn:Hparse; [done|].
      pose proof (ParseWithClaims_Parsed_Valid _ _ _ _ Hparse) as Hvalid.
      rewrite Hvalid. cbn. case_bool_decide as Hrole; [done|].
      intros [= <-]. exists (middleware.extractToken authHeader).
      split; [by apply extractToken_not_empty|]. split; [done|]. split.
      * rewrite Hparse. destruct token as [claims valid]. cbn in *.
        by rewrite Hvalid.
      * by destruct (decide (jwt.Role (jwt.Token_Claims token) = "admin")).
    + intros (tok & Hheader & Htok & Hparse & Hrole).
      rewrite Hheader, (extractToken_Bearer tok Htok).
      rewrite bool_decide_eq_false_2 by done. rewrite Hparse. cbn.
      rewrite bool_decide_eq_false_2; [done|]. intros Hne. by apply Hne.
Qed.

(** X23.  The three handlers that write student records change the
    tables only when they succeed: whatever the request, unless
    [HandleCreateStudent] answers 201, and unless [HandleUpdateStudent] or
    [HandleDeleteStudent] answers 200, the rows of all four tables are
    what they were. *)
Theorem student_handlers_write_on_success_only (h : handlers.Handler)
  (now now_user now_student : time.Time)
  (decoded : option models.StudentRequest) (db : models.DB) (c : gin.Context)
  (next : models.DB -> gin.Context -> models.DB * gin.Context) :
  (gin.status
     (handlers.HandleCreateStudent h now decoded now_user now_student db c
        next).2 <> http.StatusCreated ->
   models.tables
     (handlers.HandleCreateStudent h now decoded now_user now_student db c
        next).1 = models.tables db)
  /\ (gin.status
        (handlers.HandleUpdateStudent h now decoded now_student db c next).2
      <> http.StatusOK ->
      models.tables
        (handlers.HandleUpdateStudent h now decoded now_student db c next).1
      = models.tables db)
  /\ (gin.status (handlers.HandleDeleteStudent h now db c next).2
      <> http.StatusOK ->
      models.tables (handlers.HandleDeleteStudent h now db c next).1
      = models.tables db).
Proof.
  split; [|split].
  - unfold handlers.HandleCreateStudent.
    destruct (handlers.validateAdminToken h now c) as [[claims|e]|]; try done.
    destruct (handlers.ShouldBindJSON decoded) as [req|e]; [|done].
    destruct (_ || _); [done|].
    destruct (models.CreateStudent req now_user now_student db)
      as [[student|e] db'] eqn:Hcreate; [done|].
    intros _. cbn.
    pose proof (CreateStudent_Err_tables req now_user now_student db e) as H.
    rewrite Hcreate in H. by apply H.
  - unfold handlers.HandleUpdateStudent.
    destruct (handlers.validateAdminToken h now c) as [[claims|e]|]; try done.
    destruct (strconv.Atoi _) as [id|]; [|done].
    destruct (handlers.ShouldBindJSON decoded) as [req|e]; [|done].
    destruct (_ || _); [done|].
    destruct (models.UpdateStudent id req now_student db)
      as [[student|e] db'] eqn:Hupdate; [done|].
    intros _. cbn.
    pose proof (UpdateStudent_Err_tables id req now_student db e) as H.
    rewrite Hupdate in H. by apply H.
  - unfold handlers.HandleDeleteStudent.
    destruct (handlers.validateAdminToken h now c) as [[claims|e]|]; try done.
    destruct (strconv.Atoi _) as [id|]; [|done].
    destruct (models.DeleteStudent id db) as [[[]|e] db'] eqn:Hdelete; [done|].
    intros _. cbn.
    pose proof (DeleteStudent_Err_tables id db e) as H.
    rewrite Hdelete in H. by apply H.
Qed.


End admin_handlers.

Section created_student.
Context {P : jwt.Primitives}.
Context (lawful : jwt.Lawful P).

(** X25.  A student account that [HandleCreateStudent] has created (it
    answered 201) can log in: [HandleLogin] with the username and the
    password of the creation request then answers 200 with a body of two
    fields, "token", the token that [createToken] signs for the new user,
    and "user", the new user without its password, whose role is
    "student"; and that token validates, before it expires, to claims with
    the new user's id and the role "student". *)
Theorem created_student_can_log_in (h : handlers.Handler)
  (now now_user now_student now_exp now_iat : time.Time)
  (req : models.StudentRequest) (db : models.DB) (c c2 : gin.Context)
  (next next2 : models.DB -> gin.Context -> models.DB * gin.Context) :
  gin.status
    (handlers.HandleCreateStudent h now (Some req) now_user now_student db c
       next).2 = http.StatusCreated ->
  let db' :=
    (handlers.HandleCreateStudent h now (Some req) now_user now_student db c
       next).1 in
  exists token user,
    handlers.HandleLogin h now_exp now_iat
      (Some (handlers.mkLoginRequest (models.Req_Username req)
               (models.Req_Password req))) db' c2 next2
    = (db',
       gin.JSON http.StatusOK
         (gin.JObject
            [("token", gin.JString token);
             ("user",
              gin.JObject
                [("id", gin.JNumber (models.User_ID user));
                 ("username", gin.JString (models.Req_Username req));
                 ("role", gin.JString "student");
                 ("date_created", gin.JTime (models.User_DateCreated user))])])
         c2)
    /\ handlers.createToken user (handlers.JWTSecret h) now_exp now_iat
       = Ok token
    /\ user ∈ models.users db'
    /\ models.User_Username user = models.Req_Username req
    /\ models.User_Password user = models.Req_Password req
    /\ models.User_Role user = "student"
    /\ forall t : time.Time,
         t < jwt.NewNumericDate (time.Add now_exp (24 * time.Hour)) ->
         exists claims,
           handlers.validateToken token (handlers.JWTSecret h) t
           = Ok (Some claims)
           /\ jwt.UserID claims = models.User_ID user
           /\ jwt.Role claims = "student".
Proof.
  unfold handlers.HandleCreateStudent.
  destruct (handlers.validateAdminToken h now c) as [[claims|e]|]; try done.
  cbn [handlers.ShouldBindJSON].
  destruct (_ || _) eqn:Hfields; [done|].
  apply orb_false_iff in Hfields as [Hfields Hpassword].
  apply orb_false_iff in Hfields as [_ Husername].
  apply bool_decide_eq_false in Husername, Hpassword.
  destruct (models.CreateStudent req now_user now_student db)
    as [[student|e] db'] eqn:Hcreate; [|done].
  intros _. cbn [fst snd].
  pose proof (CreateStudent_GetUserByUsername _ _ _ _ _ _ Hcreate) as Hlookup.
  set (user := models.mkUser (models.Student_UserID student)
                 (models.Req_Username req) (models.Req_Password req)
                 "student" now_user) in *.
  destruct (createToken_Ok user (handlers.JWTSecret h) now_exp now_iat)
    as [token Htoken].
  exists token, user.
  split; [|split; [done|split; [|split; [done|split; [done|split; [done|]]]]]].
  - unfold handlers.HandleLogin. cbn [handlers.ShouldBindJSON_LoginRequest].
    cbn [handlers.Username handlers.Password].
    rewrite !bool_decide_eq_false_2 by done.
    cbn [orb handlers.Username handlers.Password].
    rewrite Hlookup. unfold models.CheckPassword.
    rewrite bool_decide_eq_true_2 by done. cbn [negb]. by rewrite Htoken.
  - by apply GetUserByUsername_Ok in Hlookup as [Hin _].
  - intros t Ht. eexists. split.
    + rewrite (validateToken_createToken lawful _ _ _ _ _ t Htoken).
      apply Z.ltb_lt in Ht. by rewrite Ht.
    + done.
Qed.

End created_student.

(** ** Endpoints behind the gate *)

Lemma AssignSubjectToTeacher_missing (teacherID subjectID : Z)
  (now : time.Time) (db : models.DB) :
  ~ (exists u, u ∈ models.users db /\ models.User_ID u = teacherID
               /\ models.User_Role u = "teacher")
  \/ ~ (exists s, s ∈ models.subjects db /\ models.Subject_ID s = subjectID) ->
  exists e,
    models.AssignSubjectToTeacher teacherID subjectID now db = (Err e, db).
Proof.
  intros Hmissing. unfold models.AssignSubjectToTeacher.
  destruct (existsb _ (models.users db)) eqn:Htb; cbn; [|by eexists].
  destruct (existsb _ (models.subjects db)) eqn:Hsb; cbn; [|by eexists].
  exfalso. destruct Hmissing as [Hno|Hno]; apply Hno.
  - by apply teacherExists_iff.
  - by apply subjectExists_iff.
Qed.


Section gated_endpoints.
Context {P : jwt.Primitives} {C : models.Collation}.

(** X26.  [POST /api/teachers/:id/subjects] with an admin's token, a
    numeric id and a decodable body: the request passes the gate and both
    role filters, the handler's own admin check passes, and the answer is
    that of the repository: 200 when the assignment was made or was there
    already, after which one row assigns the subject to the teacher, and
    500 "Failed to assign subject to teacher", with the database as it
    was, when the teacher (a user of role "teacher") or the subject does
    not exist. *)
Theorem assign_subject_through_route (jwtSecret tok : string) (now db_now : time.Time)
  (token : jwt.Token) (endpoints : routes.Endpoint -> gin.HandlerFunc models.DB)
  (req : handlers.AssignSubjectRequest) (teacherID : Z) (db : models.DB)
  (c : gin.Context) :
  gin.Request_Method c = "POST" ->
  gin.GetHeader c "Authorization" = "Bearer " +:+ tok ->
  tok <> "" ->
  jwt.ParseWithClaims tok jwtSecret now = jwt.Parsed token ->
  jwt.Role (jwt.Token_Claims token) = "admin" ->
  endpoints routes.AssignSubjectToTeacher
  = handlers.AssignSubjectToTeacher (Some req) db_now ->
  strconv.Atoi (gin.Param c "id") = Some teacherID ->
  let r := routes.mkRoute "POST" "/api/teachers/:id/subjects"
             routes.teacherAdmin routes.AssignSubjectToTeacher in
  let assigned :=
    models.AssignSubjectToTeacher teacherID (handlers.SubjectID req) db_now db in
  let served := routes.serve jwtSecret now endpoints r db c in
  r ∈ routes.SetupRoutes
  /\ served.1 = assigned.2
  /\ gin.Writer served.2
     = Some (match assigned.1 with
             | Ok _ =>
                 gin.mkResponse http.StatusOK
                   (Some (handlers.SuccessResponse
                            "Subject assigned to teacher successfully"))
             | Err _ =>
                 gin.mkResponse http.StatusInternalServerError
                   (Some (handlers.ErrorResponse
                            "Failed to assign subject to teacher"))
             end)
  /\ (~ (exists u, u ∈ models.users db /\ models.User_ID u = teacherID
                   /\ models.User_Role u = "teacher")
      \/ ~ (exists s, s ∈ models.subjects db
                      /\ models.Subject_ID s = handlers.SubjectID req) ->
      gin.status served.2 = http.StatusInternalServerError /\ served.1 = db)
  /\ (models.teacher_subjects_constraints db ->
      (exists u, u ∈ models.users db /\ models.User_ID u = teacherID
                 /\ models.User_Role u = "teacher") ->
      (exists s, s ∈ models.subjects db
                 /\ models.Subject_ID s = handlers.SubjectID req) ->
      gin.status served.2 = http.StatusOK
      /\ length (models.assignments teacherID (handlers.SubjectID req)
                   served.1) = 1%nat).
Proof.
  intros Hmethod Hheader Htok Hparse Hrole Hendpoint Hid r assigned served.
  assert (Hserved : served
                    = (assigned.2,
                       gin.JSON
                         (match assigned.1 with
                          | Ok _ => http.StatusOK
                          | Err _ => http.StatusInternalServerError
                          end)
                         (match assigned.1 with
                          | Ok _ =>
                              handlers.SuccessResponse
                                "Subject assigned to teacher successfully"
                          | Err _ =>
                              handlers.ErrorResponse
                                "Failed to assign subject to teacher"
                          end)
                         (gin.Set_ "role" (gin.any_string "admin")
                            (gin.Set_ "user_id"
                               (gin.any_int (jwt.UserID (jwt.Token_Claims token)))
                               (gin.Header_Set "Access-Control-Allow-Headers"
                                  "Content-Type, Authorization"
                                  (gin.Header_Set "Access-Control-Allow-Methods"
                                     "GET, POST, PUT, DELETE, OPTIONS"
                                     (gin.Header_Set
                                        "Access-Control-Allow-Origin" "*"
                                        c))))))).
  { subst served r. unfold routes.serve.
    cbn [routes.Route_Middleware routes.Route_Endpoint routes.teacherAdmin
         routes.teachers routes.protected routes.api routes.router app map
         gin.run routes.middlewareFunc].
    rewrite CORSMiddleware_passes by (by rewrite Hmethod).
    rewrite (JWTAuth_with_token jwtSecret tok now token)
      by (by rewrite ?(GetHeader_CORS (S := models.DB))).
    rewrite Hrole.
    unfold middleware.TeacherOrAdmin, middleware.AdminOnly.
    rewrite !Get_role_after_JWTAuth. cbn [bool_decide andb].
    rewrite (bool_decide_eq_false_2 ("admin" <> "admin")) by (by intros []).
    rewrite andb_false_r.
    rewrite Hendpoint. unfold handlers.AssignSubjectToTeacher.
    unfold handlers.isAdmin. rewrite Get_role_after_JWTAuth.
    rewrite bool_decide_eq_true_2 by done. cbn [negb].
    change (gin.Param (gin.Set_ _ _ (gin.Set_ _ _ _)) "id")
      with (gin.Param c "id").
    rewrite Hid. cbn [handlers.ShouldBindJSON].
    subst assigned. by destruct (models.AssignSubjectToTeacher _ _ _ _) as [[[]|e] db']. }
  split; [|split; [|split; [|split]]].
  - subst r. unfold routes.SetupRoutes. repeat constructor.
  - by rewrite Hserved.
  - rewrite Hserved. cbn. by destruct (assigned.1).
  - intros Hmissing. rewrite Hserved. subst assigned.
    by destruct (AssignSubjectToTeacher_missing teacherID
                   (handlers.SubjectID req) db_now db Hmissing) as [e ->].
  - intros Hok Ht Hs. rewrite Hserved. subst assigned.
    rewrite (AssignSubjectToTeacher_found _ _ _ _ Ht Hs).
    destruct (insert_teacher_subject_once teacherID (handlers.SubjectID req)
                db_now db Hok) as (Hfirst & _ & Hone).
    { destruct Ht as (u & Hu & Huid & _). eauto. }
    { done. }
    cbn [fst snd]. by rewrite Hfirst.
Qed.

(** X27.  [GET /api/protected] with a bearer token that validates at the
    clock reading of the gate: when it still validates at the reading of
    the handler, the answer is 200 with the token's role and user id;
    when it no longer does, the handler answers 401 "Unauthorized"
    itself.  The handler does not panic and the database is left alone. *)
Theorem protected_route_answers (h : handlers.Handler) (tok : string)
  (now now' : time.Time) (token : jwt.Token)
  (endpoints : routes.Endpoint -> gin.HandlerFunc models.DB)
  (db : models.DB) (c : gin.Context) :
  gin.Request_Method c = "GET" ->
  gin.GetHeader c "Authorization" = "Bearer " +:+ tok ->
  tok <> "" ->
  jwt.ParseWithClaims tok (handlers.JWTSecret h) now = jwt.Parsed token ->
  endpoints routes.HandleProtected = handlers.HandleProtected h now' ->
  let r := routes.mkRoute "GET" "/api/protected" routes.protected
             routes.HandleProtected in
  let served := routes.serve (handlers.JWTSecret h) now endpoints r db c in
  r ∈ routes.SetupRoutes
  /\ served.1 = db
  /\ (forall token',
        jwt.ParseWithClaims tok (handlers.JWTSecret h) now'
        = jwt.Parsed token' ->
        gin.Writer served.2
        = Some (gin.mkResponse http.StatusOK
                  (Some (gin.H [("message",
                                 gin.JString
                                   "Protected data accessed successfully");
                                ("role",
                                 gin.JString
                                   (jwt.Role (jwt.Token_Claims token')));
                                ("user_id",
                                 gin.JNumber
                                   (jwt.UserID (jwt.Token_Claims token')))]))))
  /\ (forall token' err,
        jwt.ParseWithClaims tok (handlers.JWTSecret h) now'
        = jwt.ParseError token' err ->
        gin.Writer served.2
        = Some (gin.mkResponse http.StatusUnauthorized
                  (Some (gin.H [("error", gin.JString "Unauthorized")])))).
Proof.
  intros Hmethod Hheader Htok Hparse Hendpoint r served.
  assert (Hserved : served
                    = handlers.HandleProtected h now' db
                        (gin.Set_ "role"
                           (gin.any_string (jwt.Role (jwt.Token_Claims token)))
                           (gin.Set_ "user_id"
                              (gin.any_int (jwt.UserID (jwt.Token_Claims token)))
                              (gin.Header_Set "Access-Control-Allow-Headers"
                                 "Content-Type, Authorization"
                                 (gin.Header_Set "Access-Control-Allow-Methods"
                                    "GET, POST, PUT, DELETE, OPTIONS"
                                    (gin.Header_Set
                                       "Access-Control-Allow-Origin" "*" c)))))
                        (gin.run [])).
  { subst served r. unfold routes.serve.
    cbn [routes.Route_Middleware routes.Route_Endpoint routes.protected
         routes.api routes.router app map gin.run routes.middlewareFunc].
    rewrite CORSMiddleware_passes by (by rewrite Hmethod).
    rewrite (JWTAuth_with_token (handlers.JWTSecret h) tok now token)
      by (by rewrite ?(GetHeader_CORS (S := models.DB))).
    by rewrite Hendpoint. }
  rewrite Hserved. unfold handlers.HandleProtected.
  rewrite extractToken_agree.
  change (gin.GetHeader (gin.Set_ _ _ (gin.Set_ _ _ _)) "Authorization")
    with (gin.GetHeader c "Authorization").
  rewrite Hheader, (extractToken_Bearer tok Htok).
  rewrite bool_decide_eq_false_2 by done.
  unfold handlers.validateToken.
  split; [|split; [|split]].
  - subst r. unfold routes.SetupRoutes. repeat constructor.
  - destruct (jwt.ParseWithClaims _ _ now') as [?|token'] eqn:Hparse';
      [done|].
    by rewrite (ParseWithClaims_Parsed_Valid _ _ _ _ Hparse').
  - intros token' Hparse'.
    rewrite Hparse', (ParseWithClaims_Parsed_Valid _ _ _ _ Hparse'). done.
  - intros token' err Hparse'. by rewrite Hparse'.
Qed.



(** X29.  [DELETE /api/teachers/:id/subjects/:subjectId] with an admin's
    token and numeric ids: ids within the 32-bit range of the key columns
    are answered 200 "Subject removed from teacher successfully" whether
    or not the teacher, the subject or the assignment exists; an id
    outside that range, which no row holds, is answered 500 "Failed to
    remove subject from teacher" with the database as it was.  Either way
    no row assigns the subject to the teacher afterwards, the other tables
    are as before, and when nothing was assigned the rows of
    [teacher_subjects] are as before too. *)
Theorem remove_subject_through_route (jwtSecret tok : string)
  (now : time.Time) (token : jwt.Token)
  (endpoints : routes.Endpoint -> gin.HandlerFunc models.DB)
  (teacherID subjectID : Z) (db : models.DB) (c : gin.Context) :
  gin.Request_Method c = "DELETE" ->
  gin.GetHeader c "Authorization" = "Bearer " +:+ tok ->
  tok <> "" ->
  jwt.ParseWithClaims tok jwtSecret now = jwt.Parsed token ->
  jwt.Role (jwt.Token_Claims token) = "admin" ->
  endpoints routes.RemoveSubjectFromTeacher
  = handlers.RemoveSubjectFromTeacher ->
  strconv.Atoi (gin.Param c "id") = Some teacherID ->
  strconv.Atoi (gin.Param c "subjectId") = Some subjectID ->
  let r := routes.mkRoute "DELETE" "/api/teachers/:id/subjects/:subjectId"
             routes.teacherAdmin routes.RemoveSubjectFromTeacher in
  let served := routes.serve jwtSecret now endpoints r db c in
  r ∈ routes.SetupRoutes
  /\ (-2147483648 <= teacherID <= 2147483647 ->
      -2147483648 <= subjectID <= 2147483647 ->
      gin.Writer served.2
      = Some (gin.mkResponse http.StatusOK
                (Some (gin.JObject
                         [("message",
                           gin.JString
                             "Subject removed from teacher successfully")]))))
  /\ (models.assignments teacherID subjectID db = [] ->
      teacherID < -2147483648 \/ 2147483647 < teacherID
      \/ subjectID < -2147483648 \/ 2147483647 < subjectID ->
      gin.Writer served.2
      = Some (gin.mkResponse http.StatusInternalServerError
                (Some (gin.JObject
                         [("error",
                           gin.JString
                             "Failed to remove subject from teacher")])))
      /\ served.1 = db)
  /\ models.assignments teacherID subjectID served.1 = []
  /\ models.users served.1 = models.users db
  /\ models.students served.1 = models.students db
  /\ models.subjects served.1 = models.subjects db
  /\ (models.assignments teacherID subjectID db = [] ->
      models.teacher_subjects served.1 = models.teacher_subjects db).
Proof.
  intros Hmethod Hheader Htok Hparse Hrole Hendpoint Hid Hsid r served.
  set (removed := models.RemoveSubjectFromTeacher teacherID subjectID db).
  assert (Hserved : served
                    = (removed.2,
                       gin.JSON
                         (match removed.1 with
                          | Ok _ => http.StatusOK
                          | Err _ => http.StatusInternalServerError
                          end)
                         (match removed.1 with
                          | Ok _ =>
                              handlers.SuccessResponse
                                "Subject removed from teacher successfully"
                          | Err _ =>
                              handlers.ErrorResponse
                                "Failed to remove subject from teacher"
                          end)
                         (gin.Set_ "role" (gin.any_string "admin")
                            (gin.Set_ "user_id"
                               (gin.any_int (jwt.UserID (jwt.Token_Claims token)))
                               (gin.Header_Set "Access-Control-Allow-Headers"
                                  "Content-Type, Authorization"
                                  (gin.Header_Set "Access-Control-Allow-Methods"
                                     "GET, POST, PUT, DELETE, OPTIONS"
                                     (gin.Header_Set
                                        "Access-Control-Allow-Origin" "*"
                                        c))))))).
  { subst served r. unfold routes.serve.
    cbn [routes.Route_Middleware routes.Route_Endpoint routes.teacherAdmin
         routes.teachers routes.protected routes.api routes.router app map
         gin.run routes.middlewareFunc].
    rewrite CORSMiddleware_passes by (by rewrite Hmethod).
    rewrite (JWTAuth_with_token jwtSecret tok now token)
      by (by rewrite ?(GetHeader_CORS (S := models.DB))).
    rewrite Hrole.
    unfold middleware.TeacherOrAdmin, middleware.AdminOnly.
    rewrite !Get_role_after_JWTAuth. cbn [bool_decide andb].
    rewrite (bool_decide_eq_false_2 ("admin" <> "admin")) by (by intros []).
    rewrite andb_false_r.
    rewrite Hendpoint. unfold handlers.RemoveSubjectFromTeacher.
    unfold handlers.isAdmin. rewrite Get_role_after_JWTAuth.
    rewrite bool_decide_eq_true_2 by done. cbn [negb].
    change (gin.Param (gin.Set_ _ _ (gin.Set_ _ _ _)) "id")
      with (gin.Param c "id").
    change (gin.Param (gin.Set_ _ _ (gin.Set_ _ _ _)) "subjectId")
      with (gin.Param c "subjectId").
    rewrite Hid, Hsid. fold removed.
    by destruct removed as [[[]|e] db']. }
  destruct (RemoveSubjectFromTeacher_tables teacherID subjectID db)
    as (Husers & Hstudents & Hsubjects & Hrows).
  cbn zeta in Husers, Hstudents, Hsubjects, Hrows. fold removed in Husers,
    Hstudents, Hsubjects, Hrows.
  rewrite Hserved. cbn [fst snd].
  split; [|split; [|split; [|split; [|split; [done|split; [done|split;
    [done|]]]]]]].
  - subst r. unfold routes.SetupRoutes. repeat constructor.
  - intros Ht Hs. subst removed.
    by rewrite (RemoveSubjectFromTeacher_integer _ _ db Ht Hs).
  - intros Hnone Hrange. subst removed.
    by rewrite (RemoveSubjectFromTeacher_out_of_range _ _ db Hnone Hrange).
  - unfold models.assignments. rewrite Hrows. apply filter_none.
    intros ts Hts%list_elem_of_filter. tauto.
  - intros Hnone. rewrite Hrows. apply filter_all. intros ts Hts Hpair.
    assert (ts ∈ models.assignments teacherID subjectID db) as Hin
      by by apply list_elem_of_filter.
    rewrite Hnone in Hin. by apply elem_of_nil in Hin.
Qed.


End gated_endpoints.

(** * The further properties at concrete inputs *)

Lemma examples_users_elem_of (u : models.User) :
  u ∈ models.users examples.db ->
  u = examples.test_admin \/ u = examples.test_teacher
  \/ u = examples.test_student \/ u = examples.wg.
Proof.
  unfold examples.db. cbn. rewrite !elem_of_cons, elem_of_nil. tauto.
Qed.



Lemma CreateStudent_then_lookup_witness :
  models.GetStudentByID 2
    (models.CreateStudent examples.new_student 10 11 examples.db).2
  = Ok (models.mkStudent 2 5 "Ada" "Lovelace" "ada@example.com" "IB2" 11 11
                         "ada")
  /\ models.GetUserByUsername "ada"
       (models.CreateStudent examples.new_student 10 11 examples.db).2
     = Ok (models.mkUser 5 "ada" "analytical" "student" 10).
Proof.
  apply (CreateStudent_then_lookup examples.new_student 10 11 examples.db
           (models.CreateStudent examples.new_student 10 11 examples.db).2
           (models.mkStudent 2 5 "Ada" "Lovelace" "ada@example.com" "IB2"
                             11 11 "ada")).
  vm_compute. reflexivity.
Defined.

Lemma UpdateStudent_then_GetStudentByID_witness :
  models.GetStudentByID 1
    (models.UpdateStudent 1 examples.rename_student 20 examples.db).2
  = Ok (models.mkStudent 1 3 "Test" "Pupil" "test.pupil@example.com" "IB2" 0
                         20 "test_student").
Proof.
  apply (UpdateStudent_then_GetStudentByID 1 examples.rename_student 20
           examples.db
           (models.UpdateStudent 1 examples.rename_student 20 examples.db).2
           (models.mkStudent 1 3 "Test" "Pupil" "test.pupil@example.com"
                             "IB2" 0 20 "test_student")).
  vm_compute. reflexivity.
Defined.


Lemma UpdateStudent_new_password_witness :
  exists u,
    models.GetUserByUsername "test_student"
      (models.UpdateStudent 1 examples.new_password 21 examples.db).2 = Ok u
    /\ models.User_ID u = 3
    /\ models.User_Password u = "s3cret"
    /\ models.CheckPassword u "s3cret" = true
    /\ models.CheckPassword u "test_student" = false.
Proof.
  destruct (UpdateStudent_new_password 1 examples.new_password 21 examples.db
              (models.UpdateStudent 1 examples.new_password 21 examples.db).2
              (models.mkStudent 1 3 "Test" "Student"
                 "test.student@example.com" "IB1" 0 21 "test_student"))
    as (u & Hfind & Hid & Hpassword & Hcheck).
  - apply (bool_decide_unpack _). vm_compute. exact I.
  - vm_compute. reflexivity.
  - discriminate.
  - exists u. split; [exact Hfind|]. split; [exact Hid|].
    split; [exact Hpassword|]. rewrite !Hcheck. split; reflexivity.
Defined.

Lemma DeleteStudent_removes_witness :
  (models.DeleteStudent 1 examples.db).1 = Ok tt
  /\ models.GetStudentByID 1 (models.DeleteStudent 1 examples.db).2
     = Err sql_ErrNoRows
  /\ models.DeleteStudent 1 (models.DeleteStudent 1 examples.db).2
     = (Err sql_ErrNoRows, (models.DeleteStudent 1 examples.db).2).
Proof.
  destruct (DeleteStudent_removes 1 examples.db examples.student_row)
    as (Hok & _ & _ & _ & _ & _ & _ & Hagain).
  - reflexivity.
  - split; [exact Hok|]. apply Hagain. lia.
Defined.

Lemma examples_students_constraints : models.students_constraints examples.db.
Proof.
  split; [|split].
  - apply (bool_decide_unpack _). vm_compute. exact I.
  - apply (bool_decide_unpack _). vm_compute. exact I.
  - constructor; [|constructor]. exists examples.test_student.
    split; [repeat constructor|reflexivity].
Qed.

Lemma GetAllStudents_lists_every_student_witness :
  exists rows,
    @models.GetAllStudents instances.C_collation examples.db = Ok rows
    /\ models.Student_ID <$> rows ≡ₚ [1].
Proof.
  destruct (@GetAllStudents_lists_every_student instances.C_collation
              String.le_total _ examples.db)
    as (rows & Hrows & _ & _ & Hids).
  exists rows. split; [exact Hrows|].
  exact (Hids examples_students_constraints).
Defined.


Lemma assigned_subject_is_listed_witness :
  exists before rows1 rows2,
    @models.GetTeacherSubjects instances.C_collation 4 examples.db = Ok before
    /\ @models.GetTeacherSubjects instances.C_collation 4
         (models.AssignSubjectToTeacher 4 9 30 examples.db).2 = Ok rows1
    /\ @models.GetTeacherSubjects instances.C_collation 4
         (models.RemoveSubjectFromTeacher 4 9
            (models.AssignSubjectToTeacher 4 9 30 examples.db).2).2
       = Ok rows2
    /\ (exists x, x ∈ rows1 /\ models.Subject_ID x = 9)
    /\ (forall x, x ∈ rows2 <-> x ∈ before /\ models.Subject_ID x <> 9).
Proof.
  destruct (@assigned_subject_is_listed instances.C_collation 4 9 30
              examples.db (models.AssignSubjectToTeacher 4 9 30 examples.db).2)
    as (before & rows1 & rows2 & H0 & H1 & H2 & Hin & _ & Hout).
  - vm_compute. reflexivity.
  - exists before, rows1, rows2.
    split; [exact H0|]. split; [exact H1|]. split; [exact H2|].
    split; [exact Hin|exact Hout].
Defined.

Lemma RemoveSubjectFromTeacher_removes_witness :
  (models.RemoveSubjectFromTeacher 4 3 examples.db).1 = Ok tt
  /\ models.teacher_subjects (models.RemoveSubjectFromTeacher 4 3 examples.db).2
     = []
  /\ (models.RemoveSubjectFromTeacher 4 9 examples.db).1 = Ok tt
  /\ models.RemoveSubjectFromTeacher 4 2147483648 examples.db
     = (Err pq_NumericValueOutOfRange, examples.db).
Proof.
  pose proof (RemoveSubjectFromTeacher_removes 4 3 examples.db) as Hassigned.
  pose proof (RemoveSubjectFromTeacher_removes 4 9 examples.db) as Hfree.
  pose proof (RemoveSubjectFromTeacher_removes 4 2147483648 examples.db)
    as Hbeyond.
  cbn zeta in Hassigned, Hfree, Hbeyond.
  destruct Hassigned as (Hok & _), Hfree as (Hok' & _),
    Hbeyond as (_ & Herr & _).
  split; [apply Hok; lia|]. split; [reflexivity|].
  split; [apply Hok'; lia|]. apply Herr; [reflexivity|lia].
Defined.

Lemma GetTeacherByID_teachers_only_witness :
  @models.GetTeacherByID instances.C_collation 3 examples.db
  = Err sql_ErrNoRows
  /\ @models.GetTeacherByID instances.C_collation 2147483648 examples.db
     = Err pq_NumericValueOutOfRange
  /\ @handlers.GetTeacherByID instances.C_collation examples.db
       (examples.request "GET" [] [("id", "2147483648")]) examples.done_
     = (examples.db,
        gin.JSON http.StatusNotFound
          (handlers.ErrorResponse "Teacher not found")
          (examples.request "GET" [] [("id", "2147483648")])).
Proof.
  destruct (proj1 (@GetTeacherByID_teachers_only instances.C_collation 3
                     examples.db)) as (Hwithin & _ & _).
  { intros u Hu Hid.
    destruct (examples_users_elem_of u Hu) as [->|[->|[->| ->]]];
      discriminate. }
  destruct (proj1 (@GetTeacherByID_teachers_only instances.C_collation
                     2147483648 examples.db)) as (_ & Hbeyond & Hhandler).
  { intros u Hu Hid.
    destruct (examples_users_elem_of u Hu) as [->|[->|[->| ->]]];
      discriminate. }
  split; [apply Hwithin; lia|]. split; [apply Hbeyond; lia|].
  apply Hhandler. vm_compute. reflexivity.
Defined.

Lemma GetAllTeachers_lists_teachers_witness :
  exists teachers,
    @models.GetAllTeachers instances.C_collation examples.db = Ok teachers
    /\ models.Teacher_ID <$> teachers ≡ₚ [2; 4].
Proof.
  destruct (@GetAllTeachers_lists_teachers instances.C_collation
              String.le_total _ examples.db)
    as (teachers & Hteachers & _ & Hids & _).
  exists teachers. split; [exact Hteachers|exact Hids].
Defined.

Lemma CreateTestUsers_seeds_witness :
  exists n news db',
    main.CreateTestUsers (fun _ => "") examples.clock examples.db
    = (Ok tt, (n, db'))
    /\ models.users db' = models.users examples.db ++ news
    /\ length news = n
    /\ (forall a, a ∈ main.test_accounts ->
                  exists u, u ∈ models.users db'
                            /\ models.User_Username u = a.1.1).
Proof.
  destruct (CreateTestUsers_seeds (fun _ => "") examples.clock examples.db)
    as (n & news & db' & Hrun & Husers & Hn & _ & Hfound & _).
  - repeat (constructor; try done).
  - exists n, news, db'. split; [exact Hrun|]. split; [exact Husers|].
    split; [exact Hn|exact Hfound].
Defined.

Lemma CreateTestUsers_idempotent_witness :
  main.CreateTestUsers (fun _ => "") (fun _ => 1000)
    (main.CreateTestUsers (fun _ => "") examples.clock examples.db).2.2
  = (Ok tt,
     (0%nat,
      (main.CreateTestUsers (fun _ => "") examples.clock examples.db).2.2)).
Proof.
  apply (CreateTestUsers_idempotent (fun _ => "") examples.clock
           (fun _ => 1000) 5 examples.db).
  vm_compute. reflexivity.
Defined.

Lemma extractToken_Bearer_iff_witness :
  middleware.extractToken "Bearer abc.def.ghi" = "abc.def.ghi"
  <-> "Bearer abc.def.ghi" = "Bearer " +:+ "abc.def.ghi".
Proof.
  apply (extractToken_Bearer_iff "Bearer abc.def.ghi" "abc.def.ghi").
  discriminate.
Defined.

Lemma examples_endpoints_keep_headers (e : routes.Endpoint) (db : models.DB)
  (c : gin.Context)
  (next : models.DB -> gin.Context -> models.DB * gin.Context) :
  gin.Writer_Header (examples.endpoints e db c next).2 = gin.Writer_Header c.
Proof.
  destruct e; try done; cbn.
  - unfold handlers.GetSubjectsByGrade.
    destruct (_ && _); [done|].
    by destruct (models.GetSubjectsByGrade _ _).
  - unfold handlers.HandleDeleteStudent.
    destruct (handlers.validateAdminToken _ _ _) as [[claims|err]|]; try done.
    destruct (strconv.Atoi _) as [id|]; [|done].
    by destruct (models.DeleteStudent id db) as [[[]|err] db'].
Qed.

Lemma responses_carry_CORS_headers_witness :
  gin.Writer_Header
    (examples.serve examples.create_student_route examples.db
       (examples.request "POST" [] [])).2
  !! "Access-Control-Allow-Origin" = Some "*"
  /\ gin.status
       (examples.serve examples.create_student_route examples.db
          (examples.request "POST" [] [])).2 = http.StatusUnauthorized.
Proof.
  destruct (responses_carry_CORS_headers (P := instances.primitives)
              (handlers.JWTSecret examples.handler) 5 examples.endpoints
              examples.create_student_route examples.db
              (examples.request "POST" [] []))
    as [[Horigin _] _].
  - unfold routes.SetupRoutes, examples.create_student_route.
    repeat constructor.
  - exact examples_endpoints_keep_headers.
  - split; [exact Horigin|reflexivity].
Defined.

Lemma TeacherOrAdmin_forbids_other_roles_witness :
  exists c',
    examples.serve examples.teachers_route examples.db
      (examples.request_as examples.test_student "GET" [])
    = (examples.db, c')
    /\ gin.Writer c'
       = Some (gin.mkResponse http.StatusForbidden
                 (Some (gin.H [("error",
                                gin.JString
                                  "Teacher or admin access required")])))
    /\ gin.IsAborted c' = true.
Proof.
  apply (TeacherOrAdmin_forbids_other_roles (P := instances.primitives)
           (handlers.JWTSecret examples.handler)
           (examples.token_of examples.test_student) 5
           (jwt.mkToken (handlers.newClaims examples.test_student 0 0) true)
           examples.endpoints examples.teachers_route examples.db
           (examples.request_as examples.test_student "GET" [])).
  - unfold routes.SetupRoutes, examples.teachers_route. repeat constructor.
  - unfold examples.teachers_route. cbn. repeat constructor.
  - reflexivity.
  - vm_compute. reflexivity.
  - vm_compute. discriminate.
  - vm_compute. reflexivity.
  - discriminate.
  - discriminate.
Defined.

Lemma admitted_request_reaches_endpoint_witness :
  examples.serve examples.delete_student_route examples.db
    (examples.request_as examples.test_admin "DELETE" [("id", "1")])
  = ((models.DeleteStudent 1 examples.db).2,
     gin.JSON http.StatusOK
       (gin.H [("message", gin.JString "Student deleted successfully")])
       (gin.Set_ "role" (gin.any_string "admin")
          (gin.Set_ "user_id" (gin.any_int 1)
             (gin.Header_Set "Access-Control-Allow-Headers"
                "Content-Type, Authorization"
                (gin.Header_Set "Access-Control-Allow-Methods"
                   "GET, POST, PUT, DELETE, OPTIONS"
                   (gin.Header_Set "Access-Control-Allow-Origin" "*"
                      (examples.request_as examples.test_admin "DELETE"
                         [("id", "1")]))))))).
Proof.
  unfold examples.serve.
  rewrite (admitted_request_reaches_endpoint (P := instances.primitives)
             (handlers.JWTSecret examples.handler)
             (examples.token_of examples.test_admin) 5
             (jwt.mkToken (handlers.newClaims examples.test_admin 0 0) true)
             examples.endpoints examples.delete_student_route examples.db
             (examples.request_as examples.test_admin "DELETE"
                [("id", "1")])).
  - vm_compute. reflexivity.
  - unfold routes.SetupRoutes, examples.delete_student_route.
    repeat constructor.
  - unfold examples.delete_student_route. cbn. repeat constructor.
  - reflexivity.
  - vm_compute. reflexivity.
  - vm_compute. discriminate.
  - vm_compute. reflexivity.
  - reflexivity.
  - intros Hmw. exfalso. unfold examples.delete_student_route in Hmw.
    cbn in Hmw. repeat (apply elem_of_cons in Hmw as [Hmw|Hmw]; [done|]).
    by apply elem_of_nil in Hmw.
Defined.

Lemma public_routes_witness :
  routes.serve (P := instances.primitives)
    (handlers.JWTSecret examples.handler) 5 examples.server
    examples.login_route examples.db (examples.request "POST" [] [])
  = handlers.HandleLogin (P := instances.primitives) examples.handler 6 6
      (Some (handlers.mkLoginRequest "wg" "wg_123")) examples.db
      (gin.Header_Set "Access-Control-Allow-Headers"
         "Content-Type, Authorization"
         (gin.Header_Set "Access-Control-Allow-Methods"
            "GET, POST, PUT, DELETE, OPTIONS"
            (gin.Header_Set "Access-Control-Allow-Origin" "*"
               (examples.request "POST" [] []))))
      (gin.run []).
Proof.
  destruct (public_routes (P := instances.primitives)
              (handlers.JWTSecret examples.handler) 5 examples.server
              examples.login_route examples.db (examples.request "POST" [] []))
    as [_ Hserve].
  - unfold routes.SetupRoutes, examples.login_route. repeat constructor.
  - apply Hserve; [|reflexivity].
    unfold examples.login_route. cbn. intros Hmw.
    apply list_elem_of_singleton in Hmw. discriminate.
Defined.

Lemma JWTAuth_rejects_expired_and_forged_witness :
  gin.Writer
    (routes.serve (P := instances.primitives)
       (handlers.JWTSecret examples.handler) (25 * time.Hour)
       examples.endpoints examples.delete_student_route examples.db
       (examples.request_as examples.test_admin "DELETE" [("id", "1")])).2
  = Some (gin.mkResponse http.StatusUnauthorized
            (Some (gin.H [("error", gin.JString "Invalid token")]))).
Proof.
  rewrite (JWTAuth_rejects_expired_and_forged (P := instances.primitives)
             instances_lawful (handlers.JWTSecret examples.handler)
             (handlers.JWTSecret examples.handler)
             (examples.token_of examples.test_admin) examples.test_admin
             0 0 (25 * time.Hour) examples.endpoints
             examples.delete_student_route examples.db
             (examples.request_as examples.test_admin "DELETE"
                [("id", "1")])).
  - reflexivity.
  - unfold routes.SetupRoutes, examples.delete_student_route.
    repeat constructor.
  - unfold examples.delete_student_route. cbn. repeat constructor.
  - reflexivity.
  - vm_compute. reflexivity.
  - vm_compute. reflexivity.
  - left. split; [reflexivity|]. vm_compute. discriminate.
Defined.


Lemma created_student_can_log_in_witness :
  exists token user,
    handlers.HandleLogin (P := instances.primitives) examples.handler 40 41
      (Some (handlers.mkLoginRequest "ada" "analytical"))
      (handlers.HandleCreateStudent (P := instances.primitives)
         examples.handler 5 (Some examples.new_student) 10 11 examples.db
         (examples.request_as examples.test_admin "POST" []) examples.done_).1
      (examples.request "POST" [] []) examples.done_
    = ((handlers.HandleCreateStudent (P := instances.primitives)
          examples.handler 5 (Some examples.new_student) 10 11 examples.db
          (examples.request_as examples.test_admin "POST" [])
          examples.done_).1,
       gin.JSON http.StatusOK
         (gin.JObject
            [("token", gin.JString token);
             ("user",
              gin.JObject
                [("id", gin.JNumber (models.User_ID user));
                 ("username", gin.JString "ada");
                 ("role", gin.JString "student");
                 ("date_created", gin.JTime (models.User_DateCreated user))])])
         (examples.request "POST" [] []))
    /\ handlers.createToken (P := instances.primitives) user
         (handlers.JWTSecret examples.handler) 40 41 = Ok token
    /\ models.User_Username user = "ada"
    /\ models.User_Role user = "student".
Proof.
  destruct (created_student_can_log_in (P := instances.primitives)
              instances_lawful examples.handler 5 10 11 40 41
              examples.new_student examples.db
              (examples.request_as examples.test_admin "POST" [])
              (examples.request "POST" [] []) examples.done_ examples.done_)
    as (token & user & Hlogin & Htoken & _ & Hname & _ & Hrole & _).
  - vm_compute. reflexivity.
  - exists token, user. split; [exact Hlogin|]. split; [exact Htoken|].
    split; [exact Hname|exact Hrole].
Defined.

Lemma assign_subject_through_route_witness :
  (routes.serve (P := instances.primitives)
     (handlers.JWTSecret examples.handler) 5 examples.server
     examples.assign_subject_route examples.db
     (examples.request_as examples.test_admin "POST" [("id", "4")])).1
  = (models.AssignSubjectToTeacher 4 9 7 examples.db).2
  /\ gin.status
       (routes.serve (P := instances.primitives)
          (handlers.JWTSecret examples.handler) 5 examples.server
          examples.assign_subject_route examples.db
          (examples.request_as examples.test_admin "POST" [("id", "4")])).2
     = http.StatusOK
  /\ length
       (models.assignments 4 9
          (routes.serve (P := instances.primitives)
             (handlers.JWTSecret examples.handler) 5 examples.server
             examples.assign_subject_route examples.db
             (examples.request_as examples.test_admin "POST"
                [("id", "4")])).1) = 1%nat.
Proof.
  destruct (assign_subject_through_route (P := instances.primitives)
              (handlers.JWTSecret examples.handler)
              (examples.token_of examples.test_admin) 5 7
              (jwt.mkToken (handlers.newClaims examples.test_admin 0 0) true)
              examples.server examples.assign_ib1_physics 4 examples.db
              (examples.request_as examples.test_admin "POST" [("id", "4")]))
    as (_ & Hdb & _ & _ & Hassigned).
  - reflexivity.
  - vm_compute. reflexivity.
  - vm_compute. discriminate.
  - vm_compute. reflexivity.
  - reflexivity.
  - reflexivity.
  - vm_compute. reflexivity.
  - split; [exact Hdb|]. apply Hassigned.
    + split; [|by repeat constructor].
      apply (bool_decide_unpack _). vm_compute. exact I.
    + exists examples.wg. split; [repeat constructor|]. split; reflexivity.
    + exists examples.ib1_physics. split; [repeat constructor|reflexivity].
Defined.

Lemma protected_route_answers_witness :
  gin.Writer
    (routes.serve (P := instances.primitives)
       (handlers.JWTSecret examples.handler) 5 examples.server
       examples.protected_route examples.db
       (examples.request_as examples.wg "GET" [])).2
  = Some (gin.mkResponse http.StatusOK
            (Some (gin.H [("message",
                           gin.JString "Protected data accessed successfully");
                          ("role", gin.JString "teacher");
                          ("user_id", gin.JNumber 4)]))).
Proof.
  destruct (protected_route_answers (P := instances.primitives)
              examples.handler (examples.token_of examples.wg) 5 6
              (jwt.mkToken (handlers.newClaims examples.wg 0 0) true)
              examples.server examples.db
              (examples.request_as examples.wg "GET" []))
    as (_ & _ & Hvalid & _).
  - reflexivity.
  - vm_compute. reflexivity.
  - vm_compute. discriminate.
  - vm_compute. reflexivity.
  - reflexivity.
  - apply (Hvalid (jwt.mkToken (handlers.newClaims examples.wg 0 0) true)).
    vm_compute. reflexivity.
Defined.

Lemma remove_subject_through_route_witness :
  gin.status
    (routes.serve (P := instances.primitives)
       (handlers.JWTSecret examples.handler) 5 examples.server
       examples.remove_subject_route examples.db
       (examples.request_as examples.test_admin "DELETE"
          [("id", "4"); ("subjectId", "10")])).2 = http.StatusOK
  /\ models.teacher_subjects
       (routes.serve (P := instances.primitives)
          (handlers.JWTSecret examples.handler) 5 examples.server
          examples.remove_subject_route examples.db
          (examples.request_as examples.test_admin "DELETE"
             [("id", "4"); ("subjectId", "10")])).1
     = models.teacher_subjects examples.db
  /\ routes.serve (P := instances.primitives)
       (handlers.JWTSecret examples.handler) 5 examples.server
       examples.remove_subject_route examples.db
       (examples.request_as examples.test_admin "DELETE"
          [("id", "4"); ("subjectId", "2147483648")])
     = (examples.db,
        (routes.serve (P := instances.primitives)
           (handlers.JWTSecret examples.handler) 5 examples.server
           examples.remove_subject_route examples.db
           (examples.request_as examples.test_admin "DELETE"
              [("id", "4"); ("subjectId", "2147483648")])).2)
  /\ gin.status
       (routes.serve (P := instances.primitives)
          (handlers.JWTSecret examples.handler) 5 examples.server
          examples.remove_subject_route examples.db
          (examples.request_as examples.test_admin "DELETE"
             [("id", "4"); ("subjectId", "2147483648")])).2
     = http.StatusInternalServerError.
Proof.
  destruct (remove_subject_through_route (P := instances.primitives)
              (handlers.JWTSecret examples.handler)
              (examples.token_of examples.test_admin) 5
              (jwt.mkToken (handlers.newClaims examples.test_admin 0 0) true)
              examples.server 4 10 examples.db
              (examples.request_as examples.test_admin "DELETE"
                 [("id", "4"); ("subjectId", "10")]))
    as (_ & Hwriter & _ & _ & _ & _ & _ & Hsame).
  1: reflexivity.
  1: vm_compute; reflexivity.
  1: vm_compute; discriminate.
  1: vm_compute; reflexivity.
  1: reflexivity.
  1: reflexivity.
  1: vm_compute; reflexivity.
  1: vm_compute; reflexivity.
  destruct (remove_subject_through_route (P := instances.primitives)
              (handlers.JWTSecret examples.handler)
              (examples.token_of examples.test_admin) 5
              (jwt.mkToken (handlers.newClaims examples.test_admin 0 0) true)
              examples.server 4 2147483648 examples.db
              (examples.request_as examples.test_admin "DELETE"
                 [("id", "4"); ("subjectId", "2147483648")]))
    as (_ & _ & Hbeyond & _).
  1: reflexivity.
  1: vm_compute; reflexivity.
  1: vm_compute; discriminate.
  1: vm_compute; reflexivity.
  1: reflexivity.
  1: reflexivity.
  1: vm_compute; reflexivity.
  1: vm_compute; reflexivity.
  destruct Hbeyond as [Hfailed Hdb]; [reflexivity|lia|].
  split; [|split; [|split]].
  - unfold gin.status, examples.remove_subject_route.
    rewrite Hwriter by lia. reflexivity.
  - apply Hsame. reflexivity.
  - unfold examples.remove_subject_route. rewrite <- Hdb at 1.
    by destruct (routes.serve _ _ _ _ _ _).
  - unfold gin.status, examples.remove_subject_route. by rewrite Hfailed.
Defined.

